(** * analyzeRepository.py: a shallow embedding of the repository analyzer

    The script [backend/src/scripts/analyzeRepository.py] clones a
    repository into a temporary directory, runs six analyzers over the
    checkout, folds their scores into an aggregate and prints the report.

    The embedding follows the script function by function.

    - Python numbers are [num]: an unbounded [Int] or a binary64 [Float];
      binary64 arithmetic is the specification of IEEE 754 in the Rocq
      core library ([SpecFloat], round to nearest even), so a score that
      goes through a division or a rounding is computed as CPython
      computes it, not over the reals.
    - Python exceptions are the [Raise] branch of [result]; every
      [try]/[except] of the script is a [match] on it.
    - What the script asks of the outside world (the files of the
      checkout, the outcome of each child process, [mkdtemp], [rmtree],
      [json.loads], [urlparse], the clock) is an explicit argument.
    - A directory of the checkout may be [Locked] (no permission to
      search or list it): [Path.exists] then raises PermissionError for
      what lies below it, as pathlib does for every error of [stat]
      other than ENOENT, ENOTDIR, EBADF and ELOOP, while [glob] and
      [rglob] pass it over.  The other errors of [stat] (an input/output
      error, say) are not modelled.
    - The disk of the model holds the directories [mkdtemp] created,
      not what [git clone] writes into them: that is the [checkout] of
      the environment.
    - Text is [string]; a character stands for the code point of the same
      number, so the embedding covers text within U+0000..U+00FF.

    Left out: what the script prints to stderr, the serialization of the
    report, the parsing of the command line, and exceptions that are not
    subclasses of [Exception] (KeyboardInterrupt, SystemExit), which no
    handler of the script catches.  The text of an exception is kept
    short. *)

From Stdlib Require Import ZArith QArith List Bool Lia.
From Stdlib Require Import Strings.Ascii Strings.String.
From Stdlib Require Import Floats.SpecFloat.
Import ListNotations.

Local Open Scope string_scope.
Local Open Scope Z_scope.

(** ** Exceptions and results *)

Module Py.

(** The exception classes the script tells apart, each with the text
    [str(e)] gives.  [OtherError] is any other subclass of [Exception]
    (OSError, AttributeError, TypeError, OverflowError, ...). *)
Inductive exn : Type :=
| CalledProcessError (msg : string)
| TimeoutExpired (msg : string)
| JSONDecodeError (msg : string)
| UnicodeDecodeError (msg : string)
| OtherError (msg : string).

Definition str_of_exn (e : exn) : string :=
  match e with
  | CalledProcessError m | TimeoutExpired m | JSONDecodeError m
  | UnicodeDecodeError m | OtherError m => m
  end.

Inductive result (A : Type) : Type :=
| Ret (a : A)
| Raise (e : exn).
Arguments Ret {A} a.
Arguments Raise {A} e.

Definition bind {A B} (c : result A) (k : A -> result B) : result B :=
  match c with
  | Ret a => k a
  | Raise e => Raise e
  end.

Definition returns {A} (c : result A) : bool :=
  match c with Ret _ => true | Raise _ => false end.

End Py.
Export Py.

Declare Scope py_scope.
Delimit Scope py_scope with py.
Notation "x <- c ;; k" := (bind c (fun x => k))
  (at level 61, c at next level, right associativity) : py_scope.
Notation "' pat <- c ;; k" := (bind c (fun x => match x with pat => k end))
  (at level 61, pat pattern, c at next level, right associativity) : py_scope.
Local Open Scope py_scope.

(** Monadic iteration: a [for] loop whose body may raise. *)
Fixpoint foldM {A S : Type} (f : S -> A -> result S) (l : list A) (s : S)
  : result S :=
  match l with
  | [] => Ret s
  | x :: l' => s' <- f s x ;; foldM f l' s'
  end.

(** ** Python numbers *)

Module Num.

Definition prec : Z := 53.
Definition emax : Z := 1024.

Inductive num : Type :=
| Int (z : Z)
| Float (f : spec_float).

Definition fadd := SFadd prec emax.
Definition fmul := SFmul prec emax.
Definition fdiv := SFdiv prec emax.

(** The binary64 nearest to the integer [z], ties to even. *)
Definition nearest_of_Z (z : Z) : spec_float :=
  binary_normalize prec emax z 0 false.

(** The binary64 nearest to the fraction [a / b] for [b <> 0]. *)
Definition nearest_of_frac (a b : Z) : spec_float :=
  match a with
  | Z0 => S754_zero (b <? 0)
  | _ =>
      let '(q, e, l) := SFdiv_core_binary prec emax (Z.abs a) 0 (Z.abs b) 0 in
      binary_round_aux prec emax (xorb (a <? 0) (b <? 0)) q e l
  end.

Definition is_infinite (f : spec_float) : bool :=
  match f with S754_infinity _ => true | _ => false end.

(** [float(z)]: OverflowError when [z] is beyond the binary64 range. *)
Definition float_of_int (z : Z) : result spec_float :=
  let f := nearest_of_Z z in
  if is_infinite f
  then Raise (OtherError "int too large to convert to float")
  else Ret f.

Definition to_float (x : num) : result spec_float :=
  match x with
  | Int z => float_of_int z
  | Float f => Ret f
  end.

(** [x + y] *)
Definition add (x y : num) : result num :=
  match x, y with
  | Int a, Int b => Ret (Int (a + b))
  | _, _ => a <- to_float x ;; b <- to_float y ;; Ret (Float (fadd a b))
  end.

(** [x - y] *)
Definition sub (x y : num) : result num :=
  match x, y with
  | Int a, Int b => Ret (Int (a - b))
  | _, _ =>
      a <- to_float x ;; b <- to_float y ;;
      Ret (Float (SFsub prec emax a b))
  end.

(** [x * y] *)
Definition mul (x y : num) : result num :=
  match x, y with
  | Int a, Int b => Ret (Int (a * b))
  | _, _ => a <- to_float x ;; b <- to_float y ;; Ret (Float (fmul a b))
  end.

Definition is_zero (f : spec_float) : bool :=
  match f with S754_zero _ => true | _ => false end.

(** [x / y], true division: the quotient of two ints is correctly
    rounded; a zero divisor and an int quotient beyond the binary64
    range raise. *)
Definition truediv (x y : num) : result num :=
  match x, y with
  | Int a, Int b =>
      if b =? 0 then Raise (OtherError "division by zero")
      else
        let q := nearest_of_frac a b in
        if is_infinite q
        then Raise (OtherError "integer division result too large for a float")
        else Ret (Float q)
  | _, _ =>
      a <- to_float x ;; b <- to_float y ;;
      if is_zero b then Raise (OtherError "float division by zero")
      else Ret (Float (fdiv a b))
  end.

(** Comparison of a finite binary64 [(-1)^s * m * 2^e] with an integer,
    on the exact values, as CPython compares a float with an int. *)
Definition compare_finite_Z (s : bool) (m : positive) (e : Z) (z : Z)
  : comparison :=
  let v := if s then Z.neg m else Z.pos m in
  match e with
  | Z0 => Z.compare v z
  | Z.pos p => Z.compare (v * 2 ^ Z.pos p) z
  | Z.neg p => Z.compare v (z * 2 ^ Z.pos p)
  end.

Definition compare_float_Z (f : spec_float) (z : Z) : option comparison :=
  match f with
  | S754_nan => None
  | S754_infinity s => Some (if s then Lt else Gt)
  | S754_zero _ => Some (Z.compare 0 z)
  | S754_finite s m e => Some (compare_finite_Z s m e z)
  end.

(** [Some c] when [x] and [y] are ordered, [None] when one is NaN. *)
Definition compare (x y : num) : option comparison :=
  match x, y with
  | Int a, Int b => Some (Z.compare a b)
  | Float f, Int b => compare_float_Z f b
  | Int a, Float g => option_map CompOpp (compare_float_Z g a)
  | Float f, Float g => SFcompare f g
  end.

(** [x < y], [x <= y], [x > y] *)
Definition ltb (x y : num) : bool :=
  match compare x y with Some Lt => true | _ => false end.
Definition leb (x y : num) : bool :=
  match compare x y with Some (Lt | Eq) => true | _ => false end.
Definition gtb (x y : num) : bool := ltb y x.

(** [min(x, y)] and [max(x, y)]: the first argument is kept unless the
    second is strictly smaller (larger). *)
Definition min (x y : num) : num := if ltb y x then y else x.
Definition max (x y : num) : num := if gtb y x then y else x.

(** Division of [a] by [b > 0] rounded to the nearest integer, ties to
    the even one. *)
Definition div_half_even (a b : Z) : Z :=
  let q := a / b in
  let r := a mod b in
  match Z.compare (2 * r) b with
  | Lt => q
  | Gt => q + 1
  | Eq => if Z.even q then q else q + 1
  end.

(** The exact value of a finite binary64 times 100, rounded half to even:
    the digits [round(x, 2)] keeps. *)
Definition hundredths (s : bool) (m : positive) (e : Z) : Z :=
  let v := if s then Z.neg m else Z.pos m in
  match e with
  | Z0 => 100 * v
  | Z.pos p => 100 * v * 2 ^ Z.pos p
  | Z.neg p => div_half_even (100 * v) (2 ^ Z.pos p)
  end.

(** [round(x, 2)]: an int is returned as it is; a float is rounded
    correctly: the decimal with two digits nearest to its exact value
    (ties to even), then the binary64 nearest to that decimal. *)
Definition round2 (x : num) : result num :=
  match x with
  | Int z => Ret (Int z)
  | Float (S754_finite s m e) =>
      let h := hundredths s m e in
      if h =? 0 then Ret (Float (S754_zero s))
      else
        let r := nearest_of_frac h 100 in
        if is_infinite r
        then Raise (OtherError "rounded value too large to represent")
        else Ret (Float r)
  | Float f => Ret (Float f)
  end.

(** The exact rational value of an ordered number ([None] for the
    infinities and NaN). *)
Definition to_Q (x : num) : option Q :=
  match x with
  | Int z => Some (inject_Z z)
  | Float (S754_zero _) => Some 0%Q
  | Float (S754_finite s m e) =>
      let v := if s then Z.neg m else Z.pos m in
      Some match e with
           | Z0 => inject_Z v
           | Z.pos p => inject_Z (v * 2 ^ Z.pos p)
           | Z.neg p => Qmake v (2 ^ p)
           end
  | Float _ => None
  end.

(** The literals [0.4] and [0.2] of the script: the binary64 nearest to
    the decimal. *)
Definition lit_0_4 : spec_float := Eval vm_compute in nearest_of_frac 4 10.
Definition lit_0_2 : spec_float := Eval vm_compute in nearest_of_frac 2 10.

End Num.
Export Num.

(** ** Text *)

Module Text.

Definition newline : ascii := "010"%char.

(** [c.isspace()] for the code points below U+0100. *)
Definition isspace (c : ascii) : bool :=
  let n := N_of_ascii c in
  (((9 <=? n) && (n <=? 13)) || ((28 <=? n) && (n <=? 32))
   || (n =? 133) || (n =? 160))%N.

(** [c.lower()] for the code points below U+0100. *)
Definition lower_char (c : ascii) : ascii :=
  let n := N_of_ascii c in
  if (((65 <=? n) && (n <=? 90)) || ((192 <=? n) && (n <=? 214))
      || ((216 <=? n) && (n <=? 222)))%N
  then ascii_of_N (n + 32)
  else c.

(** [s.lower()] *)
Fixpoint lower (s : string) : string :=
  match s with
  | EmptyString => EmptyString
  | String c s' => String (lower_char c) (lower s')
  end.

Fixpoint lstrip (s : string) : string :=
  match s with
  | EmptyString => EmptyString
  | String c s' => if isspace c then lstrip s' else s
  end.

Fixpoint rstrip (s : string) : string :=
  match s with
  | EmptyString => EmptyString
  | String c s' =>
      match rstrip s' with
      | EmptyString => if isspace c then EmptyString else String c EmptyString
      | t => String c t
      end
  end.

(** [s.strip()] *)
Definition strip (s : string) : string := rstrip (lstrip s).

(** [s.split(sep)] for a separator of one character. *)
Fixpoint split_on (sep : ascii) (s : string) : list string :=
  match s with
  | EmptyString => [EmptyString]
  | String c s' =>
      if Ascii.eqb c sep then EmptyString :: split_on sep s'
      else match split_on sep s' with
           | w :: ws => String c w :: ws
           | [] => [String c EmptyString]
           end
  end.

(** [needle in hay] *)
Fixpoint contains (needle hay : string) : bool :=
  prefix needle hay
  || match hay with
     | EmptyString => false
     | String _ hay' => contains needle hay'
     end.

(** [name] ends with [suffix]: what the glob pattern ["*" ++ suffix]
    accepts. *)
Fixpoint endswith (suffix name : string) : bool :=
  String.eqb suffix name
  || match name with
     | EmptyString => false
     | String _ name' => endswith suffix name'
     end.

(** The number of maximal runs of characters that satisfy [p];
    [inside] tells that the previous character was in a run. *)
Fixpoint count_runs (p : ascii -> bool) (inside : bool) (s : string) : Z :=
  match s with
  | EmptyString => 0
  | String c s' =>
      if p c then (if inside then 0 else 1) + count_runs p true s'
      else count_runs p false s'
  end.

(** [len(s.split())] *)
Definition count_words (s : string) : Z :=
  count_runs (fun c => negb (isspace c)) false s.

Definition is_terminator (c : ascii) : bool :=
  (Ascii.eqb c "." || Ascii.eqb c "!" || Ascii.eqb c "?")%char.

(** [len(re.findall(r'[.!?]+', s))] *)
Definition count_sentences (s : string) : Z :=
  count_runs is_terminator false s.

(** [kw] starts somewhere in what is left of the current line: the
    regular expression [.*kw] anchored at the head of [s] (the dot does
    not match a newline). *)
Fixpoint in_line (kw s : string) : bool :=
  prefix kw s
  || match s with
     | EmptyString => false
     | String c s' => if Ascii.eqb c newline then false else in_line kw s'
     end.

(** [len(re.findall(r'#{1,3}.*kw', s)) > 0]: a [#] with [kw] later on
    the same line. *)
Fixpoint heading_mentions (kw s : string) : bool :=
  match s with
  | EmptyString => false
  | String c s' =>
      (if Ascii.eqb c "#"%char then in_line kw s' else false)
      || heading_mentions kw s'
  end.

Definition fence : string := "```".

(** [len(re.findall(r'```[\s\S]*?```', s))]: the matches are taken from
    left to right and do not overlap; each runs from a fence to the
    nearest fence that starts at least three characters later.  [skip]
    counts the characters of the fence just read. *)
Fixpoint count_fenced (skip : nat) (inside : bool) (s : string) : Z :=
  match s with
  | EmptyString => 0
  | String _ s' =>
      match skip with
      | S k => count_fenced k inside s'
      | O =>
          if prefix fence s
          then if inside then 1 + count_fenced 2 false s'
               else count_fenced 2 true s'
          else count_fenced 0 inside s'
      end
  end.

Definition len (s : string) : Z := Z.of_nat (String.length s).

(** [not s] for a string. *)
Definition is_empty (s : string) : bool :=
  match s with EmptyString => true | _ => false end.

End Text.

(** ** Values read from JSON, and dictionaries *)

Module Json.

Local Set Warnings "-register-all".

Inductive json : Type :=
| JNull
| JBool (b : bool)
| JNum (n : num)
| JStr (s : string)
| JArr (l : list json)
| JObj (kv : list (string * json)).

(** A [dict] with string keys, in insertion order; keys are distinct. *)
Definition dict : Type := list (string * json).

(** [d.get(k)] *)
Fixpoint dict_get (k : string) (d : dict) : option json :=
  match d with
  | [] => None
  | (k', v) :: d' => if String.eqb k k' then Some v else dict_get k d'
  end.

(** [d[k] = v] *)
Fixpoint dict_set (k : string) (v : json) (d : dict) : dict :=
  match d with
  | [] => [(k, v)]
  | (k', v') :: d' =>
      if String.eqb k k' then (k, v) :: d' else (k', v') :: dict_set k v d'
  end.

Definition chars (s : string) : list json :=
  map (fun c => JStr (String c EmptyString)) (list_ascii_of_string s).

(** [for x in v]: the items of a list, the keys of a dict, the
    characters of a string; TypeError otherwise. *)
Definition iter (v : json) : result (list json) :=
  match v with
  | JArr l => Ret l
  | JObj kv => Ret (map (fun e => JStr (fst e)) kv)
  | JStr s => Ret (chars s)
  | _ => Raise (OtherError "object is not iterable")
  end.

(** [len(v)] *)
Definition len (v : json) : result Z :=
  match v with
  | JArr l => Ret (Z.of_nat (List.length l))
  | JObj kv => Ret (Z.of_nat (List.length kv))
  | JStr s => Ret (Text.len s)
  | _ => Raise (OtherError "object has no len()")
  end.

(** [v.get(k, default)]: only a dict has the method. *)
Definition get (v : json) (k : string) (default : json) : result json :=
  match v with
  | JObj kv => Ret (match dict_get k kv with Some x => x | None => default end)
  | _ => Raise (OtherError "object has no attribute 'get'")
  end.

(** [v.values()] *)
Definition values (v : json) : result (list json) :=
  match v with
  | JObj kv => Ret (map snd kv)
  | _ => Raise (OtherError "object has no attribute 'values'")
  end.

(** [v.lower()] *)
Definition lower (v : json) : result string :=
  match v with
  | JStr s => Ret (Text.lower s)
  | _ => Raise (OtherError "object has no attribute 'lower'")
  end.

(** [v] as an operand of [+] and [>] next to a number: a number, or a
    bool, which is the int 0 or 1; TypeError otherwise. *)
Definition as_num (v : json) : result num :=
  match v with
  | JNum n => Ret n
  | JBool b => Ret (Int (if b then 1 else 0))
  | _ => Raise (OtherError "unsupported operand type(s)")
  end.

End Json.
Export Json.

(** ** The checkout and the child processes *)

Module Fs.

(** A file is given by what reading it as text returns: [utf8] is the
    text under [encoding='utf-8'], or [None] when the bytes are not
    UTF-8 and the read raises UnicodeDecodeError; [latin1] is the text
    under [encoding='latin-1'], which always decodes.  [Locked] is a
    directory the process may neither search nor list. *)
Inductive node : Type :=
| Dir
| File (utf8 : option string) (latin1 : string)
| Locked.

(** A path below the root of the checkout, as its components. *)
Definition path : Type := list string.

(** The entries of the checkout.  The ancestors of an entry exist as
    directories whether they are listed or not. *)
Definition workspace : Type := list (path * node).

Fixpoint path_eqb (p q : path) : bool :=
  match p, q with
  | [], [] => true
  | a :: p', b :: q' => String.eqb a b && path_eqb p' q'
  | _, _ => false
  end.

Fixpoint is_prefix (p q : path) : bool :=
  match p, q with
  | [], _ => true
  | a :: p', b :: q' => String.eqb a b && is_prefix p' q'
  | _ :: _, [] => false
  end.

(** [p] is an entry of the checkout or an ancestor of one. *)
Definition has_entry (ws : workspace) (p : path) : bool :=
  existsb (fun e => is_prefix p (fst e)) ws.

Definition is_locked (n : node) : bool :=
  match n with Locked => true | _ => false end.

(** [p] lies below a locked directory. *)
Definition below_locked (ws : workspace) (p : path) : bool :=
  existsb (fun e => is_locked (snd e) && is_prefix (fst e) p
                    && negb (path_eqb (fst e) p)) ws.

(** [(base_path / p).exists()]: [stat] decides, and the PermissionError
    it raises for a path below a locked directory is not among the
    errors that [exists] turns into [False]. *)
Definition exists_ (ws : workspace) (p : path) : result bool :=
  if below_locked ws p
  then Raise (OtherError "[Errno 13] Permission denied")
  else Ret (has_entry ws p).

(** [any(p.exists() for p in paths)]: the calls stop at the first
    [True]. *)
Fixpoint any_exists (ws : workspace) (paths : list path) : result bool :=
  match paths with
  | [] => Ret false
  | p :: rest =>
      found <- exists_ ws p ;;
      if found then Ret true else any_exists ws rest
  end.

(** What is at [p]: the entry listed for it, or a directory when the
    path is only an ancestor of entries. *)
Definition node_at (ws : workspace) (p : path) : option node :=
  match find (fun e => path_eqb p (fst e)) ws with
  | Some e => Some (snd e)
  | None => if has_entry ws p then Some Dir else None
  end.

(** The entries a listing can reach: [scandir] raises PermissionError
    on a locked directory, and [glob] and [rglob] then list nothing
    below it. *)
Definition listed (ws : workspace) : workspace :=
  filter (fun e => negb (below_locked ws (fst e))) ws.

(** The non-empty initial segments of [q] whose last component ends
    with [suffix], each with [done] (in reverse) before it. *)
Fixpoint matching_prefixes (suffix : string) (done : path) (q : path)
  : list path :=
  match q with
  | [] => []
  | c :: q' =>
      let here := rev (c :: done) in
      ((if Text.endswith suffix c then [here] else [])
         ++ matching_prefixes suffix (c :: done) q')%list
  end.

(** [list(Path(repo_path).rglob('*' + suffix))]: every file or directory
    of the checkout, at any depth, whose name ends with [suffix].  A
    path is listed once for each entry at or below it; the script only
    tests the list for emptiness. *)
Definition rglob (ws : workspace) (suffix : string) : list path :=
  flat_map (fun e => matching_prefixes suffix [] (fst e)) (listed ws).

(** The component of [q] that follows [dir], with the node it names. *)
Fixpoint child_of (dir q : path) (n : node) : option (string * node) :=
  match dir, q with
  | [], [c] => Some (c, n)
  | [], c :: _ :: _ => Some (c, Dir)
  | a :: dir', b :: q' => if String.eqb a b then child_of dir' q' n else None
  | _, _ => None
  end.

Fixpoint distinct_names (seen : list string) (l : list (string * node))
  : list (string * node) :=
  match l with
  | [] => []
  | (c, n) :: l' =>
      if existsb (String.eqb c) seen then distinct_names seen l'
      else (c, n) :: distinct_names (c :: seen) l'
  end.

(** The children of [dir], each name once. *)
Definition children (ws : workspace) (dir : path) : list (string * node) :=
  distinct_names []
    (flat_map (fun e => match child_of dir (fst e) (snd e) with
                        | Some c => [c]
                        | None => []
                        end) (listed ws)).

(** [list(dir.glob('*' + suffix))] *)
Definition glob (ws : workspace) (dir : path) (suffix : string)
  : list (string * node) :=
  filter (fun c => Text.endswith suffix (fst c)) (children ws dir).

(** [open(p, 'r', encoding='utf-8').read()] *)
Definition read_utf8 (n : node) : result string :=
  match n with
  | Dir => Raise (OtherError "Is a directory")
  | Locked => Raise (OtherError "[Errno 13] Permission denied")
  | File (Some text) _ => Ret text
  | File None _ => Raise (UnicodeDecodeError "'utf-8' codec can't decode")
  end.

(** [open(p, 'r', encoding='latin-1').read()] *)
Definition read_latin1 (n : node) : result string :=
  match n with
  | Dir => Raise (OtherError "Is a directory")
  | Locked => Raise (OtherError "[Errno 13] Permission denied")
  | File _ text => Ret text
  end.

(** The [CompletedProcess] of [subprocess.run(..., capture_output=True,
    text=True)]. *)
Record completed : Type := {
  returncode : Z;
  stdout : string;
  stderr : string
}.

(** The outcome of [subprocess.run(cmd, timeout=...)]: the completed
    process, TimeoutExpired, or the error of a command that could not be
    started. *)
Definition proc : Type := result completed.

(** [subprocess.run(..., check=True)] *)
Definition checked (p : proc) : result completed :=
  c <- p ;;
  if returncode c =? 0 then Ret c
  else Raise (CalledProcessError "Command returned non-zero exit status").

End Fs.
Export Fs.

(** ** A function body that updates its [results] and may raise *)

Module St.

(** The state is kept when the body raises: the [except] clauses of the
    script go on from the [results] reached so far. *)
Definition M (S A : Type) : Type := S -> S * result A.

Definition ret {S A} (a : A) : M S A := fun s => (s, Ret a).

Definition bind {S A B} (c : M S A) (k : A -> M S B) : M S B :=
  fun s =>
    match c s with
    | (s', Ret a) => k a s'
    | (s', Raise e) => (s', Raise e)
    end.

Definition lift {S A} (r : result A) : M S A := fun s => (s, r).

Definition modify {S} (f : S -> S) : M S unit := fun s => (f s, Ret tt).

Definition get {S} : M S S := fun s => (s, Ret s).

(** [for x in l: f(x)] *)
Fixpoint for_each {S A} (f : A -> M S unit) (l : list A) : M S unit :=
  match l with
  | [] => ret tt
  | x :: l' => bind (f x) (fun _ => for_each f l')
  end.

(** [try: c except JSONDecodeError: h] *)
Definition except_json {S A} (c : M S A) (h : M S A) : M S A :=
  fun s =>
    match c s with
    | (s', Raise (JSONDecodeError _)) => h s'
    | r => r
    end.

End St.

Declare Scope st_scope.
Delimit Scope st_scope with st.
Notation "x <~ c ;; k" := (St.bind c (fun x => k))
  (at level 61, c at next level, right associativity) : st_scope.
Notation "c ;;; k" := (St.bind c (fun _ => k))
  (at level 61, right associativity) : st_scope.
Local Open Scope st_scope.

(** ** The analyzers *)

(** The [results] dictionary of [run_flake8_analysis] and of
    [run_eslint_analysis]. *)
Module Lint.

Record results : Type := {
  score : Z;
  issues : Z;
  critical_issues : Z;
  details : dict
}.

Definition init : results :=
  {| score := 0; issues := 0; critical_issues := 0; details := [] |}.

Definition set_score (v : Z) (r : results) : results :=
  {| score := v; issues := issues r;
     critical_issues := critical_issues r; details := details r |}.

Definition set_issues (v : Z) (r : results) : results :=
  {| score := score r; issues := v;
     critical_issues := critical_issues r; details := details r |}.

Definition set_critical_issues (v : Z) (r : results) : results :=
  {| score := score r; issues := issues r;
     critical_issues := v; details := details r |}.

Definition set_detail (k : string) (v : json) (r : results) : results :=
  {| score := score r; issues := issues r;
     critical_issues := critical_issues r;
     details := dict_set k v (details r) |}.

End Lint.

(** The [results] dictionary of [run_radon_analysis]. *)
Module Radon.

Record results : Type := {
  complexity_score : Z;
  average_complexity : num;
  complex_functions : Z;
  details : dict
}.

Definition init : results :=
  {| complexity_score := 0; average_complexity := Int 0;
     complex_functions := 0; details := [] |}.

Definition set_complexity_score (v : Z) (r : results) : results :=
  {| complexity_score := v; average_complexity := average_complexity r;
     complex_functions := complex_functions r; details := details r |}.

Definition set_average_complexity (v : num) (r : results) : results :=
  {| complexity_score := complexity_score r; average_complexity := v;
     complex_functions := complex_functions r; details := details r |}.

Definition set_complex_functions (v : Z) (r : results) : results :=
  {| complexity_score := complexity_score r;
     average_complexity := average_complexity r;
     complex_functions := v; details := details r |}.

Definition set_detail (k : string) (v : json) (r : results) : results :=
  {| complexity_score := complexity_score r;
     average_complexity := average_complexity r;
     complex_functions := complex_functions r;
     details := dict_set k v (details r) |}.

End Radon.

Section Analyzers.

(** [json.loads]: the value parsed, or JSONDecodeError. *)
Variable json_loads : string -> result json.

(** *** run_flake8_analysis *)

(** The body of the loop over the lines of flake8's stderr. *)
Definition flake8_count_line (counts : Z * Z) (line : string) : Z * Z :=
  let '(issue_count, critical_count) := counts in
  if negb (Text.is_empty (Text.strip line)) then
    (issue_count + 1,
     if existsb (fun issue => Text.contains issue (Text.lower line))
          ["e9"; "f"; "e112"; "e113"]
     then critical_count + 1 else critical_count)
  else (issue_count, critical_count).

(** Lines 124 to 126: the score of a run that reported issues. *)
Definition flake8_policy (issue_count critical_count : Z) : Z :=
  let base_score := 80 in
  let penalty := Z.min 50 ((issue_count * 2) + (critical_count * 5)) in
  Z.max 0 (base_score - penalty).

(** The [try] block. *)
Definition flake8_body (ws : workspace) (flake8 : proc)
  : St.M Lint.results unit :=
  let python_files := rglob ws ".py" in
  match python_files with
  | [] => St.modify (Lint.set_detail "message" (JStr "No Python files found"))
  | _ :: _ =>
      result <~ St.lift flake8 ;;
      if returncode result =? 0 then St.modify (Lint.set_score 90)
      else
        let lines := Text.split_on Text.newline (Text.strip (stderr result)) in
        let '(issue_count, critical_count) :=
          fold_left flake8_count_line lines (0, 0) in
        St.modify (Lint.set_issues issue_count) ;;;
        St.modify (Lint.set_critical_issues critical_count) ;;;
        St.modify (Lint.set_score (flake8_policy issue_count critical_count))
  end.

Definition run_flake8_analysis (ws : workspace) (flake8 : proc)
  : Lint.results :=
  match flake8_body ws flake8 Lint.init with
  | (results, Ret _) => results
  | (results, Raise (TimeoutExpired _)) =>
      Lint.set_score 0 (Lint.set_detail "timeout" (JBool true) results)
  | (results, Raise e) =>
      Lint.set_score 0 (Lint.set_detail "error" (JStr (str_of_exn e)) results)
  end.

(** *** run_radon_analysis *)

(** The running totals of the loop over radon's report:
    [total_complexity], [function_count], [complex_fn_count]. *)
Definition radon_totals : Type := (num * Z * Z)%type.

(** The body of the inner loop, for one [func_data]. *)
Definition radon_count_function (totals : radon_totals) (func_data : json)
  : result radon_totals :=
  let '(total_complexity, function_count, complex_fn_count) := totals in
  complexity <- Json.get func_data "complexity" (JNum (Int 1)) ;;
  c <- Json.as_num complexity ;;
  total_complexity <- Num.add total_complexity c ;;
  let function_count := function_count + 1 in
  Ret (total_complexity, function_count,
       if Num.gtb c (Int 10) then complex_fn_count + 1 else complex_fn_count).

(** The body of the outer loop, for one [file_data]. *)
Definition radon_count_file (totals : radon_totals) (file_data : json)
  : result radon_totals :=
  funcs <- Json.iter file_data ;;
  foldM radon_count_function funcs totals.

(** Lines 181 to 188: the band of an average complexity. *)
Definition radon_band (avg_complexity : num) : Z :=
  if Num.leb avg_complexity (Int 5) then 90
  else if Num.leb avg_complexity (Int 10) then 70
  else if Num.leb avg_complexity (Int 20) then 40
  else 20.

(** The inner [try] block: from [json.loads] to the last assignment. *)
Definition radon_parse (out : string) : St.M Radon.results unit :=
  complexity_data <~ St.lift (json_loads out) ;;
  files <~ St.lift (Json.values complexity_data) ;;
  totals <~ St.lift (foldM radon_count_file files (Int 0, 0, 0)) ;;
  let '(total_complexity, function_count, complex_fn_count) := totals in
  if function_count >? 0 then
    avg_complexity <~
      St.lift (Num.truediv total_complexity (Int function_count)) ;;
    let complexity_score := radon_band avg_complexity in
    St.modify (Radon.set_complexity_score complexity_score) ;;;
    rounded <~ St.lift (Num.round2 avg_complexity) ;;
    St.modify (Radon.set_average_complexity rounded) ;;;
    St.modify (Radon.set_complex_functions complex_fn_count)
  else St.ret tt.

(** The outer [try] block. *)
Definition radon_body (ws : workspace) (radon : proc)
  : St.M Radon.results unit :=
  let python_files := rglob ws ".py" in
  match python_files with
  | [] => St.ret tt
  | _ :: _ =>
      result <~ St.lift radon ;;
      if returncode result =? 0 then
        St.except_json (radon_parse (stdout result))
          (St.modify
             (Radon.set_detail "error" (JStr "Failed to parse radon output")))
      else
        St.modify (Radon.set_detail "error" (JStr "Radon analysis failed"))
  end.

Definition run_radon_analysis (ws : workspace) (radon : proc)
  : Radon.results :=
  match radon_body ws radon Radon.init with
  | (results, Ret _) => results
  | (results, Raise (TimeoutExpired _)) =>
      Radon.set_detail "timeout" (JBool true) results
  | (results, Raise e) =>
      Radon.set_detail "error" (JStr (str_of_exn e)) results
  end.

(** *** run_eslint_analysis *)

(** [len(item.get('messages', []))], added to the running sum. *)
Definition eslint_count_item (total : Z) (item : json) : result Z :=
  messages <- Json.get item "messages" (JArr []) ;;
  n <- Json.len messages ;;
  Ret (total + n).

(** The body of the loop over the messages of one file. *)
Definition eslint_count_message (critical_issues : Z) (message : json)
  : result Z :=
  rule <- Json.get message "ruleId" (JStr "") ;;
  severity <- Json.lower rule ;;
  Ret (if existsb (fun severity_check => Text.contains severity_check severity)
            ["no-unused-vars"; "error"; "no-unreachable"]
       then critical_issues + 1 else critical_issues).

Definition eslint_count_file (critical_issues : Z) (file_data : json)
  : result Z :=
  messages <- Json.get file_data "messages" (JArr []) ;;
  ms <- Json.iter messages ;;
  foldM eslint_count_message ms critical_issues.

(** Lines 269 to 271: the score of a run whose report was parsed. *)
Definition eslint_policy (total_issues critical_issues : Z) : Z :=
  let base_score := 80 in
  let penalty := Z.min 60 ((total_issues * 1) + (critical_issues * 3)) in
  Z.max 0 (base_score - penalty).

(** The inner [try] block. *)
Definition eslint_parse (out : string) : St.M Lint.results unit :=
  eslint_data <~
    St.lift (if Text.is_empty out then Ret (JArr []) else json_loads out) ;;
  items <~ St.lift (Json.iter eslint_data) ;;
  total_issues <~ St.lift (foldM eslint_count_item items 0) ;;
  critical_issues <~ St.lift (foldM eslint_count_file items 0) ;;
  St.modify (Lint.set_issues total_issues) ;;;
  St.modify (Lint.set_critical_issues critical_issues) ;;;
  St.modify (Lint.set_score (eslint_policy total_issues critical_issues)).

(** The outer [try] block. *)
Definition eslint_body (ws : workspace) (eslint : proc)
  : St.M Lint.results unit :=
  let js_files := rglob ws ".js" in
  let ts_files := rglob ws ".ts" in
  let jsx_files := rglob ws ".jsx" in
  let tsx_files := rglob ws ".tsx" in
  let source_files :=
    (js_files ++ ts_files ++ jsx_files ++ tsx_files)%list in
  match source_files with
  | [] => St.modify (Lint.set_detail "message" (JStr "No JS/TS files found"))
  | _ :: _ =>
      let eslint_config :=
        [".eslintrc.json"; ".eslintrc.js"; ".eslintrc.yml";
         ".eslintrc.yaml"; "package.json"] in
      has_eslint_config <~
        St.lift (any_exists ws (map (fun config => [config]) eslint_config)) ;;
      if negb has_eslint_config then
        St.modify
          (Lint.set_detail "message" (JStr "No ESLint configuration found")) ;;;
        St.modify (Lint.set_score 40)
      else
        result <~ St.lift eslint ;;
        if (returncode result =? 0) || (returncode result =? 1) then
          St.except_json (eslint_parse (stdout result))
            (St.modify
               (Lint.set_detail "error" (JStr "Failed to parse ESLint output")) ;;;
             St.modify (Lint.set_score 30))
        else
          St.modify
            (Lint.set_detail "error" (JStr "ESLint execution failed")) ;;;
          St.modify (Lint.set_score 20)
  end.

Definition run_eslint_analysis (ws : workspace) (eslint : proc)
  : Lint.results :=
  match eslint_body ws eslint Lint.init with
  | (results, Ret _) => results
  | (results, Raise (TimeoutExpired _)) =>
      Lint.set_score 0 (Lint.set_detail "timeout" (JBool true) results)
  | (results, Raise e) =>
      Lint.set_score 0 (Lint.set_detail "error" (JStr (str_of_exn e)) results)
  end.

End Analyzers.

(** The [results] dictionary of [analyze_documentation]. *)
Module Doc.

Record results : Type := {
  score : num;
  readme_length : Z;
  has_code_examples : bool;
  has_installation : bool;
  has_contributing : bool;
  readability_score : Z;
  details : dict
}.

Definition init : results :=
  {| score := Int 0; readme_length := 0; has_code_examples := false;
     has_installation := false; has_contributing := false;
     readability_score := 0; details := [] |}.

Definition set_score (v : num) (r : results) : results :=
  {| score := v; readme_length := readme_length r;
     has_code_examples := has_code_examples r;
     has_installation := has_installation r;
     has_contributing := has_contributing r;
     readability_score := readability_score r; details := details r |}.

Definition set_readme_length (v : Z) (r : results) : results :=
  {| score := score r; readme_length := v;
     has_code_examples := has_code_examples r;
     has_installation := has_installation r;
     has_contributing := has_contributing r;
     readability_score := readability_score r; details := details r |}.

Definition set_has_code_examples (v : bool) (r : results) : results :=
  {| score := score r; readme_length := readme_length r;
     has_code_examples := v;
     has_installation := has_installation r;
     has_contributing := has_contributing r;
     readability_score := readability_score r; details := details r |}.

Definition set_has_installation (v : bool) (r : results) : results :=
  {| score := score r; readme_length := readme_length r;
     has_code_examples := has_code_examples r;
     has_installation := v;
     has_contributing := has_contributing r;
     readability_score := readability_score r; details := details r |}.

Definition set_has_contributing (v : bool) (r : results) : results :=
  {| score := score r; readme_length := readme_length r;
     has_code_examples := has_code_examples r;
     has_installation := has_installation r;
     has_contributing := v;
     readability_score := readability_score r; details := details r |}.

Definition set_readability_score (v : Z) (r : results) : results :=
  {| score := score r; readme_length := readme_length r;
     has_code_examples := has_code_examples r;
     has_installation := has_installation r;
     has_contributing := has_contributing r;
     readability_score := v; details := details r |}.

Definition set_detail (k : string) (v : json) (r : results) : results :=
  {| score := score r; readme_length := readme_length r;
     has_code_examples := has_code_examples r;
     has_installation := has_installation r;
     has_contributing := has_contributing r;
     readability_score := readability_score r;
     details := dict_set k v (details r) |}.

End Doc.

(** *** analyze_documentation *)

Definition readme_files : list string :=
  ["README.md"; "README.rst"; "README.txt"; "readme.md";
   "Readme.md"; "readme.txt"; "README"].

(** The loop over [readme_files]: the text of the first candidate that
    exists ([break]); a candidate neither encoding decodes is passed
    over ([continue]); any other error of [open] leaves the loop. *)
Fixpoint find_readme (ws : workspace) (candidates : list string)
  : result (option string) :=
  match candidates with
  | [] => Ret None
  | readme_file :: rest =>
      found <- exists_ ws [readme_file] ;;
      if found then
        match node_at ws [readme_file] with
        | None => Raise (OtherError "No such file or directory")
        | Some potential_path =>
            match read_utf8 potential_path with
            | Ret readme_content => Ret (Some readme_content)
            | Raise (UnicodeDecodeError _) =>
                match read_latin1 potential_path with
                | Ret readme_content => Ret (Some readme_content)
                | Raise (UnicodeDecodeError _) => find_readme ws rest
                | Raise e => Raise e
                end
            | Raise e => Raise e
            end
        end
      else find_readme ws rest
  end.

(** The [sections] dictionary. *)
Record sections : Type := {
  installation : bool;
  usage : bool;
  contributing : bool;
  license : bool
}.

Definition find_sections (content_lower : string) : sections :=
  {| installation := Text.heading_mentions "instal" content_lower;
     usage := Text.heading_mentions "usage" content_lower
              || Text.heading_mentions "use" content_lower;
     contributing := Text.heading_mentions "contribut" content_lower;
     license := Text.heading_mentions "licens" content_lower |}.

(** [words / max(1, sentences)] *)
Definition avg_sentence_length (readme_content : string) : result num :=
  let sentences := Text.count_sentences readme_content in
  let words := Text.count_words readme_content in
  Num.truediv (Int words) (Int (Z.max 1 sentences)).

(** Lines 359 to 366: the band of an average sentence length. *)
Definition readability_band (avg_sentence_length : num) : Z :=
  if Num.leb avg_sentence_length (Int 15) then 90
  else if Num.leb avg_sentence_length (Int 25) then 70
  else if Num.leb avg_sentence_length (Int 40) then 50
  else 30.

(** Lines 371 to 381: the base score and the bonuses. *)
Definition doc_base_score (s : sections) (code_examples : Z) : Z :=
  let base_score := 40 in
  let base_score := if installation s then base_score + 15 else base_score in
  let base_score := if usage s then base_score + 10 else base_score in
  let base_score := if contributing s then base_score + 10 else base_score in
  let base_score := if code_examples >? 0 then base_score + 15 else base_score in
  let base_score := if license s then base_score + 10 else base_score in
  base_score.

(** Lines 384 to 387: the readability adjustment and the clamp. *)
Definition doc_final_score (base_score readability_score : Z) : result num :=
  readability_bonus <- Num.truediv (Int (readability_score - 50)) (Int 2) ;;
  base_score <- Num.add (Int base_score) readability_bonus ;;
  Ret (Num.max (Int 0) (Num.min (Int 100) base_score)).

(** The [try] block. *)
Definition documentation_body (ws : workspace) : St.M Doc.results unit :=
  found <~ St.lift (find_readme ws readme_files) ;;
  let readme_content :=
    match found with Some text => text | None => EmptyString end in
  if Text.is_empty readme_content then
    St.modify (Doc.set_detail "message" (JStr "No README file found"))
  else
    St.modify (Doc.set_readme_length (Text.len readme_content)) ;;;
    let content_lower := Text.lower readme_content in
    let sections := find_sections content_lower in
    St.modify (Doc.set_has_installation (installation sections)) ;;;
    St.modify (Doc.set_has_contributing (contributing sections)) ;;;
    let code_examples := Text.count_fenced 0 false readme_content in
    St.modify (Doc.set_has_code_examples (code_examples >? 0)) ;;;
    avg <~ St.lift (avg_sentence_length readme_content) ;;
    let readability_score := readability_band avg in
    St.modify (Doc.set_readability_score readability_score) ;;;
    let base_score := doc_base_score sections code_examples in
    final <~ St.lift (doc_final_score base_score readability_score) ;;
    St.modify (Doc.set_score final).

Definition analyze_documentation (ws : workspace) : Doc.results :=
  match documentation_body ws Doc.init with
  | (results, Ret _) => results
  | (results, Raise e) =>
      Doc.set_score (Int 10)
        (Doc.set_detail "error" (JStr (str_of_exn e)) results)
  end.

(** The [results] dictionary of [analyze_dependencies]. *)
Module Deps.

Record results : Type := {
  score : Z;
  has_package_json : bool;
  has_requirements_txt : bool;
  has_pipfile : bool;
  has_setup_py : bool;
  has_cargo_toml : bool;
  has_go_mod : bool;
  details : dict
}.

Definition init : results :=
  {| score := 0; has_package_json := false; has_requirements_txt := false;
     has_pipfile := false; has_setup_py := false; has_cargo_toml := false;
     has_go_mod := false; details := [] |}.

Definition set_score (v : Z) (r : results) : results :=
  {| score := v; has_package_json := has_package_json r;
     has_requirements_txt := has_requirements_txt r;
     has_pipfile := has_pipfile r; has_setup_py := has_setup_py r;
     has_cargo_toml := has_cargo_toml r; has_go_mod := has_go_mod r;
     details := details r |}.

Definition set_detail (k : string) (v : json) (r : results) : results :=
  {| score := score r; has_package_json := has_package_json r;
     has_requirements_txt := has_requirements_txt r;
     has_pipfile := has_pipfile r; has_setup_py := has_setup_py r;
     has_cargo_toml := has_cargo_toml r; has_go_mod := has_go_mod r;
     details := dict_set k v (details r) |}.

(** The keys of [dependency_files], each with its assignment
    [results[key] = v]. *)
Definition set_has_package_json (v : bool) (r : results) : results :=
  {| score := score r; has_package_json := v;
     has_requirements_txt := has_requirements_txt r;
     has_pipfile := has_pipfile r; has_setup_py := has_setup_py r;
     has_cargo_toml := has_cargo_toml r; has_go_mod := has_go_mod r;
     details := details r |}.

Definition set_has_requirements_txt (v : bool) (r : results) : results :=
  {| score := score r; has_package_json := has_package_json r;
     has_requirements_txt := v;
     has_pipfile := has_pipfile r; has_setup_py := has_setup_py r;
     has_cargo_toml := has_cargo_toml r; has_go_mod := has_go_mod r;
     details := details r |}.

Definition set_has_pipfile (v : bool) (r : results) : results :=
  {| score := score r; has_package_json := has_package_json r;
     has_requirements_txt := has_requirements_txt r;
     has_pipfile := v; has_setup_py := has_setup_py r;
     has_cargo_toml := has_cargo_toml r; has_go_mod := has_go_mod r;
     details := details r |}.

Definition set_has_setup_py (v : bool) (r : results) : results :=
  {| score := score r; has_package_json := has_package_json r;
     has_requirements_txt := has_requirements_txt r;
     has_pipfile := has_pipfile r; has_setup_py := v;
     has_cargo_toml := has_cargo_toml r; has_go_mod := has_go_mod r;
     details := details r |}.

Definition set_has_cargo_toml (v : bool) (r : results) : results :=
  {| score := score r; has_package_json := has_package_json r;
     has_requirements_txt := has_requirements_txt r;
     has_pipfile := has_pipfile r; has_setup_py := has_setup_py r;
     has_cargo_toml := v; has_go_mod := has_go_mod r;
     details := details r |}.

Definition set_has_go_mod (v : bool) (r : results) : results :=
  {| score := score r; has_package_json := has_package_json r;
     has_requirements_txt := has_requirements_txt r;
     has_pipfile := has_pipfile r; has_setup_py := has_setup_py r;
     has_cargo_toml := has_cargo_toml r; has_go_mod := v;
     details := details r |}.

End Deps.

(** *** analyze_dependencies *)

(** [dependency_files]: the setter of each key and the path it names. *)
Definition dependency_files
  : list ((bool -> Deps.results -> Deps.results) * path) :=
  [(Deps.set_has_package_json, ["package.json"]);
   (Deps.set_has_requirements_txt, ["requirements.txt"]);
   (Deps.set_has_pipfile, ["Pipfile"]);
   (Deps.set_has_setup_py, ["setup.py"]);
   (Deps.set_has_cargo_toml, ["Cargo.toml"]);
   (Deps.set_has_go_mod, ["go.mod"])].

(** The body of the loop over [dependency_files]: [exists] is called
    for the flag and again for the points. *)
Definition dependency_step (ws : workspace)
  (entry : (bool -> Deps.results -> Deps.results) * path)
  : St.M Deps.results unit :=
  let '(set_key, file_path) := entry in
  found <~ St.lift (exists_ ws file_path) ;;
  St.modify (set_key found) ;;;
  found <~ St.lift (exists_ ws file_path) ;;
  if found
  then St.modify (fun results => Deps.set_score (Deps.score results + 15) results)
  else St.ret tt.

Definition lock_files : list path :=
  [["package-lock.json"]; ["yarn.lock"]; ["Pipfile.lock"];
   ["Cargo.lock"]; ["go.sum"]; ["poetry.lock"]].

Definition dependency_security_files : list path :=
  [[".snyk"]; ["security.md"]; [".github"; "FUNDING.yml"]].

(** The [try] block. *)
Definition dependencies_body (ws : workspace) : St.M Deps.results unit :=
  St.for_each (dependency_step ws) dependency_files ;;;
  has_lock_files <~ St.lift (any_exists ws lock_files) ;;
  (if has_lock_files then
     St.modify (fun results => Deps.set_score (Deps.score results + 20) results) ;;;
     St.modify (Deps.set_detail "has_lockfiles" (JBool true))
   else St.ret tt) ;;;
  has_security_config <~ St.lift (any_exists ws dependency_security_files) ;;
  if has_security_config then
    St.modify (fun results => Deps.set_score (Deps.score results + 10) results) ;;;
    St.modify (Deps.set_detail "has_security_config" (JBool true))
  else St.ret tt.

Definition analyze_dependencies (ws : workspace) : Deps.results :=
  let results :=
    match dependencies_body ws Deps.init with
    | (results, Ret _) => results
    | (results, Raise e) =>
        Deps.set_score 0
          (Deps.set_detail "error" (JStr (str_of_exn e)) results)
    end in
  (* Cap score at 100 *)
  Deps.set_score (Z.min 100 (Deps.score results)) results.

(** The [results] dictionary of [analyze_security]. *)
Module Sec.

Record results : Type := {
  score : Z;
  has_security_md : bool;
  has_github_security_policy : bool;
  has_dependabot_config : bool;
  has_codeql_config : bool;
  details : dict
}.

Definition init : results :=
  {| score := 0; has_security_md := false;
     has_github_security_policy := false; has_dependabot_config := false;
     has_codeql_config := false; details := [] |}.

Definition set_score (v : Z) (r : results) : results :=
  {| score := v; has_security_md := has_security_md r;
     has_github_security_policy := has_github_security_policy r;
     has_dependabot_config := has_dependabot_config r;
     has_codeql_config := has_codeql_config r; details := details r |}.

Definition set_has_security_md (v : bool) (r : results) : results :=
  {| score := score r; has_security_md := v;
     has_github_security_policy := has_github_security_policy r;
     has_dependabot_config := has_dependabot_config r;
     has_codeql_config := has_codeql_config r; details := details r |}.

Definition set_has_github_security_policy (v : bool) (r : results)
  : results :=
  {| score := score r; has_security_md := has_security_md r;
     has_github_security_policy := v;
     has_dependabot_config := has_dependabot_config r;
     has_codeql_config := has_codeql_config r; details := details r |}.

Definition set_has_dependabot_config (v : bool) (r : results) : results :=
  {| score := score r; has_security_md := has_security_md r;
     has_github_security_policy := has_github_security_policy r;
     has_dependabot_config := v;
     has_codeql_config := has_codeql_config r; details := details r |}.

Definition set_has_codeql_config (v : bool) (r : results) : results :=
  {| score := score r; has_security_md := has_security_md r;
     has_github_security_policy := has_github_security_policy r;
     has_dependabot_config := has_dependabot_config r;
     has_codeql_config := v; details := details r |}.

Definition set_detail (k : string) (v : json) (r : results) : results :=
  {| score := score r; has_security_md := has_security_md r;
     has_github_security_policy := has_github_security_policy r;
     has_dependabot_config := has_dependabot_config r;
     has_codeql_config := has_codeql_config r;
     details := dict_set k v (details r) |}.

End Sec.

(** *** analyze_security *)

Definition security_files
  : list ((bool -> Sec.results -> Sec.results) * path) :=
  [(Sec.set_has_security_md, ["SECURITY.md"]);
   (Sec.set_has_github_security_policy, [".github"; "SECURITY.md"])].

(** The body of the loop over [security_files]: [exists] is called for
    the flag and again for the points. *)
Definition security_step (ws : workspace)
  (entry : (bool -> Sec.results -> Sec.results) * path)
  : St.M Sec.results unit :=
  let '(set_key, file_path) := entry in
  found <~ St.lift (exists_ ws file_path) ;;
  St.modify (set_key found) ;;;
  found <~ St.lift (exists_ ws file_path) ;;
  if found
  then St.modify (fun results => Sec.set_score (Sec.score results + 20) results)
  else St.ret tt.

(** The body of the loop over [workflow_files]: a file that cannot be
    read leaves [results] as they are ([continue]). *)
Definition workflow_step (results : Sec.results)
  (workflow_file : string * node) : Sec.results :=
  match read_utf8 (snd workflow_file) with
  | Raise _ => results
  | Ret text =>
      let content := Text.lower text in
      let results :=
        if Text.contains "dependabot" content
           || Text.contains "dependabot config" content
        then Sec.set_score (Sec.score results + 15)
               (Sec.set_has_dependabot_config true results)
        else results in
      if Text.contains "codeql" content
         || Text.contains "security-events" content
      then Sec.set_score (Sec.score results + 15)
             (Sec.set_has_codeql_config true results)
      else results
  end.

(** The [try] block. *)
Definition security_body (ws : workspace) : St.M Sec.results unit :=
  St.for_each (security_step ws) security_files ;;;
  let workflow_dir := [".github"; "workflows"] in
  has_workflow_dir <~ St.lift (exists_ ws workflow_dir) ;;
  (if has_workflow_dir then
     let workflow_files :=
       (glob ws workflow_dir ".yml" ++ glob ws workflow_dir ".yaml")%list in
     St.modify (fun results => fold_left workflow_step workflow_files results)
   else St.ret tt) ;;;
  results <~ St.get ;;
  if Sec.score results =? 0 then St.modify (Sec.set_score 30)
  else St.ret tt.

Definition analyze_security (ws : workspace) : Sec.results :=
  match security_body ws Sec.init with
  | (results, Ret _) => results
  | (results, Raise e) =>
      Sec.set_score 10 (Sec.set_detail "error" (JStr (str_of_exn e)) results)
  end.

(** ** The report *)

(** [analysis_results['code_quality']]: empty until the analyzers ran. *)
Record code_quality_results : Type := {
  flake8 : option Lint.results;
  eslint : option Lint.results
}.

(** [analysis_results['aggregate']] *)
Record aggregate_scores : Type := {
  code_quality_score : num;
  documentation_score : num;
  security_score : Z;
  dependency_score : Z
}.

(** [self.analysis_results].  An empty dictionary [{}] is [None]; the
    key [aggregate] is absent until [_calculate_aggregate_scores]. *)
Record analysis_results : Type := {
  repository : string;
  timestamp : Z;
  code_quality : code_quality_results;
  documentation : option Doc.results;
  security : option Sec.results;
  dependencies : option Deps.results;
  complexity : option Radon.results;
  errors : list string;
  warnings : list string;
  aggregate : option aggregate_scores
}.

Definition initial_results (repo_url : string) (now : Z) : analysis_results :=
  {| repository := repo_url; timestamp := now;
     code_quality := {| flake8 := None; eslint := None |};
     documentation := None; security := None; dependencies := None;
     complexity := None; errors := []; warnings := []; aggregate := None |}.

Definition set_flake8 (v : Lint.results) (a : analysis_results)
  : analysis_results :=
  {| repository := repository a; timestamp := timestamp a;
     code_quality := {| flake8 := Some v; eslint := eslint (code_quality a) |};
     documentation := documentation a; security := security a;
     dependencies := dependencies a; complexity := complexity a;
     errors := errors a; warnings := warnings a; aggregate := aggregate a |}.

Definition set_eslint (v : Lint.results) (a : analysis_results)
  : analysis_results :=
  {| repository := repository a; timestamp := timestamp a;
     code_quality := {| flake8 := flake8 (code_quality a); eslint := Some v |};
     documentation := documentation a; security := security a;
     dependencies := dependencies a; complexity := complexity a;
     errors := errors a; warnings := warnings a; aggregate := aggregate a |}.

Definition set_complexity (v : Radon.results) (a : analysis_results)
  : analysis_results :=
  {| repository := repository a; timestamp := timestamp a;
     code_quality := code_quality a;
     documentation := documentation a; security := security a;
     dependencies := dependencies a; complexity := Some v;
     errors := errors a; warnings := warnings a; aggregate := aggregate a |}.

Definition set_documentation (v : Doc.results) (a : analysis_results)
  : analysis_results :=
  {| repository := repository a; timestamp := timestamp a;
     code_quality := code_quality a;
     documentation := Some v; security := security a;
     dependencies := dependencies a; complexity := complexity a;
     errors := errors a; warnings := warnings a; aggregate := aggregate a |}.

Definition set_dependencies (v : Deps.results) (a : analysis_results)
  : analysis_results :=
  {| repository := repository a; timestamp := timestamp a;
     code_quality := code_quality a;
     documentation := documentation a; security := security a;
     dependencies := Some v; complexity := complexity a;
     errors := errors a; warnings := warnings a; aggregate := aggregate a |}.

Definition set_security (v : Sec.results) (a : analysis_results)
  : analysis_results :=
  {| repository := repository a; timestamp := timestamp a;
     code_quality := code_quality a;
     documentation := documentation a; security := Some v;
     dependencies := dependencies a; complexity := complexity a;
     errors := errors a; warnings := warnings a; aggregate := aggregate a |}.

Definition set_aggregate (v : aggregate_scores) (a : analysis_results)
  : analysis_results :=
  {| repository := repository a; timestamp := timestamp a;
     code_quality := code_quality a;
     documentation := documentation a; security := security a;
     dependencies := dependencies a; complexity := complexity a;
     errors := errors a; warnings := warnings a; aggregate := Some v |}.

(** [analysis_results['errors'].append(msg)] *)
Definition append_error (msg : string) (a : analysis_results)
  : analysis_results :=
  {| repository := repository a; timestamp := timestamp a;
     code_quality := code_quality a;
     documentation := documentation a; security := security a;
     dependencies := dependencies a; complexity := complexity a;
     errors := (errors a ++ [msg])%list; warnings := warnings a;
     aggregate := aggregate a |}.

(** [analysis_results['warnings'].append(msg)] *)
Definition append_warning (msg : string) (a : analysis_results)
  : analysis_results :=
  {| repository := repository a; timestamp := timestamp a;
     code_quality := code_quality a;
     documentation := documentation a; security := security a;
     dependencies := dependencies a; complexity := complexity a;
     errors := errors a; warnings := (warnings a ++ [msg])%list;
     aggregate := aggregate a |}.

(** ** _calculate_aggregate_scores *)

(** [d.get('score', 0)] on a dictionary that may be empty. *)
Definition get_score {R : Type} (score : R -> Z) (d : option R) : Z :=
  match d with Some r => score r | None => 0 end.

(** The [weights] dictionary: the values for flake8, eslint and
    complexity, in that order. *)
Definition weights (flake8_score eslint_score complexity_score : Z)
  : num * num * num :=
  (if flake8_score >? 0 then Float lit_0_4 else Int 0,
   if eslint_score >? 0 then Float lit_0_4 else Int 0,
   if complexity_score >? 0 then Float lit_0_2 else Int 0).

(** [sum(values)]: the values added from the left, starting from the
    int 0. *)
Definition sum (values : list num) : result num :=
  foldM Num.add values (Int 0).

(** CPython 3.12 and later add the floats of [sum] with Neumaier's
    compensation: [c] collects the rounding errors of the running sum
    [s] and is added at the end.  [sum_compensated] is that variant; on
    the weights of the script it returns what [sum] returns (lemma
    [sum_compensated_weights] below). *)
Definition neumaier_step (s c x : spec_float) : spec_float * spec_float :=
  let t := fadd s x in
  let fsub := SFsub Num.prec Num.emax in
  (t, if SFleb (SFabs x) (SFabs s)
      then fadd c (fadd (fsub s t) x)
      else fadd c (fadd (fsub x t) s)).

Definition is_finite (f : spec_float) : bool :=
  match f with S754_zero _ | S754_finite _ _ _ => true | _ => false end.

Fixpoint sum_floats (s c : spec_float) (values : list num)
  : result spec_float :=
  match values with
  | [] => Ret (if negb (is_zero c) && is_finite c then fadd s c else s)
  | Int z :: rest => f <- float_of_int z ;; sum_floats (fadd s f) c rest
  | Float x :: rest =>
      let '(t, c') := neumaier_step s c x in sum_floats t c' rest
  end.

Fixpoint sum_ints (i : Z) (values : list num) : result num :=
  match values with
  | [] => Ret (Int i)
  | Int z :: rest => sum_ints (i + z) rest
  | Float x :: rest =>
      f <- float_of_int i ;;
      r <- sum_floats f (S754_zero false) values ;;
      Ret (Float r)
  end.

Definition sum_compensated (values : list num) : result num :=
  sum_ints 0 values.

(** Lines 563 to 581: the code quality score from the three scores. *)
Definition aggregate_code_score
  (flake8_score eslint_score complexity_score : Z) : result num :=
  let '(w_flake8, w_eslint, w_complexity) :=
    weights flake8_score eslint_score complexity_score in
  total_weight <- sum [w_flake8; w_eslint; w_complexity] ;;
  aggregate_code_score <-
    (if Num.gtb total_weight (Int 0) then
       a <- Num.mul (Int flake8_score) w_flake8 ;;
       b <- Num.mul (Int eslint_score) w_eslint ;;
       c <- Num.mul (Int complexity_score) w_complexity ;;
       ab <- Num.add a b ;;
       abc <- Num.add ab c ;;
       Num.truediv abc total_weight
     else Ret (Int 50)) ;;
  Num.round2 aggregate_code_score.

Definition _calculate_aggregate_scores (a : analysis_results)
  : result analysis_results :=
  let flake8_score := get_score Lint.score (flake8 (code_quality a)) in
  let eslint_score := get_score Lint.score (eslint (code_quality a)) in
  let complexity_score := get_score Radon.complexity_score (complexity a) in
  rounded <- aggregate_code_score flake8_score eslint_score complexity_score ;;
  Ret (set_aggregate
         {| code_quality_score := rounded;
            documentation_score :=
              match documentation a with
              | Some r => Doc.score r
              | None => Int 0
              end;
            security_score := get_score Sec.score (security a);
            dependency_score := get_score Deps.score (dependencies a) |}
         a).

(** ** The workspace and the orchestrator *)

(** What one run of the script meets outside itself. *)
Record env : Type := {
  (** [int(time.time())] *)
  now : Z;
  (** [urlparse(url)]: the [netloc] and the [path], or ValueError *)
  urlparse : string -> result (string * string);
  (** [tempfile.mkdtemp(prefix=...)]: the directory created *)
  mkdtemp : string -> result string;
  (** the run of [git clone --depth 1 repo_url temp_dir] *)
  git_clone : proc;
  (** what the temporary directory holds once the clone has succeeded *)
  checkout : workspace;
  (** the runs of the three external tools *)
  flake8_run : proc;
  radon_run : proc;
  eslint_run : proc;
  (** [json.loads] *)
  json_loads : string -> result json;
  (** [shutil.rmtree(repo_path)]: done, or the error raised *)
  rmtree : result unit
}.

(** The calls that create, fill and remove the temporary directory. *)
Inductive event : Type :=
| Mkdtemp (temp_dir : string)
| GitClone (temp_dir : string)
| Rmtree (temp_dir : string).

(** The temporary directories on disk and the calls made so far. *)
Record world : Type := {
  disk : list string;
  trace : list event
}.

Definition on_disk (w : world) (p : string) : bool :=
  existsb (String.eqb p) (disk w).

Definition log (ev : event) (w : world) : world :=
  {| disk := disk w; trace := (trace w ++ [ev])%list |}.

Definition create_dir (p : string) (w : world) : world :=
  {| disk := p :: disk w; trace := trace w |}.

Definition remove_dir (p : string) (w : world) : world :=
  {| disk := filter (fun q => negb (String.eqb p q)) (disk w);
     trace := trace w |}.

(** The fields of [self] that change, with the world. *)
Record state : Type := {
  results : analysis_results;
  outside : world
}.

(** [s.strip('/')] *)
Definition strip_slashes (s : string) : string :=
  let fix lstrip (s : string) : string :=
    match s with
    | String "/"%char s' => lstrip s'
    | _ => s
    end in
  let fix rstrip (s : string) : string :=
    match s with
    | EmptyString => EmptyString
    | String c s' =>
        match rstrip s' with
        | EmptyString =>
            if Ascii.eqb c "/"%char then EmptyString else String c EmptyString
        | t => String c t
        end
    end in
  rstrip (lstrip s).

(** [_get_repo_name_from_url] *)
Definition _get_repo_name_from_url (e : env) (url : string) : result string :=
  parsed <- urlparse e url ;;
  let '(netloc, path) := parsed in
  if Text.contains "github.com" netloc then
    let path_parts := Text.split_on "/"%char (strip_slashes path) in
    match rev path_parts with
    | last :: before_last :: _ => Ret (before_last ++ "_" ++ last)
    | _ => Ret "unknown_repository"
    end
  else Ret "unknown_repository".

(** The fields of [self] that never change. *)
Record analyzer : Type := {
  repo_url : string;
  local_path : string
}.

(** [RepositoryAnalyzer(repo_url)]: [__init__] with [local_path=None]. *)
Definition new_analyzer (e : env) (url : string)
  : result (analyzer * analysis_results) :=
  name <- _get_repo_name_from_url e url ;;
  Ret ({| repo_url := url; local_path := name |},
       initial_results url (now e)).

(** The [try] block of [clone_repository]. *)
Definition clone_body (e : env) (self : analyzer) (w : world)
  : world * result string :=
  match mkdtemp e (local_path self) with
  | Raise ex => (w, Raise ex)
  | Ret temp_dir =>
      let w := log (Mkdtemp temp_dir) (create_dir temp_dir w) in
      let w := log (GitClone temp_dir) w in
      match checked (git_clone e) with
      | Raise ex => (w, Raise ex)
      | Ret _ => (w, Ret temp_dir)
      end
  end.

(** [clone_repository]: the directory, or [None] with the error
    recorded. *)
Definition clone_repository (e : env) (self : analyzer) (st : state)
  : state * option string :=
  match clone_body e self (outside st) with
  | (w, Ret temp_dir) => ({| results := results st; outside := w |}, Some temp_dir)
  | (w, Raise (CalledProcessError m)) =>
      ({| results := append_error ("Failed to clone repository: " ++ m) (results st);
          outside := w |}, None)
  | (w, Raise (TimeoutExpired _)) =>
      ({| results := append_error "Repository cloning timed out" (results st);
          outside := w |}, None)
  | (w, Raise ex) =>
      ({| results :=
            append_error ("Unexpected error during clone: " ++ str_of_exn ex)
              (results st);
          outside := w |}, None)
  end.

(** [not repo_path] *)
Definition falsy (repo_path : option string) : bool :=
  match repo_path with
  | None => true
  | Some p => Text.is_empty p
  end.

(** The six analyzer calls of [run_analysis], in the order of the
    script. *)
Definition run_analyzers (e : env) (a : analysis_results) : analysis_results :=
  let ws := checkout e in
  let a := set_flake8 (run_flake8_analysis ws (flake8_run e)) a in
  let a := set_complexity (run_radon_analysis (json_loads e) ws (radon_run e)) a in
  let a := set_eslint (run_eslint_analysis (json_loads e) ws (eslint_run e)) a in
  let a := set_documentation (analyze_documentation ws) a in
  let a := set_dependencies (analyze_dependencies ws) a in
  let a := set_security (analyze_security ws) a in
  a.

(** The [finally] block of [run_analysis]. *)
Definition cleanup (e : env) (repo_path : option string) (st : state) : state :=
  match repo_path with
  | Some p =>
      if negb (Text.is_empty p) && on_disk (outside st) p then
        let w := log (Rmtree p) (outside st) in
        match rmtree e with
        | Ret _ => {| results := results st; outside := remove_dir p w |}
        | Raise ex =>
            {| results :=
                 append_warning
                   ("Failed to cleanup " ++ p ++ ": " ++ str_of_exn ex)
                   (results st);
               outside := w |}
        end
      else st
  | None => st
  end.

(** [run_analysis] *)
Definition run_analysis (e : env) (self : analyzer) (st : state) : state :=
  let '(st, repo_path) := clone_repository e self st in
  let st :=
    if falsy repo_path then st
    else
      let a := run_analyzers e (results st) in
      match _calculate_aggregate_scores a with
      | Ret a' => {| results := a'; outside := outside st |}
      | Raise ex =>
          {| results := append_error ("Analysis failed: " ++ str_of_exn ex) a;
             outside := outside st |}
      end in
  cleanup e repo_path st.

(** ** main *)

(** How the process ends: the exit status and, when the report was
    written, the report. *)
Record outcome : Type := {
  exit_code : Z;
  report : option analysis_results
}.

(** The check of [main] on the URL. *)
Definition valid_url (url : string) : bool :=
  Text.contains "github.com" url || prefix "https://" url.

(** [main], from the parsed argument on.  An exception that nothing
    catches ends the process with status 1. *)
Definition main (e : env) (url : string) (w : world) : world * outcome :=
  if negb (valid_url url) then (w, {| exit_code := 1; report := None |})
  else
    match new_analyzer e url with
    | Raise _ => (w, {| exit_code := 1; report := None |})
    | Ret (self, a) =>
        let st := run_analysis e self {| results := a; outside := w |} in
        (outside st, {| exit_code := 0; report := Some (results st) |})
    end.

(** * Vocabulary of the properties *)

(** [0 <= x <= 100], with the comparisons of Python. *)
Definition in_0_100 (x : num) : bool :=
  Num.leb (Int 0) x && Num.leb x (Int 100).

Definition float_eqb (x y : spec_float) : bool :=
  match x, y with
  | S754_zero a, S754_zero b => Bool.eqb a b
  | S754_infinity a, S754_infinity b => Bool.eqb a b
  | S754_nan, S754_nan => true
  | S754_finite a m e, S754_finite b n k =>
      Bool.eqb a b && Pos.eqb m n && Z.eqb e k
  | _, _ => false
  end.

(** The same number of the same type. *)
Definition num_eqb (x y : num) : bool :=
  match x, y with
  | Int a, Int b => a =? b
  | Float f, Float g => float_eqb f g
  | _, _ => false
  end.

(** The weighted mean as a formula over the rationals: weights 0.4, 0.4
    and 0.2, and weight zero for a score that is not positive. *)
Definition mean_weight (score : Z) (w : Q) : Q :=
  if score >? 0 then w else 0%Q.

Definition weighted_mean (flake8_score eslint_score complexity_score : Z) : Q :=
  let wf := mean_weight flake8_score (4 # 10) in
  let we := mean_weight eslint_score (4 # 10) in
  let wc := mean_weight complexity_score (2 # 10) in
  ((inject_Z flake8_score * wf + inject_Z eslint_score * we
    + inject_Z complexity_score * wc) / (wf + we + wc))%Q.

(** A rational rounded to two decimals, ties to even, as a binary64. *)
Definition rounded_to_cents (q : Q) : num :=
  Float (nearest_of_frac (div_half_even (100 * Qnum q) (Z.pos (Qden q))) 100).

(** The code quality score as a formula: the neutral default 50 when no
    score is positive, the rounded weighted mean otherwise. *)
Definition expected_code_score (f e c : Z) : num :=
  if (f >? 0) || (e >? 0) || (c >? 0)
  then rounded_to_cents (weighted_mean f e c)
  else Int 50.

Definition aggregate_ok (f e c : Z) : bool :=
  match aggregate_code_score f e c with
  | Ret x => num_eqb x (expected_code_score f e c) && in_0_100 x
  | Raise _ => false
  end.

(** The integers [lo], [lo + 1], ..., [lo + n - 1]. *)
Definition span (lo : Z) (n : nat) : list Z :=
  map (fun k => lo + Z.of_nat k) (seq 0 n).

(** The scores the three code quality analyzers can return. *)
Definition flake8_scores : list Z := 0 :: span 30 61.
Definition eslint_scores : list Z := 0 :: span 20 61.
Definition complexity_scores : list Z := [0; 90; 70; 40; 20].

(** The four ways out of [run_flake8_analysis]. *)
Inductive flake8_exit (ws : workspace) (p : proc) (r : Lint.results) : Prop :=
| flake8_no_files :
    rglob ws ".py" = [] ->
    r = Lint.set_detail "message" (JStr "No Python files found") Lint.init ->
    flake8_exit ws p r
| flake8_raised (e : exn) :
    rglob ws ".py" <> [] -> p = Raise e ->
    Lint.score r = 0 -> Lint.details r <> [] ->
    flake8_exit ws p r
| flake8_clean (c : completed) :
    rglob ws ".py" <> [] -> p = Ret c -> returncode c = 0 ->
    r = Lint.set_score 90 Lint.init ->
    flake8_exit ws p r
| flake8_issues (c : completed) :
    rglob ws ".py" <> [] -> p = Ret c -> returncode c <> 0 ->
    Lint.score r = flake8_policy (Lint.issues r) (Lint.critical_issues r) ->
    0 <= Lint.critical_issues r <= Lint.issues r ->
    Lint.details r = [] ->
    flake8_exit ws p r.

(** The clone of the run succeeds and leaves the checkout in
    [temp_dir]. *)
Definition acquires (e : env) (self : analyzer) (temp_dir : string) : Prop :=
  mkdtemp e (local_path self) = Ret temp_dir
  /\ Text.is_empty temp_dir = false
  /\ returns (checked (git_clone e)) = true.

(** The clone of the run fails after [mkdtemp] created [temp_dir]. *)
Definition clone_fails (e : env) (self : analyzer) (temp_dir : string) : Prop :=
  mkdtemp e (local_path self) = Ret temp_dir
  /\ returns (checked (git_clone e)) = false.

(** The number of calls of [rmtree] on [p] in a trace. *)
Fixpoint releases (p : string) (t : list event) : nat :=
  match t with
  | [] => 0
  | Rmtree q :: t' => (if String.eqb p q then 1 else 0) + releases p t'
  | _ :: t' => releases p t'
  end.

(** An analyzer says in [details] that it had nothing to analyze
    ([message]), failed ([error]) or timed out ([timeout]). *)
Definition without_signal (details : dict) : bool :=
  match dict_get "message" details, dict_get "error" details,
        dict_get "timeout" details with
  | None, None, None => false
  | _, _, _ => true
  end.

(** How [details] records the exception [e] of an analyzer that tells
    a timeout from other errors. *)
Definition records (details : dict) (e : exn) : Prop :=
  match e with
  | TimeoutExpired _ => dict_get "timeout" details = Some (JBool true)
  | _ => dict_get "error" details = Some (JStr (str_of_exn e))
  end.

(** The world once [mkdtemp] and [git clone] have run. *)
Definition cloned (d : string) (w : world) : world :=
  log (GitClone d) (log (Mkdtemp d) (create_dir d w)).

(** The report of a run whose clone succeeded, before the cleanup. *)
Definition analyzed (e : env) (a : analysis_results) : analysis_results :=
  let ws := checkout e in
  set_aggregate
    {| code_quality_score :=
         expected_code_score
           (Lint.score (run_flake8_analysis ws (flake8_run e)))
           (Lint.score (run_eslint_analysis (json_loads e) ws (eslint_run e)))
           (Radon.complexity_score
              (run_radon_analysis (json_loads e) ws (radon_run e)));
       documentation_score := Doc.score (analyze_documentation ws);
       security_score := Sec.score (analyze_security ws);
       dependency_score := Deps.score (analyze_dependencies ws) |}
    (run_analyzers e a).

(** ** Sample runs *)

Definition sample_url : string := "https://github.com/octocat/Hello-World".

(** What [urlparse] returns for [sample_url]. *)
Definition sample_urlparse (url : string) : result (string * string) :=
  Ret ("github.com", "/octocat/Hello-World").

Definition sample_mkdtemp (prefix : string) : result string :=
  Ret ("/tmp/" ++ prefix ++ "k3x9q2ab").

Definition sample_dir : string := "/tmp/octocat_Hello-Worldk3x9q2ab".

Definition exited (code : Z) (out err : string) : proc :=
  Ret {| returncode := code; stdout := out; stderr := err |}.

Definition not_json (s : string) : result json :=
  Raise (JSONDecodeError "Expecting value").

(** A run on the checkout [ws], with the outcomes of [git clone] and of
    ESLint given; flake8 and radon exit with status 0 and print
    nothing. *)
Definition sample_env (clone : proc) (ws : workspace) (eslint : proc) : env :=
  {| now := 1700000000;
     urlparse := sample_urlparse;
     mkdtemp := sample_mkdtemp;
     git_clone := clone;
     checkout := ws;
     flake8_run := exited 0 "" "";
     radon_run := exited 0 "" "";
     eslint_run := eslint;
     json_loads := not_json;
     rmtree := Ret tt |}.

Definition sample_analyzer : analyzer :=
  {| repo_url := sample_url; local_path := "octocat_Hello-World" |}.

Definition no_world : world := {| disk := []; trace := [] |}.

Definition fresh_state : state :=
  {| results := initial_results sample_url 1700000000; outside := no_world |}.

Definition text_file (text : string) : node := File (Some text) text.

(** [git clone] fails: the repository does not exist. *)
Definition failed_clone : proc :=
  exited 128 "" "fatal: repository not found".

(** A checkout with nothing the analyzers look for. *)
Definition bare_checkout : workspace :=
  [([".git"; "HEAD"], text_file "ref: refs/heads/main");
   (["LICENSE"], text_file "MIT License");
   ([".github"; "workflows"; "ci.yml"], text_file "run: make test")].

(** A checkout with four workflows that each name dependabot and
    CodeQL. *)
Definition scanning_workflow : node :=
  text_file "uses: github/codeql-action/init@v3 # dependabot".

Definition four_workflows : workspace :=
  [([".github"; "workflows"; "a.yml"], scanning_workflow);
   ([".github"; "workflows"; "b.yml"], scanning_workflow);
   ([".github"; "workflows"; "c.yml"], scanning_workflow);
   ([".github"; "workflows"; "d.yml"], scanning_workflow)].

(** A checkout with one JavaScript file and a [package.json]. *)
Definition js_checkout : workspace :=
  [(["index.js"], text_file "module.exports = 1");
   (["package.json"], text_file "{}")].

(** The same checkout with a [.github] directory that the process may
    not search. *)
Definition locked_checkout : workspace :=
  (js_checkout ++ [([".github"], Locked)])%list.

(** ** A checkout with nothing to analyze *)

Definition is_nil {A : Type} (l : list A) : bool :=
  match l with [] => true | _ :: _ => false end.

(** A workflow file that cannot be read, or names none of the tools
    [analyze_security] looks for. *)
Definition names_no_security_tool (workflow_file : string * node) : bool :=
  match read_utf8 (snd workflow_file) with
  | Raise _ => true
  | Ret text =>
      let content := Text.lower text in
      negb (Text.contains "dependabot" content
            || Text.contains "dependabot config" content)
      && negb (Text.contains "codeql" content
               || Text.contains "security-events" content)
  end.

Definition no_python_files (ws : workspace) : bool := is_nil (rglob ws ".py").

Definition no_js_ts_files (ws : workspace) : bool :=
  is_nil (rglob ws ".js" ++ rglob ws ".ts" ++ rglob ws ".jsx"
          ++ rglob ws ".tsx")%list.

(** [(base_path / p).exists()] returns [False]. *)
Definition absent (ws : workspace) (p : path) : bool :=
  match exists_ ws p with Ret false => true | _ => false end.

(** No directory of the checkout is locked. *)
Definition searchable (ws : workspace) : bool :=
  forallb (fun e => negb (is_locked (snd e))) ws.

Definition no_readme (ws : workspace) : bool :=
  forallb (fun readme_file => absent ws [readme_file]) readme_files.

Definition no_dependency_files (ws : workspace) : bool :=
  forallb (fun entry => absent ws (snd entry)) dependency_files
  && forallb (absent ws) lock_files
  && forallb (absent ws) dependency_security_files.

Definition no_security_files (ws : workspace) : bool :=
  forallb (fun entry => absent ws (snd entry)) security_files
  && returns (exists_ ws [".github"; "workflows"])
  && forallb names_no_security_tool
       (glob ws [".github"; "workflows"] ".yml"
        ++ glob ws [".github"; "workflows"] ".yaml")%list.

(** The number of canonical sections found in a README. *)
Definition section_count (s : sections) : Z :=
  (if installation s then 1 else 0) + (if usage s then 1 else 0)
  + (if contributing s then 1 else 0) + (if license s then 1 else 0).

(** The bonuses of the sections found. *)
Definition section_bonus (s : sections) : Z :=
  (if installation s then 15 else 0) + (if usage s then 10 else 0)
  + (if contributing s then 10 else 0) + (if license s then 10 else 0).

(** A README with three sections, one fenced block, two sentences and
    twenty-four words. *)
Definition sample_readme : string :=
  String.concat (String Text.newline EmptyString)
    ["# Hello World";
     "## Installation";
     "Run make install";
     "## Usage";
     "```";
     "hello --name world";
     "```";
     "Prints a greeting.";
     "## License";
     "MIT, see file LICENSE."].

Definition readme_checkout : workspace :=
  [(["README.md"], text_file sample_readme)].

(** * Vocabulary of the further properties *)

(** 1 when [p] is in the checkout, 0 otherwise. *)
Definition present (ws : workspace) (p : path) : Z :=
  if has_entry ws p then 1 else 0.

(** The root of the checkout is locked. *)
Definition root_locked (ws : workspace) : bool :=
  existsb (fun e => is_locked (snd e) && is_nil (fst e)) ws.

(** The error of [exists] below a locked directory, as [details]
    records it. *)
Definition permission_denied : json := JStr "[Errno 13] Permission denied".

(** How many of the paths exist. *)
Definition count_present (ws : workspace) (l : list path) : Z :=
  fold_right (fun p n => present ws p + n) 0 l.

(** How many items satisfy [p]. *)
Definition count_if {A : Type} (p : A -> bool) (l : list A) : Z :=
  Z.of_nat (List.length (filter p l)).

(** The workflow files [analyze_security] reads. *)
Definition workflow_files (ws : workspace) : list (string * node) :=
  if has_entry ws [".github"; "workflows"]
  then (glob ws [".github"; "workflows"] ".yml"
        ++ glob ws [".github"; "workflows"] ".yaml")%list
  else [].

(** A workflow file that can be read and names dependabot. *)
Definition mentions_dependabot (workflow_file : string * node) : bool :=
  match read_utf8 (snd workflow_file) with
  | Raise _ => false
  | Ret text =>
      let content := Text.lower text in
      Text.contains "dependabot" content
      || Text.contains "dependabot config" content
  end.

(** A workflow file that can be read and names CodeQL. *)
Definition mentions_codeql (workflow_file : string * node) : bool :=
  match read_utf8 (snd workflow_file) with
  | Raise _ => false
  | Ret text =>
      let content := Text.lower text in
      Text.contains "codeql" content
      || Text.contains "security-events" content
  end.

(** The points [analyze_security] adds up before the baseline. *)
Definition security_points (ws : workspace) : Z :=
  20 * present ws ["SECURITY.md"]
  + 20 * present ws [".github"; "SECURITY.md"]
  + 15 * count_if mentions_dependabot (workflow_files ws)
  + 15 * count_if mentions_codeql (workflow_files ws).

(** The points [analyze_dependencies] adds up before the cap. *)
Definition dependency_points (ws : workspace) : Z :=
  15 * count_present ws (map snd dependency_files)
  + (if existsb (has_entry ws) lock_files then 20 else 0)
  + (if existsb (has_entry ws) dependency_security_files then 10 else 0).

(** What [analyze_documentation] makes of a README with the text
    [text]. *)
Definition documentation_of_text (text : string) : Doc.results :=
  analyze_documentation [(["README.md"], File (Some text) text)].

(** What reading a README candidate gives: its text under UTF-8, or
    under Latin-1 when it is not UTF-8; a directory cannot be opened. *)
Definition readme_text (n : node) : result (option string) :=
  match n with
  | Dir => Raise (OtherError "Is a directory")
  | File (Some text) _ => Ret (Some text)
  | File None text => Ret (Some text)
  | Locked => Raise (OtherError "[Errno 13] Permission denied")
  end.

(** The documentation score as a formula on integers. *)
Definition documentation_points (s : sections) (code_examples : Z)
  (readability_score : Z) : Z :=
  Z.min 100 (doc_base_score s code_examples + (readability_score - 50) / 2).

(** The names [run_eslint_analysis] takes for an ESLint
    configuration. *)
Definition eslint_config_names : list string :=
  [".eslintrc.json"; ".eslintrc.js"; ".eslintrc.yml";
   ".eslintrc.yaml"; "package.json"].

(** ESLint is run on the checkout: it has JS/TS files and a
    configuration. *)
Definition runs_eslint (ws : workspace) : bool :=
  negb (no_js_ts_files ws)
  && match any_exists ws (map (fun config => [config]) eslint_config_names) with
     | Ret found => found
     | Raise _ => false
     end.

Definition is_string (v : json) : bool :=
  match v with JStr _ => true | _ => false end.

(** An exception that is neither a timeout nor one of the classes the
    script names. *)
Definition is_other (e : exn) : Prop :=
  match e with OtherError _ => True | _ => False end.

(** The complexity the loop of [run_radon_analysis] takes for a function
    entry whose [complexity] is an int: that int, and 1 when the key is
    missing. *)
Definition int_complexity (func_data : dict) : option Z :=
  match dict_get "complexity" func_data with
  | None => Some 1
  | Some (JNum (Int z)) => Some z
  | Some _ => None
  end.

(** A report of [radon cc --json]: an object from file names to lists
    of function entries. *)
Definition radon_report (files : list (string * list dict)) : json :=
  JObj (map (fun file => (fst file, JArr (map JObj (snd file)))) files).

(** The function entries of a report, file after file. *)
Definition report_functions (files : list (string * list dict)) : list dict :=
  flat_map snd files.

Definition complexities (funcs : list dict) : list Z :=
  map (fun func_data =>
         match int_complexity func_data with Some z => z | None => 0 end)
      funcs.

Definition total (l : list Z) : Z := fold_right Z.add 0 l.

(** The dictionary of [analyze_dependencies] with the flags of the
    files in the checkout, and the score and [details] given. *)
Definition dependency_results (ws : workspace) (score : Z) (details : dict)
  : Deps.results :=
  {| Deps.score := score;
     Deps.has_package_json := has_entry ws ["package.json"];
     Deps.has_requirements_txt := has_entry ws ["requirements.txt"];
     Deps.has_pipfile := has_entry ws ["Pipfile"];
     Deps.has_setup_py := has_entry ws ["setup.py"];
     Deps.has_cargo_toml := has_entry ws ["Cargo.toml"];
     Deps.has_go_mod := has_entry ws ["go.mod"];
     Deps.details := details |}.

(** What [details] says of the lock files. *)
Definition lockfile_detail (ws : workspace) : dict :=
  if existsb (has_entry ws) lock_files
  then [("has_lockfiles", JBool true)] else [].

(** The scores that take part in the weighted mean. *)
Definition positive_scores (scores : list Z) : list Z :=
  filter (fun s => s >? 0) scores.

Definition smallest (scores : list Z) : Z := fold_right Z.min 100 scores.
Definition largest (scores : list Z) : Z := fold_right Z.max 0 scores.

(** [x] is the default 50 when no score is positive, and lies between
    the smallest and the largest positive score otherwise. *)
Definition within_scores (f e c : Z) (x : num) : bool :=
  match positive_scores [f; e; c] with
  | [] => num_eqb x (Int 50)
  | p => Num.leb (Int (smallest p)) x && Num.leb x (Int (largest p))
  end.

(** The aggregate of a report in which no analyzer has written. *)
Definition default_aggregate : aggregate_scores :=
  {| code_quality_score := Int 50;
     documentation_score := Int 0;
     security_score := 0;
     dependency_score := 0 |}.

(** A run of [git clone] that ends in the exception [ex]. *)
Definition clone_raises (e : env) (ex : exn) : Prop :=
  checked (git_clone e) = Raise ex.

(** A line of flake8's stderr that counts as an issue, and one that
    counts as critical. *)
Definition flake8_issue_line (line : string) : bool :=
  negb (Text.is_empty (Text.strip line)).

Definition flake8_critical_line (line : string) : bool :=
  flake8_issue_line line
  && existsb (fun issue => Text.contains issue (Text.lower line))
       ["e9"; "f"; "e112"; "e113"].

(** The lines [run_flake8_analysis] loops over. *)
Definition flake8_lines (c : completed) : list string :=
  Text.split_on Text.newline (Text.strip (stderr c)).

(** A checkout with one Python file. *)
Definition py_checkout : workspace :=
  [(["setup.py"], text_file "import os")].

(** A file entry of ESLint's JSON report: an object whose [messages]
    are the objects [snd file], beside the other keys [fst file]. *)
Definition eslint_file (file : dict * list dict) : json :=
  JObj (dict_set "messages" (JArr (map JObj (snd file))) (fst file)).

Definition eslint_report (files : list (dict * list dict)) : json :=
  JArr (map eslint_file files).

(** The messages of a report, file after file. *)
Definition report_messages (files : list (dict * list dict)) : list dict :=
  flat_map snd files.

(** The [ruleId] the loop of [run_eslint_analysis] takes for a message
    in which it is a string: that string, and the empty one when the key
    is missing. *)
Definition rule_id (message : dict) : option string :=
  match dict_get "ruleId" message with
  | None => Some ""
  | Some (JStr s) => Some s
  | Some _ => None
  end.

(** A message that counts as critical, by the name of its rule. *)
Definition eslint_critical_message (message : dict) : bool :=
  match rule_id message with
  | Some rule =>
      existsb (fun severity_check =>
                 Text.contains severity_check (Text.lower rule))
        ["no-unused-vars"; "error"; "no-unreachable"]
  | None => false
  end.

(** The two passes of [strip_slashes]: the slashes at the start, then
    those at the end. *)
Fixpoint lstrip_slashes (s : string) : string :=
  match s with
  | String "/"%char s' => lstrip_slashes s'
  | _ => s
  end.

Fixpoint rstrip_slashes (s : string) : string :=
  match s with
  | EmptyString => EmptyString
  | String c s' =>
      match rstrip_slashes s' with
      | EmptyString =>
          if Ascii.eqb c "/"%char then EmptyString else String c EmptyString
      | t => String c t
      end
  end.

(** The text [clone_repository] appends to [errors] for an exception of
    its [try] block. *)
Definition clone_error_message (ex : exn) : string :=
  match ex with
  | CalledProcessError m => "Failed to clone repository: " ++ m
  | TimeoutExpired _ => "Repository cloning timed out"
  | _ => "Unexpected error during clone: " ++ str_of_exn ex
  end.




(** * Properties *)

(** ** The lint policies *)

Section Policies.

Lemma flake8_policy_eq (i c : Z) :
  flake8_policy i c = Z.max 0 (80 - Z.min 50 (i * 2 + c * 5)).
Proof. reflexivity. Qed.

Lemma eslint_policy_eq (t c : Z) :
  eslint_policy t c = Z.max 0 (80 - Z.min 60 (t * 1 + c * 3)).
Proof. reflexivity. Qed.

Lemma flake8_policy_range (i c : Z) :
  0 <= i -> 0 <= c -> 30 <= flake8_policy i c <= 80.
Proof. intros Hi Hc. rewrite flake8_policy_eq. lia. Qed.

Lemma eslint_policy_range (t c : Z) :
  0 <= t -> 0 <= c -> 20 <= eslint_policy t c <= 80.
Proof. intros Ht Hc. rewrite eslint_policy_eq. lia. Qed.

End Policies.

(** ** run_flake8_analysis *)

Section Flake8.

Lemma flake8_count_line_bounds (i c : Z) (line : string) :
  0 <= c <= i ->
  0 <= snd (flake8_count_line (i, c) line)
    <= fst (flake8_count_line (i, c) line).
Proof.
  intros H. unfold flake8_count_line.
  destruct (negb _); [destruct (existsb _ _)|]; simpl; lia.
Qed.

Lemma flake8_fold_bounds (lines : list string) :
  forall counts : Z * Z,
    0 <= snd counts <= fst counts ->
    0 <= snd (fold_left flake8_count_line lines counts)
      <= fst (fold_left flake8_count_line lines counts).
Proof.
  induction lines as [|line lines IH]; intros [i c] H; simpl in *.
  - exact H.
  - apply IH. apply flake8_count_line_bounds. exact H.
Qed.

Lemma run_flake8_analysis_exit (ws : workspace) (p : proc) :
  flake8_exit ws p (run_flake8_analysis ws p).
Proof.
  unfold run_flake8_analysis, flake8_body.
  destruct (rglob ws ".py") as [|f fs] eqn:Hpy.
  - apply flake8_no_files; [exact Hpy | reflexivity].
  - assert (Hne : rglob ws ".py" <> []) by (rewrite Hpy; discriminate).
    destruct p as [c|e].
    + unfold St.bind, St.lift. simpl.
      destruct (returncode c =? 0) eqn:Hrc.
      * apply Z.eqb_eq in Hrc.
        eapply flake8_clean; eauto.
      * apply Z.eqb_neq in Hrc.
        pose proof (flake8_fold_bounds
          (Text.split_on Text.newline (Text.strip (stderr c))) (0, 0)) as Hb.
        destruct (fold_left flake8_count_line _ (0, 0)) as [i k].
        simpl in Hb.
        eapply flake8_issues; eauto; simpl; try reflexivity. lia.
    + unfold St.bind, St.lift. simpl.
      destruct e; eapply flake8_raised; eauto; simpl; discriminate.
Qed.

Lemma run_flake8_analysis_score (ws : workspace) (p : proc) :
  let s := Lint.score (run_flake8_analysis ws p) in
  s = 0 \/ 30 <= s <= 90.
Proof.
  destruct (run_flake8_analysis_exit ws p) as
    [_ Hr | e _ _ Hs _ | c _ _ _ Hr | c _ _ _ Hs Hb _].
  - rewrite Hr. left. reflexivity.
  - left. exact Hs.
  - rewrite Hr. right. simpl. lia.
  - right. cbv zeta. rewrite Hs.
    assert (Hrange :
      30 <= flake8_policy (Lint.issues (run_flake8_analysis ws p))
              (Lint.critical_issues (run_flake8_analysis ws p)) <= 80)
      by (apply flake8_policy_range; lia).
    lia.
Qed.

Lemma run_flake8_analysis_zero (ws : workspace) (p : proc) :
  rglob ws ".py" = [] \/ (exists ex, p = Raise ex) ->
  Lint.score (run_flake8_analysis ws p) = 0.
Proof.
  intros H.
  destruct (run_flake8_analysis_exit ws p) as
    [_ Hr | e _ _ Hs _ | c Hpy Hp _ _ | c Hpy Hp _ _ _ _].
  - rewrite Hr. reflexivity.
  - exact Hs.
  - destruct H as [H | [ex H]]; congruence.
  - destruct H as [H | [ex H]]; congruence.
Qed.

End Flake8.

(** C10.  The score of [run_flake8_analysis] is 0 or lies between 30 and
    90.  It is 0 exactly when the checkout has no Python file or the run
    of flake8 raised (a timeout or any other exception); a run that ended
    with status 0 scores 90; a run that ended with another status scores
    80 minus a penalty of at most 50, so between 30 and 80. *)
Theorem flake8_score_values (ws : workspace) (p : proc) :
  let r := run_flake8_analysis ws p in
  (Lint.score r = 0 \/ 30 <= Lint.score r <= 90)
  /\ (Lint.score r = 0 <-> rglob ws ".py" = [] \/ exists e, p = Raise e)
  /\ (forall c, rglob ws ".py" <> [] -> p = Ret c -> returncode c = 0 ->
        Lint.score r = 90)
  /\ (forall c, rglob ws ".py" <> [] -> p = Ret c -> returncode c <> 0 ->
        Lint.score r = 80 - Z.min 50 (Lint.issues r * 2 + Lint.critical_issues r * 5)
        /\ 30 <= Lint.score r <= 80).
Proof.
  intros r. subst r.
  destruct (run_flake8_analysis_exit ws p) as
    [Hpy Hr | e Hpy Hp Hs Hd | c Hpy Hp Hrc Hr | c Hpy Hp Hrc Hs Hb Hd].
  - rewrite Hr. simpl.
    split; [left; reflexivity|]. split; [tauto|].
    split; intros c Hne; contradiction.
  - rewrite Hs.
    split; [left; reflexivity|]. split; [split; eauto|].
    split; intros c _ Hc; congruence.
  - rewrite Hr. simpl.
    split; [right; lia|]. split; [split|split].
    + discriminate.
    + intros [H | [e He]]; congruence.
    + reflexivity.
    + intros c' _ Hc' Hrc'. congruence.
  - pose proof (flake8_policy_range (Lint.issues (run_flake8_analysis ws p))
                  (Lint.critical_issues (run_flake8_analysis ws p))) as Hrange.
    rewrite <- Hs in Hrange.
    split; [right; lia|]. split; [split|split].
    + lia.
    + intros [H | [e He]]; congruence.
    + intros c' _ Hc' Hrc'. congruence.
    + intros c' _ _ _. split; [|lia].
      rewrite Hs, flake8_policy_eq. lia.
Qed.

(** ** run_eslint_analysis and run_radon_analysis *)

Ltac break_match :=
  match goal with
  | |- context [match ?x with _ => _ end] => destruct x eqn:?
  end.

Section Lint_and_complexity.

Variable json_loads : string -> result json.

Lemma json_len_nonneg (v : json) (n : Z) : Json.len v = Ret n -> 0 <= n.
Proof.
  destruct v; simpl; intros H; inversion H; subst;
    apply Nat2Z.is_nonneg.
Qed.

Lemma eslint_count_item_grows (items : list json) :
  forall total n, foldM eslint_count_item items total = Ret n -> total <= n.
Proof.
  induction items as [|item items IH]; simpl; intros total n H.
  - inversion H. lia.
  - unfold bind in H at 1.
    destruct (eslint_count_item total item) as [t|] eqn:Hstep; [|discriminate].
    apply IH in H.
    unfold eslint_count_item, bind in Hstep.
    destruct (Json.get item "messages" (JArr [])) as [m|]; [|discriminate].
    destruct (Json.len m) as [k|] eqn:Hlen; [|discriminate].
    inversion Hstep. apply json_len_nonneg in Hlen. lia.
Qed.

Lemma eslint_count_message_grows (ms : list json) :
  forall k n, foldM eslint_count_message ms k = Ret n -> k <= n.
Proof.
  induction ms as [|m ms IH]; simpl; intros k n H.
  - inversion H. lia.
  - unfold bind in H at 1.
    destruct (eslint_count_message k m) as [t|] eqn:Hstep; [|discriminate].
    apply IH in H.
    unfold eslint_count_message, bind in Hstep.
    destruct (Json.get m "ruleId" (JStr "")) as [rule|]; [|discriminate].
    destruct (Json.lower rule) as [severity|]; [|discriminate].
    destruct (existsb _ _); inversion Hstep; lia.
Qed.

Lemma eslint_count_file_grows (items : list json) :
  forall k n, foldM eslint_count_file items k = Ret n -> k <= n.
Proof.
  induction items as [|item items IH]; simpl; intros k n H.
  - inversion H. lia.
  - unfold bind in H at 1.
    destruct (eslint_count_file k item) as [t|] eqn:Hstep; [|discriminate].
    apply IH in H.
    unfold eslint_count_file, bind in Hstep.
    destruct (Json.get item "messages" (JArr [])) as [m|]; [|discriminate].
    destruct (Json.iter m) as [ms|]; [|discriminate].
    apply eslint_count_message_grows in Hstep. lia.
Qed.

(** What the inner [try] block of ESLint leaves: the score untouched
    when it raised, a score of the policy when it returned. *)
Lemma eslint_parse_score (out : string) (r r' : Lint.results) (o : result unit) :
  eslint_parse json_loads out r = (r', o) ->
  match o with
  | Ret _ => 20 <= Lint.score r' <= 80
  | Raise _ => r' = r
  end.
Proof.
  unfold eslint_parse, St.bind, St.lift, St.modify.
  destruct (if Text.is_empty out then Ret (JArr []) else json_loads out)
    as [data|e]; [|intros H; inversion H; reflexivity].
  destruct (Json.iter data) as [items|e]; [|intros H; inversion H; reflexivity].
  destruct (foldM eslint_count_item items 0) as [t|e] eqn:Ht;
    [|intros H; inversion H; reflexivity].
  destruct (foldM eslint_count_file items 0) as [k|e] eqn:Hk;
    [|intros H; inversion H; reflexivity].
  intros H; inversion H; subst. simpl.
  apply eslint_count_item_grows in Ht. apply eslint_count_file_grows in Hk.
  apply eslint_policy_range; lia.
Qed.

Lemma run_eslint_analysis_score (ws : workspace) (p : proc) :
  let s := Lint.score (run_eslint_analysis json_loads ws p) in
  s = 0 \/ 20 <= s <= 80.
Proof.
  unfold run_eslint_analysis, eslint_body.
  destruct (_ ++ _)%list as [|f fs]; [left; reflexivity|].
  cbn [St.bind St.lift].
  destruct (any_exists ws _) as [config|e]; [|destruct e; left; reflexivity].
  destruct config; cbn [negb]; [|right; simpl; lia].
  destruct p as [c|e]; [|destruct e; left; reflexivity].
  cbn [St.bind St.lift].
  destruct (_ || _).
  - unfold St.except_json.
    destruct (eslint_parse json_loads (stdout c) Lint.init) as [r' o] eqn:Hparse.
    apply eslint_parse_score in Hparse.
    destruct o as [u|e].
    + right. exact Hparse.
    + subst r'. destruct e; simpl; (left; reflexivity) || (right; lia).
  - right. simpl. lia.
Qed.

Lemma radon_band_values (avg : num) :
  In (radon_band avg) [90; 70; 40; 20].
Proof.
  unfold radon_band. repeat break_match; simpl; auto.
Qed.

Lemma radon_parse_score (out : string) (r r' : Radon.results) (o : result unit) :
  radon_parse json_loads out r = (r', o) ->
  Radon.complexity_score r' = Radon.complexity_score r
  \/ In (Radon.complexity_score r') [90; 70; 40; 20].
Proof.
  unfold radon_parse, St.bind, St.lift, St.modify, St.ret.
  destruct (json_loads out) as [data|e]; [|intros H; inversion H; auto].
  destruct (Json.values data) as [files|e]; [|intros H; inversion H; auto].
  destruct (foldM radon_count_file files (Int 0, 0, 0)) as [[[t n] k]|e];
    [|intros H; inversion H; auto].
  destruct (n >? 0); [|intros H; inversion H; auto].
  destruct (truediv t (Int n)) as [avg|e]; [|intros H; inversion H; auto].
  pose proof (radon_band_values avg) as Hband.
  destruct (round2 avg) as [rounded|e]; intros H; inversion H; subst; simpl; auto.
Qed.

Lemma run_radon_analysis_score (ws : workspace) (p : proc) :
  In (Radon.complexity_score (run_radon_analysis json_loads ws p))
     [0; 90; 70; 40; 20].
Proof.
  assert (Hin : forall r : Radon.results,
             Radon.complexity_score r = 0
             \/ In (Radon.complexity_score r) [90; 70; 40; 20] ->
             In (Radon.complexity_score r) [0; 90; 70; 40; 20]).
  { intros r [H | H]; [left; symmetry; exact H | right; exact H]. }
  unfold run_radon_analysis, radon_body.
  destruct (rglob ws ".py") as [|f fs]; [left; reflexivity|].
  destruct p as [c|e]; [|destruct e; left; reflexivity].
  cbn [St.bind St.lift].
  destruct (returncode c =? 0); [|left; reflexivity].
  unfold St.except_json.
  destruct (radon_parse json_loads (stdout c) Radon.init) as [r' o] eqn:Hparse.
  apply radon_parse_score in Hparse. simpl in Hparse.
  destruct o as [u|e]; [apply Hin; exact Hparse|].
  destruct e; apply Hin; exact Hparse.
Qed.

End Lint_and_complexity.

(** ** The documentation and dependency scores *)

Section Range.

Lemma doc_final_score_range (s : sections) (n rs : Z) :
  In rs [90; 70; 50; 30] ->
  exists x, doc_final_score (doc_base_score s n) rs = Ret x
            /\ in_0_100 x = true /\ Num.leb (Int 30) x = true.
Proof.
  intros Hrs. unfold doc_base_score.
  destruct s as [i u c l]. cbn [installation usage contributing license].
  destruct (n >? 0);
    destruct i, u, c, l;
    simpl in Hrs; decompose [or] Hrs; subst; try contradiction;
    eexists; (split; [vm_compute; reflexivity | split; vm_compute; reflexivity]).
Qed.

Lemma readability_band_values (avg : num) :
  In (readability_band avg) [90; 70; 50; 30].
Proof.
  unfold readability_band. repeat break_match; simpl; auto.
Qed.

(** What [analyze_documentation] can return as a score. *)
Lemma analyze_documentation_score (ws : workspace) :
  let r := analyze_documentation ws in
  Doc.score r = Int 0 \/ Doc.score r = Int 10
  \/ (in_0_100 (Doc.score r) = true /\ Num.leb (Int 30) (Doc.score r) = true).
Proof.
  unfold analyze_documentation, documentation_body.
  destruct (find_readme ws readme_files) as [found|e];
    cbn [St.bind St.lift]; [|right; left; reflexivity].
  destruct (Text.is_empty _); [left; reflexivity|].
  cbn [St.bind St.lift St.modify].
  destruct (avg_sentence_length _) as [avg|e]; [|right; left; reflexivity].
  destruct (doc_final_score_range
              (find_sections (Text.lower match found with
                                         | Some text => text
                                         | None => ""
                                         end))
              (Text.count_fenced 0 false match found with
                                         | Some text => text
                                         | None => ""
                                         end)
              (readability_band avg) (readability_band_values avg))
    as (x & Hx & Hr & Hlow).
  rewrite Hx. right; right. simpl. split; assumption.
Qed.

Lemma analyze_documentation_in_range (ws : workspace) :
  in_0_100 (Doc.score (analyze_documentation ws)) = true.
Proof.
  destruct (analyze_documentation_score ws) as [H | [H | [H _]]];
    try rewrite H; try reflexivity; exact H.
Qed.

Lemma dependency_setters_keep_score :
  Forall (fun entry : (bool -> Deps.results -> Deps.results) * path =>
            forall v r, Deps.score (fst entry v r) = Deps.score r)
         dependency_files.
Proof. repeat constructor. Qed.

Lemma dependency_step_score (ws : workspace)
  (entry : (bool -> Deps.results -> Deps.results) * path)
  (r r' : Deps.results) (o : result unit) :
  (forall v r, Deps.score (fst entry v r) = Deps.score r) ->
  dependency_step ws entry r = (r', o) -> Deps.score r <= Deps.score r'.
Proof.
  destruct entry as [set_key file_path]. cbn [fst]. intros Hkeep.
  unfold dependency_step. cbn [St.bind St.lift St.modify St.ret].
  destruct (exists_ ws file_path) as [[|]|e];
    cbn [St.bind St.lift St.modify St.ret];
    intros H; inversion H; subst; cbn [Deps.score Deps.set_score];
    rewrite ?Hkeep; lia.
Qed.

Lemma dependency_loop_score (ws : workspace)
  (l : list ((bool -> Deps.results -> Deps.results) * path)) :
  Forall (fun entry => forall v r, Deps.score (fst entry v r) = Deps.score r) l ->
  forall r r' o,
    St.for_each (dependency_step ws) l r = (r', o) ->
    Deps.score r <= Deps.score r'.
Proof.
  induction 1 as [|entry l Hkeep _ IH]; intros r r' o.
  - cbn. intros H. inversion H. lia.
  - cbn [St.for_each]. unfold St.bind at 1.
    destruct (dependency_step ws entry r) as [r1 [u|e]] eqn:Hstep;
      apply dependency_step_score in Hstep; try exact Hkeep.
    + intros H. apply IH in H. lia.
    + intros H. inversion H. subst. exact Hstep.
Qed.

(** The score that the [try] block of [analyze_dependencies] leaves,
    whether it returns or raises, is not negative. *)
Lemma dependencies_body_score (ws : workspace) (r : Deps.results)
  (o : result unit) :
  dependencies_body ws Deps.init = (r, o) -> 0 <= Deps.score r.
Proof.
  unfold dependencies_body. unfold St.bind at 1.
  destruct (St.for_each (dependency_step ws) dependency_files Deps.init)
    as [r0 [u|e]] eqn:Hloop;
    apply (dependency_loop_score ws dependency_files
             dependency_setters_keep_score) in Hloop;
    cbn [Deps.score Deps.init] in Hloop;
    [|intros H; inversion H; subst; exact Hloop].
  cbn [St.bind St.lift].
  destruct (any_exists ws lock_files) as [[|]|e];
    cbn [St.bind St.lift St.modify St.ret];
    try (intros H; inversion H; subst; exact Hloop);
    destruct (any_exists ws dependency_security_files) as [[|]|e];
    cbn [St.bind St.lift St.modify St.ret];
    intros H; inversion H; subst; simpl; lia.
Qed.

Lemma analyze_dependencies_in_range (ws : workspace) :
  0 <= Deps.score (analyze_dependencies ws) <= 100.
Proof.
  unfold analyze_dependencies.
  destruct (dependencies_body ws Deps.init) as [r [u|e]] eqn:Hbody;
    [apply dependencies_body_score in Hbody; simpl; lia|].
  simpl. lia.
Qed.

End Range.

(** ** True division of a multiple *)

Section True_division.

Lemma digits2_pos_size (p : positive) : digits2_pos p = Pos.size p.
Proof. induction p; simpl; congruence. Qed.

Lemma Zdigits2_log2 (p : positive) :
  Zdigits2 (Z.pos p) = Z.log2 (Z.pos p) + 1.
Proof.
  unfold Zdigits2. rewrite digits2_pos_size.
  destruct p; simpl; try rewrite Pos2Z.inj_succ; try lia.
  all: rewrite Pos.add_1_r; reflexivity.
Qed.

(** Twelve times [s] has three or four binary digits more than [s]. *)
Lemma Zdigits2_twelve (p : positive) :
  Zdigits2 (12 * Z.pos p) - Zdigits2 (Z.pos p) = 3
  \/ Zdigits2 (12 * Z.pos p) - Zdigits2 (Z.pos p) = 4.
Proof.
  change (12 * Z.pos p) with (Z.pos (12 * p)).
  rewrite !Zdigits2_log2.
  pose proof (Z.log2_spec (Z.pos p) (Pos2Z.is_pos p)) as [Hlo Hhi].
  pose proof (Z.log2_nonneg (Z.pos p)) as Hnn.
  set (k := Z.log2 (Z.pos p)) in *.
  assert (H3 : k + 3 <= Z.log2 (Z.pos (12 * p))).
  { apply Z.log2_le_pow2; [lia|].
    rewrite Z.pow_add_r by lia. change (2 ^ 3) with 8. lia. }
  assert (H5 : Z.log2 (Z.pos (12 * p)) < k + 5).
  { apply Z.log2_lt_pow2; [lia|].
    replace (k + 5) with (Z.succ k + 4) by lia.
    rewrite Z.pow_add_r by lia. change (2 ^ 4) with 16. lia. }
  lia.
Qed.

Lemma div_eucl_multiple (k b : Z) : 0 < b -> Z.div_eucl (k * b) b = (k, 0).
Proof.
  intros Hb.
  pose proof (Z.div_mul k b ltac:(lia)) as Hq.
  pose proof (Z.mod_mul k b ltac:(lia)) as Hr.
  unfold Z.div, Z.modulo in Hq, Hr.
  destruct (Z.div_eucl (k * b) b) as [q r]. congruence.
Qed.

Lemma new_location_exact (n : Z) : new_location n 0 = loc_Exact.
Proof. unfold new_location. destruct (Z.even n); reflexivity. Qed.

(** [12 * s / s] is exactly [12.0], whatever the size of [s]. *)
Lemma truediv_twelve (s : Z) :
  0 < s -> Num.truediv (Int (12 * s)) (Int s) = Ret (Float (nearest_of_Z 12)).
Proof.
  intros Hs. destruct s as [|p|p]; try lia.
  unfold Num.truediv.
  replace (Z.pos p =? 0) with false by reflexivity.
  assert (Hq : nearest_of_frac (12 * Z.pos p) (Z.pos p) = nearest_of_Z 12).
  { unfold nearest_of_frac.
    change (12 * Z.pos p) with (Z.pos (12 * p)).
    cbv beta iota.
    change (Z.abs (Z.pos (12 * p))) with (12 * Z.pos p).
    change (Z.abs (Z.pos p)) with (Z.pos p).
    change (xorb (Z.pos (12 * p) <? 0) (Z.pos p <? 0)) with false.
    unfold SFdiv_core_binary.
    replace (Zdigits2 (12 * Z.pos p) + 0 - (Zdigits2 (Z.pos p) + 0))
      with (Zdigits2 (12 * Z.pos p) - Zdigits2 (Z.pos p)) by lia.
    destruct (Zdigits2_twelve p) as [Hd | Hd]; rewrite Hd.
    - change (Z.min (fexp Num.prec Num.emax 3) (0 - 0)) with (-50).
      change (0 - 0 - -50) with 50. cbv beta iota zeta.
      rewrite Z.shiftl_mul_pow2 by lia.
      replace (12 * Z.pos p * 2 ^ 50) with (12 * 2 ^ 50 * Z.pos p) by lia.
      rewrite div_eucl_multiple by lia.
      rewrite new_location_exact. vm_compute. reflexivity.
    - change (Z.min (fexp Num.prec Num.emax 4) (0 - 0)) with (-49).
      change (0 - 0 - -49) with 49. cbv beta iota zeta.
      rewrite Z.shiftl_mul_pow2 by lia.
      replace (12 * Z.pos p * 2 ^ 49) with (12 * 2 ^ 49 * Z.pos p) by lia.
      rewrite div_eucl_multiple by lia.
      rewrite new_location_exact. vm_compute. reflexivity. }
  rewrite Hq. reflexivity.
Qed.

End True_division.

(** ** _calculate_aggregate_scores *)

Section Aggregate.

Lemma span_In (lo : Z) (n : nat) (z : Z) :
  lo <= z < lo + Z.of_nat n -> In z (span lo n).
Proof.
  intros H. unfold span.
  replace z with (lo + Z.of_nat (Z.to_nat (z - lo))) by lia.
  apply (in_map (fun k => lo + Z.of_nat k)). apply in_seq. lia.
Qed.

Lemma float_eqb_eq (x y : spec_float) : float_eqb x y = true -> x = y.
Proof.
  destruct x as [a|a| |a m e], y as [b|b| |b n k]; simpl;
    try discriminate; try reflexivity.
  - intros H. apply Bool.eqb_prop in H. congruence.
  - intros H. apply Bool.eqb_prop in H. congruence.
  - intros H. apply andb_prop in H. destruct H as [H He].
    apply andb_prop in H. destruct H as [Hs Hm].
    apply Bool.eqb_prop in Hs. apply Pos.eqb_eq in Hm. apply Z.eqb_eq in He.
    congruence.
Qed.

Lemma num_eqb_eq (x y : num) : num_eqb x y = true -> x = y.
Proof.
  destruct x as [a|f], y as [b|g]; simpl; try discriminate.
  - intros H. apply Z.eqb_eq in H. congruence.
  - intros H. apply float_eqb_eq in H. congruence.
Qed.

(** The compensated sum of Python 3.12 gives the weights the same total
    as the plain sum. *)
Lemma sum_compensated_weights (f e c : Z) :
  let '(w_flake8, w_eslint, w_complexity) := weights f e c in
  sum_compensated [w_flake8; w_eslint; w_complexity]
  = sum [w_flake8; w_eslint; w_complexity].
Proof.
  unfold weights.
  destruct (f >? 0), (e >? 0), (c >? 0); vm_compute; reflexivity.
Qed.

(** Every triple of scores the analyzers can return, checked one by
    one. *)
Lemma reachable_scores_ok :
  forallb (fun f =>
    forallb (fun e =>
      forallb (fun c => aggregate_ok f e c) complexity_scores)
      eslint_scores)
    flake8_scores = true.
Proof. vm_compute. reflexivity. Qed.

Lemma aggregate_code_score_reachable (f e c : Z) :
  In f flake8_scores -> In e eslint_scores -> In c complexity_scores ->
  aggregate_code_score f e c = Ret (expected_code_score f e c)
  /\ in_0_100 (expected_code_score f e c) = true.
Proof.
  intros Hf He Hc.
  pose proof reachable_scores_ok as Hall.
  rewrite forallb_forall in Hall. specialize (Hall f Hf).
  rewrite forallb_forall in Hall. specialize (Hall e He).
  rewrite forallb_forall in Hall. specialize (Hall c Hc).
  unfold aggregate_ok in Hall.
  destruct (aggregate_code_score f e c) as [x|ex]; [|discriminate].
  apply andb_prop in Hall. destruct Hall as [Heq Hrange].
  apply num_eqb_eq in Heq. subst x. split; [reflexivity | exact Hrange].
Qed.

Lemma flake8_score_reachable (ws : workspace) (p : proc) :
  In (Lint.score (run_flake8_analysis ws p)) flake8_scores.
Proof.
  destruct (run_flake8_analysis_score ws p) as [H | H].
  - left. symmetry. exact H.
  - right. apply span_In. simpl. lia.
Qed.

Lemma eslint_score_reachable (jl : string -> result json)
  (ws : workspace) (p : proc) :
  In (Lint.score (run_eslint_analysis jl ws p)) eslint_scores.
Proof.
  destruct (run_eslint_analysis_score jl ws p) as [H | H].
  - left. symmetry. exact H.
  - right. apply span_In. simpl. lia.
Qed.

(** On what the analyzers return, [_calculate_aggregate_scores] does not
    raise, and the aggregate is the one below. *)
Lemma aggregate_of_analyzers (e : env) (a : analysis_results) :
  let ws := checkout e in
  let f := run_flake8_analysis ws (flake8_run e) in
  let x := run_radon_analysis (json_loads e) ws (radon_run e) in
  let l := run_eslint_analysis (json_loads e) ws (eslint_run e) in
  _calculate_aggregate_scores (run_analyzers e a)
  = Ret (set_aggregate
           {| code_quality_score :=
                expected_code_score (Lint.score f) (Lint.score l)
                  (Radon.complexity_score x);
              documentation_score := Doc.score (analyze_documentation ws);
              security_score := Sec.score (analyze_security ws);
              dependency_score := Deps.score (analyze_dependencies ws) |}
           (run_analyzers e a)).
Proof.
  intros ws f x l.
  unfold _calculate_aggregate_scores.
  change (get_score Lint.score (flake8 (code_quality (run_analyzers e a))))
    with (Lint.score f).
  change (get_score Lint.score (eslint (code_quality (run_analyzers e a))))
    with (Lint.score l).
  change (get_score Radon.complexity_score (complexity (run_analyzers e a)))
    with (Radon.complexity_score x).
  destruct (aggregate_code_score_reachable (Lint.score f) (Lint.score l)
              (Radon.complexity_score x)) as [Hagg _].
  - apply flake8_score_reachable.
  - apply eslint_score_reachable.
  - apply run_radon_analysis_score.
  - rewrite Hagg. reflexivity.
Qed.

End Aggregate.

(** ** clone_repository and run_analysis *)

Section Orchestrator.

Lemma on_disk_log (ev : event) (w : world) (p : string) :
  on_disk (log ev w) p = on_disk w p.
Proof. reflexivity. Qed.

Lemma on_disk_create (w : world) (p : string) :
  on_disk (create_dir p w) p = true.
Proof. unfold on_disk. simpl. rewrite String.eqb_refl. reflexivity. Qed.

Lemma on_disk_remove (w : world) (p : string) :
  on_disk (remove_dir p w) p = false.
Proof.
  unfold on_disk, remove_dir. simpl.
  induction (disk w) as [|q l IH]; simpl; [reflexivity|].
  destruct (String.eqb p q) eqn:Hpq; simpl; [exact IH|].
  rewrite Hpq. exact IH.
Qed.

Lemma releases_app (p : string) (t u : list event) :
  releases p (t ++ u) = (releases p t + releases p u)%nat.
Proof.
  induction t as [|ev t IH]; simpl; [reflexivity|].
  destruct ev; rewrite IH; try reflexivity.
  destruct (String.eqb p temp_dir); reflexivity.
Qed.


Lemma clone_repository_acquires (e : env) (self : analyzer) (st : state)
  (d : string) :
  acquires e self d ->
  clone_repository e self st
  = ({| results := results st; outside := cloned d (outside st) |}, Some d).
Proof.
  intros (Hmk & _ & Hclone).
  unfold clone_repository, clone_body. rewrite Hmk.
  destruct (checked (git_clone e)); [reflexivity | discriminate].
Qed.

Lemma clone_repository_fails (e : env) (self : analyzer) (st : state)
  (d : string) :
  clone_fails e self d ->
  exists msg,
    clone_repository e self st
    = ({| results := append_error msg (results st);
          outside := cloned d (outside st) |}, None).
Proof.
  intros (Hmk & Hclone).
  unfold clone_repository, clone_body. rewrite Hmk.
  destruct (checked (git_clone e)) as [c|ex]; [discriminate|].
  destruct ex; eexists; reflexivity.
Qed.

(** A run whose clone failed: the error is recorded, no analyzer runs,
    and the directory [mkdtemp] made is still there, never passed to
    [rmtree]. *)
Lemma run_analysis_clone_fails (e : env) (self : analyzer) (st : state)
  (d : string) :
  clone_fails e self d ->
  let st' := run_analysis e self st in
  (exists msg, results st' = append_error msg (results st))
  /\ outside st' = cloned d (outside st)
  /\ on_disk (outside st') d = true.
Proof.
  intros Hfail.
  destruct (clone_repository_fails e self st d Hfail) as (msg & Hclone).
  unfold run_analysis. rewrite Hclone. simpl.
  split; [exists msg; reflexivity|]. split; [reflexivity|].
  unfold cloned. rewrite !on_disk_log. apply on_disk_create.
Qed.


(** A run whose clone succeeded: every analyzer ran, the aggregate was
    computed, and [rmtree] was called once on the directory. *)
Lemma run_analysis_acquires (e : env) (self : analyzer) (st : state)
  (d : string) :
  acquires e self d ->
  run_analysis e self st
  = match rmtree e with
    | Ret _ =>
        {| results := analyzed e (results st);
           outside := remove_dir d (log (Rmtree d) (cloned d (outside st))) |}
    | Raise ex =>
        {| results :=
             append_warning ("Failed to cleanup " ++ d ++ ": " ++ str_of_exn ex)
               (analyzed e (results st));
           outside := log (Rmtree d) (cloned d (outside st)) |}
    end.
Proof.
  intros Hacq. pose proof Hacq as (_ & Hne & _).
  unfold run_analysis. rewrite (clone_repository_acquires e self st d Hacq).
  unfold falsy. rewrite Hne.
  cbn [results outside].
  rewrite (aggregate_of_analyzers e (results st)).
  unfold cleanup. cbn [results outside]. rewrite Hne.
  replace (on_disk (cloned d (outside st)) d) with true
    by (unfold cloned; rewrite !on_disk_log, on_disk_create; reflexivity).
  cbn [negb andb]. reflexivity.
Qed.

(** The directory of a run whose clone succeeded is removed, by the one
    call of [rmtree], when that call does not fail. *)
Lemma run_analysis_releases (e : env) (self : analyzer) (st : state)
  (d : string) :
  acquires e self d -> rmtree e = Ret tt ->
  let st' := run_analysis e self st in
  on_disk (outside st') d = false
  /\ trace (outside st')
     = (trace (outside st) ++ [Mkdtemp d; GitClone d; Rmtree d])%list.
Proof.
  intros Hacq Hrm.
  rewrite (run_analysis_acquires e self st d Hacq), Hrm.
  cbn [outside]. split; [apply on_disk_remove|].
  simpl. rewrite <- !app_assoc. reflexivity.
Qed.

Lemma results_of_run (e : env) (self : analyzer) (st : state) (d : string) :
  acquires e self d ->
  exists warned : list string,
    results (run_analysis e self st)
    = {| repository := repository (analyzed e (results st));
         timestamp := timestamp (analyzed e (results st));
         code_quality := code_quality (analyzed e (results st));
         documentation := documentation (analyzed e (results st));
         security := security (analyzed e (results st));
         dependencies := dependencies (analyzed e (results st));
         complexity := complexity (analyzed e (results st));
         errors := errors (results st);
         warnings := warned;
         aggregate := aggregate (analyzed e (results st)) |}.
Proof.
  intros Hacq. rewrite (run_analysis_acquires e self st d Hacq).
  destruct (rmtree e); eexists; reflexivity.
Qed.

End Orchestrator.

(** * The claims *)

(** C1 (the script leaks the directory).  When [git clone] fails after
    [mkdtemp] has created the temporary directory, [run_analysis]
    returns with the directory still on disk: [clone_repository] gives
    back [None], so the [finally] block has no path to remove and
    [rmtree] is never called. *)
Theorem failed_clone_leaves_directory :
  let st := run_analysis (sample_env failed_clone [] (exited 0 "" ""))
              sample_analyzer fresh_state in
  clone_fails (sample_env failed_clone [] (exited 0 "" ""))
    sample_analyzer sample_dir
  /\ on_disk (outside st) sample_dir = true
  /\ trace (outside st) = [Mkdtemp sample_dir; GitClone sample_dir]
  /\ releases sample_dir (trace (outside st)) = 0%nat
  /\ errors (results st)
     = ["Failed to clone repository: Command returned non-zero exit status"].
Proof. repeat split; reflexivity. Qed.

(** C2 (the security score is not capped).  Four workflow files that
    each name dependabot and CodeQL give [analyze_security] the score
    120, and the report carries 120 as its security score. *)
Theorem security_score_exceeds_100 :
  let e := sample_env (exited 0 "" "") four_workflows (exited 0 "" "") in
  Sec.score (analyze_security four_workflows) = 120
  /\ option_map security_score
       (aggregate (results (run_analysis e sample_analyzer fresh_state)))
     = Some 120.
Proof. split; vm_compute; reflexivity. Qed.

(** ** The code quality score *)

Section Code_quality.

Variable jl : string -> result json.

Lemma weights_zero_iff (f e c : Z) :
  0 <= f -> 0 <= e -> 0 <= c ->
  weights f e c
  = (if f =? 0 then Int 0 else Float lit_0_4,
     if e =? 0 then Int 0 else Float lit_0_4,
     if c =? 0 then Int 0 else Float lit_0_2).
Proof.
  intros Hf He Hc. unfold weights.
  destruct (Z.gtb_spec f 0), (Z.eqb_spec f 0); try lia;
    destruct (Z.gtb_spec e 0), (Z.eqb_spec e 0); try lia;
    destruct (Z.gtb_spec c 0), (Z.eqb_spec c 0); try lia; reflexivity.
Qed.

Lemma in_scores_nonneg (z : Z) (l : list Z) :
  forallb (fun s => 0 <=? s) l = true -> In z l -> 0 <= z.
Proof.
  intros Hall Hin. rewrite forallb_forall in Hall.
  apply Z.leb_le. apply Hall. exact Hin.
Qed.

(** ESLint without JS/TS files, or raising once it runs, scores 0. *)
Lemma run_eslint_analysis_zero (ws : workspace) (p : proc) :
  (rglob ws ".js" ++ rglob ws ".ts" ++ rglob ws ".jsx" ++ rglob ws ".tsx"
   = [])%list
  \/ (exists ex, p = Raise ex) ->
  Lint.score (run_eslint_analysis jl ws p) = 0
  \/ Lint.score (run_eslint_analysis jl ws p) = 40.
Proof.
  unfold run_eslint_analysis, eslint_body.
  intros [Hnone | [ex Hp]].
  - rewrite Hnone. left. reflexivity.
  - destruct (_ ++ _)%list; [left; reflexivity|].
    cbn [St.bind St.lift].
    destruct (any_exists ws _) as [[|]|e]; cbn [negb];
      [|right; reflexivity|destruct e; left; reflexivity].
    subst p. cbn [St.bind St.lift]. destruct ex; left; reflexivity.
Qed.

(** The three outcomes of ESLint that are no result and yet score:
    no configuration (40), a report that [json.loads] rejects (30) and
    an exit status other than 0 and 1 (20). *)
Lemma run_eslint_analysis_partial (ws : workspace) (p : proc) :
  no_js_ts_files ws = false ->
  (any_exists ws (map (fun config => [config]) eslint_config_names)
   = Ret false ->
   run_eslint_analysis jl ws p
   = Lint.set_score 40
       (Lint.set_detail "message" (JStr "No ESLint configuration found")
          Lint.init))
  /\ (forall c m,
        runs_eslint ws = true -> p = Ret c ->
        (returncode c =? 0) || (returncode c =? 1) = true ->
        Text.is_empty (stdout c) = false ->
        jl (stdout c) = Raise (JSONDecodeError m) ->
        run_eslint_analysis jl ws p
        = Lint.set_score 30
            (Lint.set_detail "error" (JStr "Failed to parse ESLint output")
               Lint.init))
  /\ (forall c,
        runs_eslint ws = true -> p = Ret c ->
        (returncode c =? 0) || (returncode c =? 1) = false ->
        run_eslint_analysis jl ws p
        = Lint.set_score 20
            (Lint.set_detail "error" (JStr "ESLint execution failed")
               Lint.init)).
Proof.
  intros Hsrc. unfold runs_eslint. rewrite Hsrc. cbn [negb andb].
  unfold run_eslint_analysis, eslint_body, no_js_ts_files in *.
  destruct (_ ++ _)%list; [discriminate|].
  fold eslint_config_names. cbn [St.bind St.lift].
  split; [|split].
  - intros Hcfg. rewrite Hcfg. reflexivity.
  - intros c m Hcfg Hp Hrc Hout Hjl.
    destruct (any_exists ws _) as [[|]|e]; try discriminate.
    subst p. cbn [negb St.bind St.lift]. rewrite Hrc.
    unfold St.except_json, eslint_parse. rewrite Hout, Hjl. reflexivity.
  - intros c Hcfg Hp Hrc.
    destruct (any_exists ws _) as [[|]|e]; try discriminate.
    subst p. cbn [negb St.bind St.lift]. rewrite Hrc. reflexivity.
Qed.

(** radon without Python files, raising, exiting with a status other
    than 0, or printing what [json.loads] rejects, scores 0. *)
Lemma run_radon_analysis_zero (ws : workspace) (p : proc) :
  rglob ws ".py" = [] \/ (exists ex, p = Raise ex)
  \/ (exists c, p = Ret c /\ returncode c <> 0)
  \/ (exists c ex, p = Ret c /\ jl (stdout c) = Raise ex) ->
  Radon.complexity_score (run_radon_analysis jl ws p) = 0.
Proof.
  unfold run_radon_analysis, radon_body.
  intros [Hnone | [[ex Hp] | [(c & Hp & Hrc) | (c & ex & Hp & Hjl)]]].
  - rewrite Hnone. reflexivity.
  - destruct (rglob ws ".py"); [reflexivity|].
    subst p. cbn [St.bind St.lift]. destruct ex; reflexivity.
  - destruct (rglob ws ".py"); [reflexivity|].
    subst p. cbn [St.bind St.lift].
    apply Z.eqb_neq in Hrc. rewrite Hrc. reflexivity.
  - destruct (rglob ws ".py"); [reflexivity|].
    subst p. cbn [St.bind St.lift].
    destruct (returncode c =? 0); [|reflexivity].
    unfold St.except_json, radon_parse. cbn [St.bind St.lift].
    rewrite Hjl. destruct ex; reflexivity.
Qed.

End Code_quality.

(** C3 (an analyzer that failed keeps its weight).  ESLint exits with
    status 2 on a checkout without Python files: flake8 and ESLint both
    say in [details] that they have no result and radon returns its
    initial dictionary, so no analysis succeeded; yet ESLint keeps the
    weight 0.4 and the code quality score is its error score 20, not
    the default 50 that line 577 gives "if no analyses succeeded". *)
Lemma eslint_error_keeps_its_weight :
  let e := sample_env (exited 0 "" "") js_checkout (exited 2 "" "") in
  let f := run_flake8_analysis js_checkout (flake8_run e) in
  let l := run_eslint_analysis not_json js_checkout (eslint_run e) in
  let x := run_radon_analysis not_json js_checkout (radon_run e) in
  without_signal (Lint.details f) = true
  /\ x = Radon.init
  /\ dict_get "error" (Lint.details l) = Some (JStr "ESLint execution failed")
  /\ without_signal (Lint.details l) = true
  /\ weights (Lint.score f) (Lint.score l) (Radon.complexity_score x)
     = (Int 0, Float lit_0_4, Int 0)
  /\ option_map code_quality_score
       (aggregate (results (run_analysis e sample_analyzer fresh_state)))
     = Some (Float (nearest_of_Z 20))
  /\ Float (nearest_of_Z 20) <> Int 50.
Proof. repeat split; try (vm_compute; reflexivity). discriminate. Qed.

(** What [_calculate_aggregate_scores] computes on every outcome of
    the three tools: the code quality score is computed without an
    exception, lies in [0, 100], and is the weighted mean of the three
    scores with weights 0.4, 0.4 and 0.2, rounded to two decimals, in
    which a score of 0 has weight zero; when the three scores are 0 it
    is 50.  A score of 0 is what flake8 returns without Python files or
    when its run raises, what radon returns without Python files, when
    its run raises or exits with another status than 0 or prints no
    JSON, and what ESLint returns without JS/TS files or when its run
    raises.  The other outcomes of ESLint that are no result score 40
    (no configuration), 30 (a report that is no JSON) and 20 (another
    exit status than 0 and 1), and keep the weight 0.4. *)
Theorem code_quality_score_is_weighted_mean
  (jl : string -> result json) (ws : workspace) (pf pr pe : proc) :
  let f := Lint.score (run_flake8_analysis ws pf) in
  let l := Lint.score (run_eslint_analysis jl ws pe) in
  let c := Radon.complexity_score (run_radon_analysis jl ws pr) in
  weights f l c
  = (if f =? 0 then Int 0 else Float lit_0_4,
     if l =? 0 then Int 0 else Float lit_0_4,
     if c =? 0 then Int 0 else Float lit_0_2)
  /\ aggregate_code_score f l c = Ret (expected_code_score f l c)
  /\ in_0_100 (expected_code_score f l c) = true
  /\ (f = 0 -> l = 0 -> c = 0 -> aggregate_code_score f l c = Ret (Int 50))
  /\ (rglob ws ".py" = [] \/ (exists ex, pf = Raise ex) -> f = 0)
  /\ (rglob ws ".py" = [] \/ (exists ex, pr = Raise ex)
      \/ (exists p, pr = Ret p /\ returncode p <> 0)
      \/ (exists p ex, pr = Ret p /\ jl (stdout p) = Raise ex) -> c = 0)
  /\ ((rglob ws ".js" ++ rglob ws ".ts" ++ rglob ws ".jsx"
         ++ rglob ws ".tsx" = [])%list -> l = 0)
  /\ (forall ex, pe = Raise ex -> l = 0 \/ l = 40)
  /\ (no_js_ts_files ws = false ->
      any_exists ws (map (fun config => [config]) eslint_config_names)
      = Ret false -> l = 40)
  /\ (forall p m,
        runs_eslint ws = true -> pe = Ret p ->
        (returncode p =? 0) || (returncode p =? 1) = true ->
        Text.is_empty (stdout p) = false ->
        jl (stdout p) = Raise (JSONDecodeError m) -> l = 30)
  /\ (forall p,
        runs_eslint ws = true -> pe = Ret p ->
        (returncode p =? 0) || (returncode p =? 1) = false -> l = 20)
  /\ (0 < l -> snd (fst (weights f l c)) = Float lit_0_4).
Proof.
  intros f l c.
  pose proof (flake8_score_reachable ws pf) as Hf.
  pose proof (eslint_score_reachable jl ws pe) as Hl.
  pose proof (run_radon_analysis_score jl ws pr) as Hc.
  fold f in Hf. fold l in Hl. fold c in Hc.
  destruct (aggregate_code_score_reachable f l c Hf Hl Hc) as [Hagg Hrange].
  split.
  { apply weights_zero_iff.
    - apply (in_scores_nonneg f flake8_scores); [reflexivity | exact Hf].
    - apply (in_scores_nonneg l eslint_scores); [reflexivity | exact Hl].
    - apply (in_scores_nonneg c complexity_scores); [reflexivity | exact Hc]. }
  split; [exact Hagg|]. split; [exact Hrange|]. split.
  { intros Hf0 Hl0 Hc0. rewrite Hagg, Hf0, Hl0, Hc0. reflexivity. }
  split.
  { intros H. apply run_flake8_analysis_zero. exact H. }
  split.
  { intros H. apply run_radon_analysis_zero. exact H. }
  split.
  { intros H. unfold l, run_eslint_analysis, eslint_body. rewrite H.
    reflexivity. }
  split.
  { intros ex Hpe. apply run_eslint_analysis_zero. right. exists ex.
    exact Hpe. }
  assert (Hpartial : forall r, run_eslint_analysis jl ws pe = r ->
                               l = Lint.score r)
    by (intros r Hr; unfold l; rewrite Hr; reflexivity).
  split.
  { intros Hsrc Hcfg.
    destruct (run_eslint_analysis_partial jl ws pe Hsrc) as (H40 & _).
    apply (Hpartial _ (H40 Hcfg)). }
  split.
  { intros p m Hruns Hpe Hrc Hout Hjl.
    assert (Hsrc : no_js_ts_files ws = false).
    { unfold runs_eslint in Hruns. destruct (no_js_ts_files ws);
        [discriminate | reflexivity]. }
    destruct (run_eslint_analysis_partial jl ws pe Hsrc) as (_ & H30 & _).
    apply (Hpartial _ (H30 p m Hruns Hpe Hrc Hout Hjl)). }
  split.
  { intros p Hruns Hpe Hrc.
    assert (Hsrc : no_js_ts_files ws = false).
    { unfold runs_eslint in Hruns. destruct (no_js_ts_files ws);
        [discriminate | reflexivity]. }
    destruct (run_eslint_analysis_partial jl ws pe Hsrc) as (_ & _ & H20).
    apply (Hpartial _ (H20 p Hruns Hpe Hrc)). }
  intros Hpos. unfold weights. cbn [fst snd].
  destruct (Z.gtb_spec l 0); [reflexivity | lia].
Qed.

(** ** Failures stay inside the analyzers *)

Section Isolation.

Lemma dict_get_set (k : string) (v : json) (d : dict) :
  dict_get k (dict_set k v d) = Some v.
Proof.
  induction d as [|[k' v'] d IH]; simpl.
  - rewrite String.eqb_refl. reflexivity.
  - destruct (String.eqb k k') eqn:Hk; simpl.
    + rewrite String.eqb_refl. reflexivity.
    + rewrite Hk. exact IH.
Qed.

(** An exception of the [try] block of a lint analyzer ends in
    [details], with the score 0. *)
Lemma lint_handler_records (r : Lint.results) (ex : exn) :
  let r' :=
    match ex with
    | TimeoutExpired _ =>
        Lint.set_score 0 (Lint.set_detail "timeout" (JBool true) r)
    | _ => Lint.set_score 0 (Lint.set_detail "error" (JStr (str_of_exn ex)) r)
    end in
  records (Lint.details r') ex /\ Lint.score r' = 0.
Proof. destruct ex; simpl; split; try reflexivity; apply dict_get_set. Qed.

Lemma run_flake8_analysis_records (ws : workspace) (p : proc)
  (r : Lint.results) (ex : exn) :
  flake8_body ws p Lint.init = (r, Raise ex) ->
  records (Lint.details (run_flake8_analysis ws p)) ex
  /\ Lint.score (run_flake8_analysis ws p) = 0.
Proof.
  intros H. unfold run_flake8_analysis. rewrite H.
  pose proof (lint_handler_records r ex) as Hrec.
  destruct ex; exact Hrec.
Qed.

Lemma run_eslint_analysis_records (jl : string -> result json)
  (ws : workspace) (p : proc) (r : Lint.results) (ex : exn) :
  eslint_body jl ws p Lint.init = (r, Raise ex) ->
  records (Lint.details (run_eslint_analysis jl ws p)) ex
  /\ Lint.score (run_eslint_analysis jl ws p) = 0.
Proof.
  intros H. unfold run_eslint_analysis. rewrite H.
  pose proof (lint_handler_records r ex) as Hrec.
  destruct ex; exact Hrec.
Qed.

Lemma run_radon_analysis_records (jl : string -> result json)
  (ws : workspace) (p : proc) (r : Radon.results) (ex : exn) :
  radon_body jl ws p Radon.init = (r, Raise ex) ->
  records (Radon.details (run_radon_analysis jl ws p)) ex.
Proof.
  intros H. unfold run_radon_analysis. rewrite H.
  destruct ex; simpl; apply dict_get_set.
Qed.

Lemma analyze_documentation_records (ws : workspace) (r : Doc.results)
  (ex : exn) :
  documentation_body ws Doc.init = (r, Raise ex) ->
  dict_get "error" (Doc.details (analyze_documentation ws))
  = Some (JStr (str_of_exn ex))
  /\ Doc.score (analyze_documentation ws) = Int 10.
Proof.
  intros H. unfold analyze_documentation. rewrite H. simpl.
  split; [apply dict_get_set | reflexivity].
Qed.

(** An exception of the [try] block of [analyze_dependencies] ends in
    [details], with the score 0; one of [analyze_security], with the
    score 10. *)
Lemma analyze_dependencies_records (ws : workspace) (r : Deps.results)
  (ex : exn) :
  dependencies_body ws Deps.init = (r, Raise ex) ->
  dict_get "error" (Deps.details (analyze_dependencies ws))
  = Some (JStr (str_of_exn ex))
  /\ Deps.score (analyze_dependencies ws) = 0.
Proof.
  intros H. unfold analyze_dependencies. rewrite H. simpl.
  split; [apply dict_get_set | reflexivity].
Qed.

Lemma analyze_security_records (ws : workspace) (r : Sec.results)
  (ex : exn) :
  security_body ws Sec.init = (r, Raise ex) ->
  dict_get "error" (Sec.details (analyze_security ws))
  = Some (JStr (str_of_exn ex))
  /\ Sec.score (analyze_security ws) = 10.
Proof.
  intros H. unfold analyze_security. rewrite H. simpl.
  split; [apply dict_get_set | reflexivity].
Qed.

End Isolation.

(** C4.  Every analyzer returns its dictionary whatever happens inside
    it: an exception of its [try] block, a timeout included, is written
    to [details], and the lint, documentation, dependency and security
    analyzers also set their failure score (0, 10, 0 and 10).  So once
    the clone has succeeded the report holds the result of each of the
    six analyzers, computed from the checkout and its own tool alone,
    and the aggregate; no error is added to the report. *)
Theorem analyzers_are_isolated (e : env) (self : analyzer) (st : state)
  (d : string) :
  acquires e self d ->
  let ws := checkout e in
  let rep := results (run_analysis e self st) in
  (flake8 (code_quality rep) = Some (run_flake8_analysis ws (flake8_run e))
   /\ complexity rep
      = Some (run_radon_analysis (json_loads e) ws (radon_run e))
   /\ eslint (code_quality rep)
      = Some (run_eslint_analysis (json_loads e) ws (eslint_run e))
   /\ documentation rep = Some (analyze_documentation ws)
   /\ dependencies rep = Some (analyze_dependencies ws)
   /\ security rep = Some (analyze_security ws)
   /\ (exists agg, aggregate rep = Some agg)
   /\ errors rep = errors (results st))
  /\ (forall r ex,
        flake8_body ws (flake8_run e) Lint.init = (r, Raise ex) ->
        records (Lint.details (run_flake8_analysis ws (flake8_run e))) ex
        /\ Lint.score (run_flake8_analysis ws (flake8_run e)) = 0)
  /\ (forall r ex,
        radon_body (json_loads e) ws (radon_run e) Radon.init = (r, Raise ex) ->
        records
          (Radon.details (run_radon_analysis (json_loads e) ws (radon_run e)))
          ex)
  /\ (forall r ex,
        eslint_body (json_loads e) ws (eslint_run e) Lint.init = (r, Raise ex) ->
        records
          (Lint.details (run_eslint_analysis (json_loads e) ws (eslint_run e)))
          ex
        /\ Lint.score (run_eslint_analysis (json_loads e) ws (eslint_run e)) = 0)
  /\ (forall r ex,
        documentation_body ws Doc.init = (r, Raise ex) ->
        dict_get "error" (Doc.details (analyze_documentation ws))
        = Some (JStr (str_of_exn ex))
        /\ Doc.score (analyze_documentation ws) = Int 10)
  /\ (forall r ex,
        dependencies_body ws Deps.init = (r, Raise ex) ->
        dict_get "error" (Deps.details (analyze_dependencies ws))
        = Some (JStr (str_of_exn ex))
        /\ Deps.score (analyze_dependencies ws) = 0)
  /\ (forall r ex,
        security_body ws Sec.init = (r, Raise ex) ->
        dict_get "error" (Sec.details (analyze_security ws))
        = Some (JStr (str_of_exn ex))
        /\ Sec.score (analyze_security ws) = 10).
Proof.
  intros Hacq ws rep.
  destruct (results_of_run e self st d Hacq) as (warned & Hrep).
  fold rep in Hrep.
  split.
  { rewrite Hrep. cbn.
    repeat split; try reflexivity. eexists; reflexivity. }
  split; [intros r ex; apply run_flake8_analysis_records|].
  split; [intros r ex; apply run_radon_analysis_records|].
  split; [intros r ex; apply run_eslint_analysis_records|].
  split; [intros r ex; apply analyze_documentation_records|].
  split; [intros r ex; apply analyze_dependencies_records|].
  intros r ex; apply analyze_security_records.
Qed.

Lemma analyzers_are_isolated_witness :
  let e := sample_env (exited 0 "" "") locked_checkout
             (Raise (TimeoutExpired "timed out after 120 seconds")) in
  let rep := results (run_analysis e sample_analyzer fresh_state) in
  acquires e sample_analyzer sample_dir
  /\ eslint (code_quality rep)
     = Some (Lint.set_score 0
               (Lint.set_detail "timeout" (JBool true) Lint.init))
  /\ dependencies rep = Some (analyze_dependencies locked_checkout)
  /\ security rep = Some (analyze_security locked_checkout)
  /\ (dict_get "error" (Deps.details (analyze_dependencies locked_checkout))
      = Some (JStr "[Errno 13] Permission denied")
      /\ Deps.score (analyze_dependencies locked_checkout) = 0)
  /\ (dict_get "error" (Sec.details (analyze_security locked_checkout))
      = Some (JStr "[Errno 13] Permission denied")
      /\ Sec.score (analyze_security locked_checkout) = 10)
  /\ (exists agg, aggregate rep = Some agg)
  /\ errors rep = [].
Proof.
  assert (Hacq : acquires
            (sample_env (exited 0 "" "") locked_checkout
               (Raise (TimeoutExpired "timed out after 120 seconds")))
            sample_analyzer sample_dir)
    by (repeat split; reflexivity).
  pose proof (analyzers_are_isolated _ _ fresh_state _ Hacq) as H.
  cbv zeta in H.
  destruct H as [(_ & _ & Hl & _ & Hd & Hs & Hagg & He)
                   (_ & _ & _ & _ & Hdeps & Hsec)].
  split; [exact Hacq|]. split; [exact Hl|]. split; [exact Hd|].
  split; [exact Hs|].
  split; [exact (Hdeps _ _ eq_refl)|].
  split; [exact (Hsec _ _ eq_refl)|].
  split; [exact Hagg | exact He].
Defined.

(** ** main *)

Section Main.

Lemma new_analyzer_returns (e : env) (url : string) :
  returns (new_analyzer e url) = returns (urlparse e url).
Proof.
  unfold new_analyzer, _get_repo_name_from_url.
  destruct (urlparse e url) as [[netloc path]|ex]; [|reflexivity].
  cbn [bind]. destruct (Text.contains "github.com" netloc); [|reflexivity].
  destruct (rev _) as [|last [|before_last rest]]; reflexivity.
Qed.

Lemma main_exit_cases (e : env) (url : string) (w : world) :
  (valid_url url && returns (urlparse e url) = false
   /\ snd (main e url w) = {| exit_code := 1; report := None |})
  \/ (valid_url url && returns (urlparse e url) = true
      /\ exists self,
           new_analyzer e url = Ret (self, initial_results url (now e))
           /\ snd (main e url w)
              = {| exit_code := 0;
                   report :=
                     Some (results
                             (run_analysis e self
                                {| results := initial_results url (now e);
                                   outside := w |})) |}).
Proof.
  unfold main. rewrite <- new_analyzer_returns.
  destruct (valid_url url); [|left; split; reflexivity].
  destruct (new_analyzer e url) as [[self a]|ex] eqn:Hnew.
  - right. split; [reflexivity|].
    assert (Ha : a = initial_results url (now e)).
    { unfold new_analyzer in Hnew.
      destruct (_get_repo_name_from_url e url); [|discriminate].
      cbn [bind] in Hnew. congruence. }
    subst a. exists self. split; reflexivity.
  - left. split; reflexivity.
Qed.

End Main.

(** C5, the claim as stated fails: the clone of a valid URL fails, the
    process still ends with status 0. *)
Lemma failed_clone_exits_with_0 :
  let e := sample_env failed_clone [] (exited 0 "" "") in
  valid_url sample_url = true
  /\ new_analyzer e sample_url
     = Ret (sample_analyzer, initial_results sample_url 1700000000)
  /\ clone_fails e sample_analyzer sample_dir
  /\ exit_code (snd (main e sample_url no_world)) = 0.
Proof. repeat split; reflexivity. Qed.

(** C5, amended.  The process ends with status 1 exactly when the URL is
    turned down before any clone: it neither contains [github.com] nor
    starts with [https://], or [urlparse] raises on it.  In every other
    case it ends with status 0 and writes a report; when the clone then
    fails, the report carries that one more error and the result of no
    analyzer. *)
Theorem main_exit_status (e : env) (url : string) (w : world) :
  let o := snd (main e url w) in
  (exit_code o = 1
   <-> valid_url url = false \/ returns (urlparse e url) = false)
  /\ (exit_code o = 0
      <-> valid_url url = true /\ returns (urlparse e url) = true)
  /\ (exit_code o = 0 -> exists rep, report o = Some rep)
  /\ (exit_code o = 1 -> report o = None)
  /\ (forall self a d,
        valid_url url = true ->
        new_analyzer e url = Ret (self, a) ->
        clone_fails e self d ->
        exit_code o = 0
        /\ exists msg,
             report o
             = Some (append_error msg (initial_results url (now e)))).
Proof.
  intros o. subst o.
  destruct (main_exit_cases e url w) as [[Hbad Hmain] | [Hok Hmain]].
  - rewrite Hmain. cbn [exit_code report].
    apply andb_false_iff in Hbad.
    split; [split; [intros _; exact Hbad | reflexivity]|].
    split.
    { split; [discriminate|]. intros [Hv Hu]. destruct Hbad; congruence. }
    split; [discriminate|]. split; [reflexivity|].
    intros self a d Hv Hnew Hfail. exfalso.
    rewrite <- new_analyzer_returns, Hnew in Hbad.
    destruct Hbad; [congruence | discriminate].
  - destruct Hmain as (self & Hnew & Hmain). rewrite Hmain.
    cbn [exit_code report].
    apply andb_true_iff in Hok. destruct Hok as [Hv Hu].
    split.
    { split; [discriminate|]. intros [H | H]; congruence. }
    split; [split; [intros _; split; assumption | reflexivity]|].
    split; [intros _; eexists; reflexivity|].
    split; [discriminate|].
    intros self' a' d _ Hnew' Hfail.
    rewrite Hnew in Hnew'. inversion Hnew'; subst self' a'.
    split; [reflexivity|].
    destruct (run_analysis_clone_fails e self
                {| results := initial_results url (now e); outside := w |}
                d Hfail) as ([msg Hres] & _).
    exists msg. rewrite Hres. reflexivity.
Qed.

(** ** The category scores *)

(** C6, the claim as stated fails: on a checkout without README the
    documentation analyzer says so and scores 0, and the report gives 0
    as the documentation score, not the neutral 50. *)
Lemma no_readme_scores_0_not_50 :
  let e := sample_env (exited 0 "" "") bare_checkout (exited 0 "" "") in
  let rep := results (run_analysis e sample_analyzer fresh_state) in
  option_map Doc.details (documentation rep)
  = Some [("message", JStr "No README file found")]
  /\ option_map documentation_score (aggregate rep) = Some (Int 0)
  /\ Int 0 <> Int 50.
Proof. repeat split; try (vm_compute; reflexivity). discriminate. Qed.

(** C6, amended.  Once the clone has succeeded, the documentation,
    dependency and security scores of the aggregate are the scores of
    the three analyzers, as they are, with or without a signal; no
    neutral default is put in their place, and without a README the
    documentation score is 0. *)
Theorem category_scores_are_analyzer_scores (e : env) (self : analyzer)
  (st : state) (d : string) :
  acquires e self d ->
  let ws := checkout e in
  exists agg,
    aggregate (results (run_analysis e self st)) = Some agg
    /\ documentation_score agg = Doc.score (analyze_documentation ws)
    /\ dependency_score agg = Deps.score (analyze_dependencies ws)
    /\ security_score agg = Sec.score (analyze_security ws)
    /\ (find_readme ws readme_files = Ret None ->
        documentation_score agg = Int 0).
Proof.
  intros Hacq ws.
  destruct (results_of_run e self st d Hacq) as (warned & Hrep).
  rewrite Hrep. cbn [aggregate analyzed set_aggregate].
  eexists. split; [reflexivity|].
  cbn [documentation_score dependency_score security_score].
  split; [reflexivity|]. split; [reflexivity|]. split; [reflexivity|].
  intros Hnone. unfold analyze_documentation, documentation_body.
  fold ws. rewrite Hnone. reflexivity.
Qed.

Lemma category_scores_witness :
  let e := sample_env (exited 0 "" "") bare_checkout (exited 0 "" "") in
  acquires e sample_analyzer sample_dir
  /\ exists agg,
       aggregate (results (run_analysis e sample_analyzer fresh_state))
       = Some agg
       /\ documentation_score agg = Doc.score (analyze_documentation bare_checkout)
       /\ dependency_score agg = Deps.score (analyze_dependencies bare_checkout)
       /\ security_score agg = Sec.score (analyze_security bare_checkout)
       /\ (find_readme bare_checkout readme_files = Ret None ->
           documentation_score agg = Int 0).
Proof.
  assert (Hacq : acquires
            (sample_env (exited 0 "" "") bare_checkout (exited 0 "" ""))
            sample_analyzer sample_dir)
    by (repeat split; reflexivity).
  split; [exact Hacq|].
  exact (category_scores_are_analyzer_scores _ _ fresh_state _ Hacq).
Defined.

(** ** Two scenarios *)

Section Scenarios.

Lemma absent_exists (ws : workspace) (p : path) :
  absent ws p = true -> exists_ ws p = Ret false.
Proof.
  unfold absent. destruct (exists_ ws p) as [[|]|e]; try discriminate.
  reflexivity.
Qed.

Lemma find_readme_none (ws : workspace) (candidates : list string) :
  forallb (fun readme_file => absent ws [readme_file]) candidates = true ->
  find_readme ws candidates = Ret None.
Proof.
  induction candidates as [|f rest IH]; simpl; intros H; [reflexivity|].
  apply andb_prop in H. destruct H as [Hf Hrest].
  rewrite (absent_exists _ _ Hf). cbn [bind]. apply IH. exact Hrest.
Qed.

Lemma any_exists_absent (ws : workspace) (l : list path) :
  forallb (absent ws) l = true -> any_exists ws l = Ret false.
Proof.
  induction l as [|p l IH]; simpl; intros H; [reflexivity|].
  apply andb_prop in H. destruct H as [Hp Hrest].
  rewrite (absent_exists _ _ Hp). cbn [bind]. apply IH. exact Hrest.
Qed.

Lemma dependency_loop_absent (ws : workspace)
  (l : list ((bool -> Deps.results -> Deps.results) * path)) :
  forallb (fun entry => absent ws (snd entry)) l = true ->
  forall r,
    St.for_each (dependency_step ws) l r
    = (fold_left (fun r entry => fst entry false r) l r, Ret tt).
Proof.
  induction l as [|[set_key file_path] l IH]; simpl; intros H r; [reflexivity|].
  apply andb_prop in H. destruct H as [Hf Hrest].
  unfold St.bind at 1. unfold dependency_step.
  rewrite (absent_exists _ _ Hf). cbn [St.bind St.lift St.modify St.ret].
  apply IH. exact Hrest.
Qed.

Lemma security_loop_absent (ws : workspace)
  (l : list ((bool -> Sec.results -> Sec.results) * path)) :
  forallb (fun entry => absent ws (snd entry)) l = true ->
  forall r,
    St.for_each (security_step ws) l r
    = (fold_left (fun r entry => fst entry false r) l r, Ret tt).
Proof.
  induction l as [|[set_key file_path] l IH]; simpl; intros H r; [reflexivity|].
  apply andb_prop in H. destruct H as [Hf Hrest].
  unfold St.bind at 1. unfold security_step.
  rewrite (absent_exists _ _ Hf). cbn [St.bind St.lift St.modify St.ret].
  apply IH. exact Hrest.
Qed.

Lemma workflow_fold_silent (l : list (string * node)) :
  forallb names_no_security_tool l = true ->
  forall r, fold_left workflow_step l r = r.
Proof.
  induction l as [|f l IH]; simpl; intros H r; [reflexivity|].
  apply andb_prop in H. destruct H as [Hf Hrest].
  rewrite IH by exact Hrest.
  unfold names_no_security_tool in Hf. unfold workflow_step.
  destruct (read_utf8 (snd f)) as [text|ex]; [|reflexivity].
  cbv zeta in Hf. apply andb_prop in Hf. destruct Hf as [Hd Hc].
  apply negb_true_iff in Hd. apply negb_true_iff in Hc.
  cbv zeta. rewrite Hd, Hc. reflexivity.
Qed.

Lemma analyze_dependencies_absent (ws : workspace) :
  no_dependency_files ws = true ->
  analyze_dependencies ws = Deps.init.
Proof.
  unfold no_dependency_files. intros H.
  apply andb_prop in H. destruct H as [H Hsec].
  apply andb_prop in H. destruct H as [Hfiles Hlock].
  assert (Hbody : dependencies_body ws Deps.init = (Deps.init, Ret tt)).
  { unfold dependencies_body. unfold St.bind at 1.
    rewrite (dependency_loop_absent ws dependency_files Hfiles).
    rewrite (any_exists_absent _ _ Hlock), (any_exists_absent _ _ Hsec).
    reflexivity. }
  unfold analyze_dependencies. rewrite Hbody. reflexivity.
Qed.

Lemma analyze_security_absent (ws : workspace) :
  no_security_files ws = true ->
  analyze_security ws = Sec.set_score 30 Sec.init.
Proof.
  unfold no_security_files. intros H.
  apply andb_prop in H. destruct H as [H Hflows].
  apply andb_prop in H. destruct H as [Hfiles Hdir].
  unfold analyze_security, security_body.
  unfold St.bind at 1.
  rewrite (security_loop_absent ws security_files Hfiles).
  cbn [St.bind St.lift].
  destruct (exists_ ws [".github"; "workflows"]) as [[|]|e];
    [| |discriminate]; cbn [St.bind St.modify St.ret St.get].
  - rewrite (workflow_fold_silent _ Hflows). reflexivity.
  - reflexivity.
Qed.

(** The security score is 0 or at least 15 at every step of the [try]
    block, so [analyze_security] returns 30, the points when there are
    some, or the 10 of its handler. *)
Lemma security_step_score (ws : workspace)
  (entry : (bool -> Sec.results -> Sec.results) * path)
  (r r' : Sec.results) (o : result unit) :
  (forall v r, Sec.score (fst entry v r) = Sec.score r) ->
  security_step ws entry r = (r', o) ->
  Sec.score r = 0 \/ 15 <= Sec.score r ->
  Sec.score r' = 0 \/ 15 <= Sec.score r'.
Proof.
  destruct entry as [set_key file_path]. cbn [fst]. intros Hkeep.
  unfold security_step. cbn [St.bind St.lift St.modify St.ret].
  destruct (exists_ ws file_path) as [[|]|e];
    cbn [St.bind St.lift St.modify St.ret];
    intros H; inversion H; subst; cbn [Sec.score Sec.set_score];
    rewrite ?Hkeep; lia.
Qed.

Lemma security_loop_score (ws : workspace)
  (l : list ((bool -> Sec.results -> Sec.results) * path)) :
  Forall (fun entry => forall v r, Sec.score (fst entry v r) = Sec.score r) l ->
  forall r r' o,
    St.for_each (security_step ws) l r = (r', o) ->
    Sec.score r = 0 \/ 15 <= Sec.score r ->
    Sec.score r' = 0 \/ 15 <= Sec.score r'.
Proof.
  induction 1 as [|entry l Hkeep _ IH]; intros r r' o.
  - cbn. intros H. inversion H. tauto.
  - cbn [St.for_each]. unfold St.bind at 1.
    destruct (security_step ws entry r) as [r1 [u|e]] eqn:Hstep;
      intros H Hr;
      apply (security_step_score _ _ _ _ _ Hkeep Hstep) in Hr.
    + exact (IH _ _ _ H Hr).
    + inversion H. subst. exact Hr.
Qed.

Lemma workflow_fold_score (l : list (string * node)) :
  forall r,
    Sec.score r = 0 \/ 15 <= Sec.score r ->
    Sec.score (fold_left workflow_step l r) = 0
    \/ 15 <= Sec.score (fold_left workflow_step l r).
Proof.
  induction l as [|f l IH]; intros r Hr; [exact Hr|].
  cbn [fold_left]. apply IH. unfold workflow_step.
  destruct (read_utf8 (snd f)) as [text|ex]; [|exact Hr].
  cbv zeta.
  destruct (_ || _); destruct (_ || _);
    cbn [Sec.score Sec.set_score Sec.set_has_dependabot_config
         Sec.set_has_codeql_config]; lia.
Qed.

Lemma security_setters_keep_score :
  Forall (fun entry : (bool -> Sec.results -> Sec.results) * path =>
            forall v r, Sec.score (fst entry v r) = Sec.score r)
         security_files.
Proof. repeat constructor. Qed.

Lemma security_body_score (ws : workspace) (r : Sec.results) (u : unit) :
  security_body ws Sec.init = (r, Ret u) -> 15 <= Sec.score r.
Proof.
  unfold security_body. unfold St.bind at 1.
  destruct (St.for_each (security_step ws) security_files Sec.init)
    as [r0 [u0|e]] eqn:Hloop; [|discriminate].
  apply (security_loop_score ws security_files security_setters_keep_score)
    in Hloop; [|left; reflexivity].
  cbn [St.bind St.lift].
  destruct (exists_ ws [".github"; "workflows"]) as [[|]|e];
    [| |discriminate]; cbn [St.bind St.modify St.ret St.get].
  - pose proof (workflow_fold_score
                  (glob ws [".github"; "workflows"] ".yml"
                   ++ glob ws [".github"; "workflows"] ".yaml") r0 Hloop)
      as Hflow.
    set (r1 := fold_left workflow_step _ r0) in *.
    destruct (Sec.score r1 =? 0) eqn:Hz;
      cbn [St.modify St.ret]; intros H; inversion H; subst;
      cbn [Sec.score Sec.set_score];
      [lia | apply Z.eqb_neq in Hz; lia].
  - destruct (Sec.score r0 =? 0) eqn:Hz;
      cbn [St.modify St.ret]; intros H; inversion H; subst;
      cbn [Sec.score Sec.set_score];
      [lia | apply Z.eqb_neq in Hz; lia].
Qed.

Lemma analyze_security_score (ws : workspace) :
  let s := Sec.score (analyze_security ws) in
  s = 10 \/ 15 <= s.
Proof.
  cbv zeta. unfold analyze_security.
  destruct (security_body ws Sec.init) as [r [u|e]] eqn:Hbody.
  - right. exact (security_body_score ws r u Hbody).
  - left. reflexivity.
Qed.

Lemma analyze_documentation_nonneg (ws : workspace) :
  Num.leb (Int 0) (Doc.score (analyze_documentation ws)) = true.
Proof.
  pose proof (analyze_documentation_in_range ws) as H.
  apply andb_prop in H. apply H.
Qed.

End Scenarios.

(** C7, the claim as stated fails: the baseline 30 that the security
    analyzer gives the bare checkout is not a minimum of the security
    score.  The same checkout with a SECURITY.md scores 20. *)
Lemma baseline_is_not_the_minimum :
  let ws := ((["SECURITY.md"], text_file "Report by mail.") :: bare_checkout) in
  no_security_files bare_checkout = true
  /\ Sec.score (analyze_security bare_checkout) = 30
  /\ Sec.score (analyze_security ws) = 20
  /\ ~ (forall ws',
          Sec.score (analyze_security bare_checkout)
          <= Sec.score (analyze_security ws')).
Proof.
  cbv zeta.
  assert (H20 : Sec.score (analyze_security
                  ((["SECURITY.md"], text_file "Report by mail.")
                     :: bare_checkout)) = 20) by reflexivity.
  assert (H30 : Sec.score (analyze_security bare_checkout) = 30)
    by reflexivity.
  split; [reflexivity|]. split; [exact H30|]. split; [exact H20|].
  intros Hmin.
  specialize (Hmin ((["SECURITY.md"], text_file "Report by mail.")
                      :: bare_checkout)).
  rewrite H20, H30 in Hmin. lia.
Qed.

(** C7, amended.  On a checkout without Python files, without JS/TS
    files, without README, without dependency files and without
    security files, whatever the tools would do: flake8 and ESLint
    report that they found no file and radon returns its initial
    dictionary (no signal, score 0); the documentation score is 0, the
    least score the documentation analyzer ever returns; the dependency
    score is 0; the security score is the baseline 30, which is not its
    minimum: no checkout scores below 10; and the code quality score is
    the neutral default 50. *)
Theorem bare_checkout_scores (e : env) (self : analyzer) (st : state)
  (d : string) :
  acquires e self d ->
  no_python_files (checkout e) = true ->
  no_js_ts_files (checkout e) = true ->
  no_readme (checkout e) = true ->
  no_dependency_files (checkout e) = true ->
  no_security_files (checkout e) = true ->
  let rep := results (run_analysis e self st) in
  flake8 (code_quality rep)
  = Some (Lint.set_detail "message" (JStr "No Python files found") Lint.init)
  /\ eslint (code_quality rep)
     = Some (Lint.set_detail "message" (JStr "No JS/TS files found") Lint.init)
  /\ complexity rep = Some Radon.init
  /\ aggregate rep
     = Some {| code_quality_score := Int 50;
               documentation_score := Int 0;
               security_score := 30;
               dependency_score := 0 |}
  /\ (forall ws, Num.leb (Int 0) (Doc.score (analyze_documentation ws)) = true)
  /\ (forall ws, 10 <= Sec.score (analyze_security ws)).
Proof.
  intros Hacq Hpy Hjs Hreadme Hdeps Hsec rep.
  destruct (results_of_run e self st d Hacq) as (warned & Hrep).
  fold rep in Hrep.
  assert (Hf : run_flake8_analysis (checkout e) (flake8_run e)
               = Lint.set_detail "message" (JStr "No Python files found")
                   Lint.init).
  { unfold run_flake8_analysis, flake8_body.
    unfold no_python_files in Hpy.
    destruct (rglob (checkout e) ".py"); [reflexivity | discriminate]. }
  assert (Hx : run_radon_analysis (json_loads e) (checkout e) (radon_run e)
               = Radon.init).
  { unfold run_radon_analysis, radon_body.
    unfold no_python_files in Hpy.
    destruct (rglob (checkout e) ".py"); [reflexivity | discriminate]. }
  assert (Hl : run_eslint_analysis (json_loads e) (checkout e) (eslint_run e)
               = Lint.set_detail "message" (JStr "No JS/TS files found")
                   Lint.init).
  { unfold run_eslint_analysis, eslint_body.
    unfold no_js_ts_files in Hjs.
    destruct (_ ++ _)%list; [reflexivity | discriminate]. }
  assert (Hdoc : Doc.score (analyze_documentation (checkout e)) = Int 0).
  { unfold analyze_documentation, documentation_body.
    rewrite (find_readme_none _ _ Hreadme). reflexivity. }
  rewrite Hrep. cbn [code_quality complexity aggregate].
  unfold analyzed, run_analyzers.
  rewrite Hf, Hx, Hl, Hdoc, (analyze_dependencies_absent _ Hdeps),
    (analyze_security_absent _ Hsec).
  split; [reflexivity|]. split; [reflexivity|]. split; [reflexivity|].
  split; [reflexivity|]. split; [exact analyze_documentation_nonneg|].
  intros ws. pose proof (analyze_security_score ws) as Hs. cbv zeta in Hs.
  lia.
Qed.

Lemma bare_checkout_witness :
  let e := sample_env (exited 0 "" "") bare_checkout (exited 0 "" "") in
  acquires e sample_analyzer sample_dir
  /\ no_python_files bare_checkout = true
  /\ no_security_files bare_checkout = true
  /\ aggregate (results (run_analysis e sample_analyzer fresh_state))
     = Some {| code_quality_score := Int 50;
               documentation_score := Int 0;
               security_score := 30;
               dependency_score := 0 |}.
Proof.
  assert (Hacq : acquires
            (sample_env (exited 0 "" "") bare_checkout (exited 0 "" ""))
            sample_analyzer sample_dir)
    by (repeat split; reflexivity).
  split; [exact Hacq|]. split; [reflexivity|]. split; [reflexivity|].
  apply (bare_checkout_scores _ _ fresh_state _ Hacq); reflexivity.
Defined.

(** C8.  For a README with at least three of the four canonical
    sections and a fenced code block, with twelve words for each
    sentence: the readability score is 90, the top band,
    and the documentation score is the base 40 plus the bonuses of the
    sections, plus 15 for the code example, plus the readability
    adjustment (90 - 50) / 2, capped at 100; with these bonuses the cap
    applies and the score is 100. *)
Theorem documented_readme_scores (ws : workspace) (readme_content : string) :
  find_readme ws readme_files = Ret (Some readme_content) ->
  3 <= section_count (find_sections (Text.lower readme_content)) ->
  1 <= Text.count_fenced 0 false readme_content ->
  Text.count_words readme_content
  = 12 * Z.max 1 (Text.count_sentences readme_content) ->
  let r := analyze_documentation ws in
  let s := find_sections (Text.lower readme_content) in
  Doc.readability_score r = 90
  /\ (forall avg, readability_band avg <= 90)
  /\ Doc.score r = Int (Z.min 100 (40 + section_bonus s + 15 + (90 - 50) / 2))
  /\ Doc.score r = Int 100.
Proof.
  intros Hfind Hsections Hcode Hwords r s. subst r.
  assert (Havg : avg_sentence_length readme_content
                 = Ret (Float (nearest_of_Z 12))).
  { unfold avg_sentence_length. rewrite Hwords. apply truediv_twelve. lia. }
  assert (Hne : Text.is_empty readme_content = false).
  { destruct readme_content; [|reflexivity].
    vm_compute in Hsections. exfalso. apply Hsections. reflexivity. }
  assert (Hc : (Text.count_fenced 0 false readme_content >? 0) = true)
    by (apply Z.gtb_lt; lia).
  unfold analyze_documentation, documentation_body.
  rewrite Hfind. cbn [St.bind St.lift]. rewrite Hne.
  cbn [St.bind St.lift St.modify]. rewrite Havg.
  cbn [St.bind St.lift St.modify].
  change (readability_band (Float (nearest_of_Z 12))) with 90.
  fold s. fold s in Hsections.
  unfold doc_base_score. rewrite Hc.
  split.
  { destruct (doc_final_score_range s (Text.count_fenced 0 false readme_content)
                90) as (x & Hx & _); [simpl; auto|].
    unfold doc_base_score in Hx. rewrite Hc in Hx. rewrite Hx. reflexivity. }
  split.
  { intros avg. pose proof (readability_band_values avg) as H.
    simpl in H. lia. }
  unfold section_count in Hsections. unfold section_bonus.
  destruct (installation s), (usage s), (contributing s), (license s);
    try (exfalso; lia); split; reflexivity.
Qed.

Lemma documented_readme_witness :
  find_readme readme_checkout readme_files = Ret (Some sample_readme)
  /\ Text.count_words sample_readme = 24
  /\ Text.count_sentences sample_readme = 2
  /\ Doc.readability_score (analyze_documentation readme_checkout) = 90
  /\ Doc.score (analyze_documentation readme_checkout) = Int 100.
Proof.
  split; [reflexivity|]. split; [reflexivity|]. split; [reflexivity|].
  assert (H : 3 <= section_count (find_sections (Text.lower sample_readme)))
    by (vm_compute; discriminate).
  assert (Hc : 1 <= Text.count_fenced 0 false sample_readme)
    by (vm_compute; discriminate).
  assert (Hw : Text.count_words sample_readme
               = 12 * Z.max 1 (Text.count_sentences sample_readme))
    by reflexivity.
  pose proof (documented_readme_scores readme_checkout sample_readme
                eq_refl H Hc Hw) as (Hr & _ & _ & Hs).
  split; [exact Hr | exact Hs].
Defined.

(** * Further properties *)

(** ** analyze_dependencies and analyze_security, in closed form *)

Section Closed_forms.

(** On a checkout without locked directory [exists] returns, and says
    whether the path is there. *)
Lemma below_locked_searchable (ws : workspace) (p : path) :
  searchable ws = true -> below_locked ws p = false.
Proof.
  unfold searchable, below_locked. intros H.
  induction ws as [|e ws IH]; [reflexivity|].
  cbn [forallb existsb] in *. apply andb_prop in H. destruct H as [He Hws].
  apply negb_true_iff in He. rewrite He. cbn [andb orb]. apply IH.
  exact Hws.
Qed.

Lemma exists_searchable (ws : workspace) (p : path) :
  searchable ws = true -> exists_ ws p = Ret (has_entry ws p).
Proof.
  intros H. unfold exists_. rewrite (below_locked_searchable ws p H).
  reflexivity.
Qed.

Lemma any_exists_searchable (ws : workspace) (l : list path) :
  searchable ws = true -> any_exists ws l = Ret (existsb (has_entry ws) l).
Proof.
  intros H. induction l as [|p l IH]; [reflexivity|].
  cbn [any_exists existsb]. rewrite (exists_searchable ws p H). cbn [bind].
  destruct (has_entry ws p); [reflexivity | exact IH].
Qed.

(** A path of one component is below the root alone. *)
Lemma below_locked_top (ws : workspace) (name : string) :
  root_locked ws = false -> below_locked ws [name] = false.
Proof.
  unfold root_locked, below_locked.
  induction ws as [|[q n] ws IH]; [reflexivity|].
  cbn [existsb fst snd]. intros H.
  apply orb_false_elim in H. destruct H as [Hq Hws].
  rewrite (IH Hws), orb_false_r.
  destruct (is_locked n); [|reflexivity]. cbn [andb] in *.
  destruct q as [|a [|b q]]; cbn [is_nil] in Hq; [discriminate| |].
  - cbn [is_prefix path_eqb]. destruct (String.eqb a name); reflexivity.
  - cbn [is_prefix]. rewrite andb_false_r. reflexivity.
Qed.

Lemma exists_top (ws : workspace) (name : string) :
  root_locked ws = false -> exists_ ws [name] = Ret (has_entry ws [name]).
Proof.
  intros H. unfold exists_. rewrite (below_locked_top ws name H).
  reflexivity.
Qed.

Lemma any_exists_top (ws : workspace) (names : list string) :
  root_locked ws = false ->
  any_exists ws (map (fun name => [name]) names)
  = Ret (existsb (has_entry ws) (map (fun name => [name]) names)).
Proof.
  intros H. induction names as [|name names IH]; [reflexivity|].
  cbn [map any_exists existsb]. rewrite (exists_top ws name H). cbn [bind].
  destruct (has_entry ws [name]); [reflexivity | exact IH].
Qed.

Lemma count_if_cons {A : Type} (p : A -> bool) (x : A) (l : list A) :
  count_if p (x :: l) = (if p x then 1 else 0) + count_if p l.
Proof.
  unfold count_if. simpl. destruct (p x); simpl List.length; lia.
Qed.

Lemma count_if_nonneg {A : Type} (p : A -> bool) (l : list A) :
  0 <= count_if p l.
Proof. unfold count_if. lia. Qed.

Lemma count_if_zero {A : Type} (p : A -> bool) (l : list A) :
  count_if p l = 0 <-> existsb p l = false.
Proof.
  induction l as [|x l IH]; [split; reflexivity|].
  rewrite count_if_cons. simpl existsb.
  pose proof (count_if_nonneg p l).
  destruct (p x); cbn [orb]; [split; [lia | discriminate]|].
  rewrite <- IH. split; lia.
Qed.

(** One workflow file: 15 points for each tool it names, the flags
    set, nothing else touched. *)
Lemma workflow_step_effect (r : Sec.results) (f : string * node) :
  workflow_step r f
  = {| Sec.score :=
         Sec.score r + (if mentions_dependabot f then 15 else 0)
         + (if mentions_codeql f then 15 else 0);
       Sec.has_security_md := Sec.has_security_md r;
       Sec.has_github_security_policy := Sec.has_github_security_policy r;
       Sec.has_dependabot_config :=
         Sec.has_dependabot_config r || mentions_dependabot f;
       Sec.has_codeql_config := Sec.has_codeql_config r || mentions_codeql f;
       Sec.details := Sec.details r |}.
Proof.
  unfold workflow_step, mentions_dependabot, mentions_codeql.
  destruct r as [s m p d c det].
  destruct (read_utf8 (snd f)) as [text|ex].
  - cbv zeta.
    destruct (Text.contains "dependabot" (Text.lower text)
              || Text.contains "dependabot config" (Text.lower text));
      destruct (Text.contains "codeql" (Text.lower text)
                || Text.contains "security-events" (Text.lower text));
      unfold Sec.set_score, Sec.set_has_dependabot_config,
        Sec.set_has_codeql_config;
      cbn; rewrite ?orb_true_r, ?orb_false_r; f_equal; lia || reflexivity.
  - cbn. rewrite !orb_false_r. f_equal. lia.
Qed.

Lemma workflow_fold_effect (l : list (string * node)) :
  forall r,
    fold_left workflow_step l r
    = {| Sec.score :=
           Sec.score r + 15 * count_if mentions_dependabot l
           + 15 * count_if mentions_codeql l;
         Sec.has_security_md := Sec.has_security_md r;
         Sec.has_github_security_policy := Sec.has_github_security_policy r;
         Sec.has_dependabot_config :=
           Sec.has_dependabot_config r || existsb mentions_dependabot l;
         Sec.has_codeql_config :=
           Sec.has_codeql_config r || existsb mentions_codeql l;
         Sec.details := Sec.details r |}.
Proof.
  induction l as [|f l IH]; intros r.
  - destruct r. cbn. rewrite !orb_false_r. f_equal. lia.
  - cbn [fold_left]. rewrite IH, workflow_step_effect.
    rewrite !count_if_cons. cbn [Sec.score Sec.has_security_md
      Sec.has_github_security_policy Sec.has_dependabot_config
      Sec.has_codeql_config Sec.details existsb].
    rewrite !orb_assoc. f_equal.
    destruct (mentions_dependabot f), (mentions_codeql f); lia.
Qed.

End Closed_forms.

Section Bodies.

Lemma dependencies_body_searchable (ws : workspace) :
  searchable ws = true ->
  dependencies_body ws Deps.init
  = (dependency_results ws (dependency_points ws)
       (lockfile_detail ws
        ++ (if existsb (has_entry ws) dependency_security_files
            then [("has_security_config", JBool true)] else []))%list,
     Ret tt).
Proof.
  intros H.
  unfold dependencies_body, dependency_files.
  cbn [St.for_each dependency_step].
  rewrite !(any_exists_searchable ws _ H), !(exists_searchable ws _ H).
  unfold dependency_results, dependency_points, lockfile_detail,
    count_present, present, dependency_files.
  cbn [St.for_each St.bind St.lift St.modify St.ret map snd fold_right].
  generalize (existsb (has_entry ws) lock_files)
             (existsb (has_entry ws) dependency_security_files)
             (has_entry ws ["package.json"])
             (has_entry ws ["requirements.txt"])
             (has_entry ws ["Pipfile"]) (has_entry ws ["setup.py"])
             (has_entry ws ["Cargo.toml"]) (has_entry ws ["go.mod"]).
  intros lock sec b1 b2 b3 b4 b5 b6.
  destruct lock, sec, b1, b2, b3, b4, b5, b6; reflexivity.
Qed.

(** With a locked [.github] the last call of [exists] raises, unless
    [.snyk] or [security.md] has answered before. *)
Lemma dependencies_body_locked (ws : workspace) :
  root_locked ws = false ->
  below_locked ws [".github"; "FUNDING.yml"] = true ->
  has_entry ws [".snyk"] = false -> has_entry ws ["security.md"] = false ->
  dependencies_body ws Deps.init
  = (dependency_results ws
       (15 * count_present ws (map snd dependency_files)
        + (if existsb (has_entry ws) lock_files then 20 else 0))
       (lockfile_detail ws),
     Raise (OtherError "[Errno 13] Permission denied")).
Proof.
  intros Hroot Hlocked Hsnyk Hmd.
  assert (Hlock : any_exists ws lock_files
                  = Ret (existsb (has_entry ws) lock_files)).
  { exact (any_exists_top ws
             ["package-lock.json"; "yarn.lock"; "Pipfile.lock";
              "Cargo.lock"; "go.sum"; "poetry.lock"] Hroot). }
  assert (Hsec : any_exists ws dependency_security_files
                 = Raise (OtherError "[Errno 13] Permission denied")).
  { unfold dependency_security_files. cbn [any_exists].
    rewrite !(exists_top ws _ Hroot), Hsnyk, Hmd. cbn [bind].
    unfold exists_. rewrite Hlocked. reflexivity. }
  unfold dependencies_body, dependency_files.
  cbn [St.for_each dependency_step].
  rewrite Hlock, Hsec, !(exists_top ws _ Hroot).
  unfold dependency_results, lockfile_detail, count_present, present,
    dependency_files.
  cbn [St.for_each St.bind St.lift St.modify St.ret map snd fold_right].
  generalize (existsb (has_entry ws) lock_files)
             (has_entry ws ["package.json"])
             (has_entry ws ["requirements.txt"])
             (has_entry ws ["Pipfile"]) (has_entry ws ["setup.py"])
             (has_entry ws ["Cargo.toml"]) (has_entry ws ["go.mod"]).
  intros lock b1 b2 b3 b4 b5 b6.
  destruct lock, b1, b2, b3, b4, b5, b6; reflexivity.
Qed.


End Bodies.

(** X1.  [analyze_dependencies] in closed form.  On a checkout without
    locked directory: 15 points for each of the six dependency files
    that is there, 20 when some lock file is there, 10 when some
    security configuration is there, the sum capped at 100; each flag
    tells whether its file is there, and [details] names the two bonuses
    that were given.  With a locked [.github], and neither [.snyk] nor
    [security.md], the call of [exists] on [.github/FUNDING.yml] raises
    and the handler takes over: the flags and the lock file detail
    stay, [details] records the error and the score is 0.  On every
    checkout the score is within [0, 100]. *)
Theorem analyze_dependencies_closed_form (ws : workspace) :
  (searchable ws = true ->
   analyze_dependencies ws
   = dependency_results ws (Z.min 100 (dependency_points ws))
       (lockfile_detail ws
        ++ (if existsb (has_entry ws) dependency_security_files
            then [("has_security_config", JBool true)] else []))%list)
  /\ (root_locked ws = false ->
      below_locked ws [".github"; "FUNDING.yml"] = true ->
      has_entry ws [".snyk"] = false -> has_entry ws ["security.md"] = false ->
      analyze_dependencies ws
      = dependency_results ws 0
          (lockfile_detail ws ++ [("error", permission_denied)])%list)
  /\ 0 <= Deps.score (analyze_dependencies ws) <= 100.
Proof.
  split; [|split].
  - intros H. unfold analyze_dependencies.
    rewrite (dependencies_body_searchable ws H). reflexivity.
  - intros Hroot Hlocked Hsnyk Hmd. unfold analyze_dependencies.
    rewrite (dependencies_body_locked ws Hroot Hlocked Hsnyk Hmd).
    unfold dependency_results, lockfile_detail, permission_denied.
    destruct (existsb (has_entry ws) lock_files); reflexivity.
  - apply analyze_dependencies_in_range.
Qed.

Lemma analyze_dependencies_closed_form_witness :
  analyze_dependencies js_checkout
  = dependency_results js_checkout 15 []
  /\ analyze_dependencies locked_checkout
     = dependency_results locked_checkout 0 [("error", permission_denied)]
  /\ Deps.has_package_json (analyze_dependencies locked_checkout) = true.
Proof.
  destruct (analyze_dependencies_closed_form js_checkout) as (Hfree & _).
  destruct (analyze_dependencies_closed_form locked_checkout)
    as (_ & Hlocked & _).
  split; [exact (Hfree eq_refl)|].
  split; [exact (Hlocked eq_refl eq_refl eq_refl eq_refl)|].
  rewrite (Hlocked eq_refl eq_refl eq_refl eq_refl). reflexivity.
Defined.

(** The result of [analyze_security] on a checkout without locked
    directory, field by field. *)
Lemma analyze_security_points (ws : workspace) :
  searchable ws = true ->
  analyze_security ws
  = {| Sec.score :=
         if security_points ws =? 0 then 30 else security_points ws;
       Sec.has_security_md := has_entry ws ["SECURITY.md"];
       Sec.has_github_security_policy :=
         has_entry ws [".github"; "SECURITY.md"];
       Sec.has_dependabot_config :=
         existsb mentions_dependabot (workflow_files ws);
       Sec.has_codeql_config :=
         existsb mentions_codeql (workflow_files ws);
       Sec.details := [] |}.
Proof.
  intros H.
  unfold analyze_security, security_body, security_files.
  cbn [St.for_each security_step].
  rewrite !(exists_searchable ws _ H).
  unfold security_points, workflow_files, present.
  destruct (has_entry ws [".github"; "workflows"]),
    (has_entry ws ["SECURITY.md"]),
    (has_entry ws [".github"; "SECURITY.md"]);
    cbn [St.bind St.lift St.modify St.ret St.get];
    rewrite ?workflow_fold_effect;
    unfold count_if;
    cbn [Sec.score Sec.set_score Sec.set_has_security_md
         Sec.set_has_github_security_policy Sec.init
         Sec.has_security_md Sec.has_github_security_policy
         Sec.has_dependabot_config Sec.has_codeql_config Sec.details orb
         filter List.length Z.of_nat existsb];
    try reflexivity;
    match goal with
    | |- context [if ?a =? 0 then St.modify _ else _] =>
        match goal with
        | |- context [if ?b =? 0 then 30 else _] =>
            replace b with a by lia
        end
    end;
    destruct (_ =? 0); reflexivity.
Qed.

(** X2.  [analyze_security] in closed form.  On a checkout without
    locked directory: 20 points for each of the two SECURITY.md files
    that is there, and for every workflow file that can be read 15
    points when it names dependabot and 15 when it names CodeQL; when
    that sum is 0 the score is the baseline 30; [details] stays empty.
    With a locked [.github] the call of [exists] on
    [.github/SECURITY.md] raises and the handler takes over: the flag of
    the SECURITY.md at the root stays, [details] records the error and
    the score is 10.  On every checkout the score is 10 or at least
    15. *)
Theorem analyze_security_closed_form (ws : workspace) :
  (searchable ws = true ->
   analyze_security ws
   = {| Sec.score :=
          if security_points ws =? 0 then 30 else security_points ws;
        Sec.has_security_md := has_entry ws ["SECURITY.md"];
        Sec.has_github_security_policy :=
          has_entry ws [".github"; "SECURITY.md"];
        Sec.has_dependabot_config :=
          existsb mentions_dependabot (workflow_files ws);
        Sec.has_codeql_config := existsb mentions_codeql (workflow_files ws);
        Sec.details := [] |})
  /\ (root_locked ws = false ->
      below_locked ws [".github"; "SECURITY.md"] = true ->
      analyze_security ws
      = {| Sec.score := 10;
           Sec.has_security_md := has_entry ws ["SECURITY.md"];
           Sec.has_github_security_policy := false;
           Sec.has_dependabot_config := false;
           Sec.has_codeql_config := false;
           Sec.details := [("error", permission_denied)] |})
  /\ (Sec.score (analyze_security ws) = 10
      \/ 15 <= Sec.score (analyze_security ws)).
Proof.
  split; [exact (analyze_security_points ws)|]. split.
  - intros Hroot Hlocked.
    unfold analyze_security, security_body, security_files.
    cbn [St.for_each security_step].
    rewrite (exists_top ws _ Hroot).
    unfold exists_ at 1 2. rewrite Hlocked.
    cbn [St.for_each St.bind St.lift St.modify St.ret].
    destruct (has_entry ws ["SECURITY.md"]); reflexivity.
  - exact (analyze_security_score ws).
Qed.

Lemma analyze_security_closed_form_witness :
  Sec.score (analyze_security js_checkout) = 30
  /\ Sec.score (analyze_security locked_checkout) = 10
  /\ Sec.details (analyze_security locked_checkout)
     = [("error", permission_denied)].
Proof.
  destruct (analyze_security_closed_form js_checkout) as (Hfree & _).
  destruct (analyze_security_closed_form locked_checkout)
    as (_ & Hlocked & _).
  rewrite (Hfree eq_refl), (Hlocked eq_refl eq_refl).
  repeat split; reflexivity.
Defined.

(** X3.  The baseline of [analyze_security] makes the score fall when a
    first security measure is added: on checkouts without locked
    directory, one with no security signal scores 30, one with a single
    signal worth less than 30 points scores those points (20 for one
    SECURITY.md, 15 for one workflow that names one tool). *)
Theorem first_security_measure_lowers_score (ws ws' : workspace) :
  searchable ws = true -> searchable ws' = true ->
  security_points ws = 0 ->
  0 < security_points ws' < 30 ->
  Sec.score (analyze_security ws) = 30
  /\ Sec.score (analyze_security ws') = security_points ws'
  /\ Sec.score (analyze_security ws') < Sec.score (analyze_security ws).
Proof.
  intros Hs Hs' H0 H1.
  rewrite (analyze_security_points ws Hs), (analyze_security_points ws' Hs').
  cbn [Sec.score]. rewrite H0.
  destruct (Z.eqb_spec (security_points ws') 0); [lia|].
  cbn. lia.
Qed.

Lemma first_security_measure_witness :
  security_points [] = 0
  /\ 0 < security_points [(["SECURITY.md"], text_file "Report by mail.")] < 30
  /\ Sec.score (analyze_security [(["SECURITY.md"], text_file "Report by mail.")])
     < Sec.score (analyze_security []).
Proof.
  assert (H0 : security_points [] = 0) by reflexivity.
  assert (H1 : 0 < security_points
                     [(["SECURITY.md"], text_file "Report by mail.")] < 30)
    by (vm_compute; split; reflexivity).
  split; [exact H0|]. split; [exact H1|].
  apply (first_security_measure_lowers_score []
           [(["SECURITY.md"], text_file "Report by mail.")]
           eq_refl eq_refl H0 H1).
Defined.

(** ** The README that is read *)

Section Readme.

Lemma path_eqb_prefix (p q : path) : path_eqb p q = true -> is_prefix p q = true.
Proof.
  revert q. induction p as [|a p IH]; intros [|b q]; simpl; try discriminate;
    try reflexivity.
  intros H. apply andb_prop in H. destruct H as [Hab Hpq].
  rewrite Hab. apply IH. exact Hpq.
Qed.

Lemma node_at_has_entry (ws : workspace) (p : path) (n : node) :
  node_at ws p = Some n -> has_entry ws p = true.
Proof.
  unfold node_at, has_entry.
  destruct (find (fun e => path_eqb p (fst e)) ws) as [e|] eqn:Hfind.
  - intros _. apply find_some in Hfind. destruct Hfind as [Hin Heq].
    apply existsb_exists. exists e. split; [exact Hin|].
    apply path_eqb_prefix. exact Heq.
  - destruct (existsb _ ws); [reflexivity | discriminate].
Qed.

(** The loop of [analyze_documentation] stops at the first candidate
    that exists. *)
Lemma find_readme_first (ws : workspace) (pre post : list string)
  (c : string) (n : node) :
  Forall (fun f => exists_ ws [f] = Ret false) pre ->
  exists_ ws [c] = Ret true ->
  node_at ws [c] = Some n ->
  find_readme ws (pre ++ c :: post) = readme_text n.
Proof.
  intros Hpre Hc Hn.
  induction Hpre as [|f pre Hf _ IH]; cbn [app find_readme].
  - rewrite Hc, Hn. cbn [bind].
    destruct n as [|[t|] l|]; reflexivity.
  - rewrite Hf. exact IH.
Qed.

(** [analyze_documentation] looks at the checkout through [find_readme]
    alone. *)
Lemma analyze_documentation_of_found (ws ws' : workspace) :
  find_readme ws readme_files = find_readme ws' readme_files ->
  analyze_documentation ws = analyze_documentation ws'.
Proof.
  intros H. unfold analyze_documentation, documentation_body. rewrite H.
  reflexivity.
Qed.

Lemma find_readme_of_text (t : string) :
  find_readme [(["README.md"], File (Some t) t)] readme_files = Ret (Some t).
Proof. reflexivity. Qed.

End Readme.

(** X4.  The README that [analyze_documentation] analyzes is the first
    name of its list that exists in the checkout, and no later name is
    looked at: the result is the one of a checkout that holds just that
    text, read as UTF-8 or, when the file is not UTF-8, as Latin-1.  A
    first candidate that is empty gives the answer "No README file
    found" with score 0, and one that is a directory, locked or not,
    ends the analysis in the error branch with score 10, whatever other
    README files the checkout has. *)
Theorem first_readme_decides (ws : workspace) (pre post : list string)
  (c : string) (n : node) :
  readme_files = (pre ++ c :: post)%list ->
  Forall (fun f => exists_ ws [f] = Ret false) pre ->
  exists_ ws [c] = Ret true ->
  node_at ws [c] = Some n ->
  match n with
  | File (Some t) _ | File None t =>
      analyze_documentation ws = documentation_of_text t
      /\ (t = "" ->
          analyze_documentation ws
          = Doc.set_detail "message" (JStr "No README file found") Doc.init)
  | Dir =>
      analyze_documentation ws
      = Doc.set_score (Int 10)
          (Doc.set_detail "error" (JStr "Is a directory") Doc.init)
  | Locked =>
      analyze_documentation ws
      = Doc.set_score (Int 10)
          (Doc.set_detail "error" permission_denied Doc.init)
  end.
Proof.
  intros Hlist Hpre Hc Hn.
  assert (Hfound : find_readme ws readme_files = readme_text n).
  { rewrite Hlist. apply find_readme_first; assumption. }
  destruct n as [|[t|] l|]; cbn [readme_text] in Hfound.
  - unfold analyze_documentation, documentation_body. rewrite Hfound.
    reflexivity.
  - assert (Hsame : analyze_documentation ws = documentation_of_text t).
    { apply analyze_documentation_of_found.
      rewrite Hfound, find_readme_of_text. reflexivity. }
    split; [exact Hsame|]. intros Ht. subst t. rewrite Hsame. reflexivity.
  - assert (Hsame : analyze_documentation ws = documentation_of_text l).
    { apply analyze_documentation_of_found.
      rewrite Hfound, find_readme_of_text. reflexivity. }
    split; [exact Hsame|]. intros Ht. subst l. rewrite Hsame. reflexivity.
  - unfold analyze_documentation, documentation_body. rewrite Hfound.
    reflexivity.
Qed.

Lemma first_readme_decides_witness :
  let ws := [(["README.rst"], text_file "# Usage");
             (["README.md"], text_file "")] in
  analyze_documentation ws = documentation_of_text ""
  /\ analyze_documentation ws
     = Doc.set_detail "message" (JStr "No README file found") Doc.init.
Proof.
  cbv zeta.
  assert (Hpre : Forall (fun f => exists_
                   [(["README.rst"], text_file "# Usage");
                    (["README.md"], text_file "")] [f] = Ret false) [])
    by constructor.
  pose proof (first_readme_decides
                [(["README.rst"], text_file "# Usage");
                 (["README.md"], text_file "")]
                [] (tl readme_files) "README.md" (text_file "")
                eq_refl Hpre eq_refl eq_refl) as H.
  cbn [text_file] in H. destruct H as [H1 H2].
  split; [exact H1 | exact (H2 eq_refl)].
Defined.

(** ** The documentation score as a formula *)

Section Documentation_formula.

Lemma doc_final_score_points (s : sections) (n rs : Z) :
  In rs [90; 70; 50; 30] ->
  exists x q,
    doc_final_score (doc_base_score s n) rs = Ret x
    /\ Num.to_Q x = Some q
    /\ (q == inject_Z (documentation_points s n rs))%Q
    /\ 30 <= documentation_points s n rs <= 100.
Proof.
  intros Hrs. unfold documentation_points, doc_base_score.
  destruct s as [i u c l]. cbn [installation usage contributing license].
  destruct (n >? 0);
    destruct i, u, c, l;
    simpl in Hrs; decompose [or] Hrs; subst; try contradiction;
    eexists; eexists;
    (split; [vm_compute; reflexivity
            |split; [vm_compute; reflexivity
                    |split; [vm_compute; reflexivity
                            |vm_compute; split; discriminate]]]).
Qed.

End Documentation_formula.

(** X5.  For a README with text, [analyze_documentation] returns the
    length of the text, the sections and code examples found, the
    readability band of the average sentence length, no [details], and
    a score whose exact value is the integer
    min(100, base + bonuses + (readability - 50) / 2), which lies
    between 30 and 100: the floating-point steps of the script lose
    nothing. *)
Theorem analyze_documentation_closed_form (ws : workspace) (t : string)
  (avg : num) :
  find_readme ws readme_files = Ret (Some t) ->
  Text.is_empty t = false ->
  avg_sentence_length t = Ret avg ->
  let r := analyze_documentation ws in
  let s := find_sections (Text.lower t) in
  let code_examples := Text.count_fenced 0 false t in
  let points := documentation_points s code_examples (readability_band avg) in
  Doc.readme_length r = Text.len t
  /\ Doc.has_installation r = installation s
  /\ Doc.has_contributing r = contributing s
  /\ Doc.has_code_examples r = (code_examples >? 0)
  /\ Doc.readability_score r = readability_band avg
  /\ Doc.details r = []
  /\ (exists q, Num.to_Q (Doc.score r) = Some q /\ (q == inject_Z points)%Q)
  /\ 30 <= points <= 100.
Proof.
  intros Hfind Hne Havg r s code_examples points. subst r.
  destruct (doc_final_score_points s code_examples (readability_band avg)
              (readability_band_values avg)) as (x & q & Hx & Hq & Heq & Hrange).
  unfold analyze_documentation, documentation_body.
  rewrite Hfind. cbn [St.bind St.lift]. rewrite Hne.
  cbn [St.bind St.lift St.modify]. rewrite Havg.
  cbn [St.bind St.lift St.modify].
  fold s. fold code_examples. rewrite Hx.
  cbn [Doc.readme_length Doc.has_installation Doc.has_contributing
       Doc.has_code_examples Doc.readability_score Doc.details Doc.score
       Doc.set_score Doc.set_readme_length Doc.set_has_installation
       Doc.set_has_contributing Doc.set_has_code_examples
       Doc.set_readability_score Doc.init].
  repeat (split; [reflexivity|]).
  split; [exists q; split; [exact Hq | exact Heq] | exact Hrange].
Qed.

Lemma analyze_documentation_closed_form_witness :
  let r := analyze_documentation readme_checkout in
  Doc.readme_length r = Text.len sample_readme
  /\ (exists q, Num.to_Q (Doc.score r) = Some q /\ (q == inject_Z 100)%Q).
Proof.
  cbv zeta.
  pose proof (analyze_documentation_closed_form readme_checkout sample_readme
                (Float (nearest_of_Z 12)) eq_refl eq_refl eq_refl) as H.
  cbv zeta in H. destruct H as (Hlen & _ & _ & _ & _ & _ & Hscore & _).
  split; [exact Hlen | exact Hscore].
Defined.

(** ** The scoring policies *)

Section Bands.










End Bands.




(** ** The counts of the lint analyzers *)

Section Lint_counts.

Variable jl : string -> result json.

Lemma list_ascii_length (s : string) :
  List.length (list_ascii_of_string s) = String.length s.
Proof. induction s; simpl; congruence. Qed.

(** [len(v)] is the number of items a loop over [v] sees. *)
Lemma json_len_iter (v : json) (n : Z) (l : list json) :
  Json.len v = Ret n -> Json.iter v = Ret l -> n = Z.of_nat (List.length l).
Proof.
  destruct v; simpl; intros Hn Hl; inversion Hn; inversion Hl; subst;
    try reflexivity.
  - unfold Text.len, Json.chars. rewrite length_map, list_ascii_length.
    reflexivity.
  - rewrite length_map. reflexivity.
Qed.

Lemma eslint_count_message_bound (ms : list json) :
  forall k n,
    foldM eslint_count_message ms k = Ret n ->
    k <= n <= k + Z.of_nat (List.length ms).
Proof.
  induction ms as [|m ms IH]; intros k n H.
  - inversion H. simpl. lia.
  - cbn [foldM] in H. unfold bind in H at 1.
    destruct (eslint_count_message k m) as [t|] eqn:Hstep; [|discriminate].
    apply IH in H.
    assert (k <= t <= k + 1).
    { unfold eslint_count_message, bind in Hstep.
      destruct (Json.get m "ruleId" (JStr "")) as [rule|]; [|discriminate].
      destruct (Json.lower rule) as [severity|]; [|discriminate].
      destruct (existsb _ _); inversion Hstep; lia. }
    cbn [List.length]. lia.
Qed.

(** Over the same files, the critical messages are among the messages
    counted. *)
Lemma eslint_counts_bound (items : list json) :
  forall t0 k0 t k,
    foldM eslint_count_item items t0 = Ret t ->
    foldM eslint_count_file items k0 = Ret k ->
    k0 <= k /\ k - k0 <= t - t0.
Proof.
  induction items as [|item items IH]; intros t0 k0 t k Ht Hk.
  - inversion Ht. inversion Hk. lia.
  - cbn [foldM] in Ht, Hk. unfold bind in Ht at 1. unfold bind in Hk at 1.
    destruct (eslint_count_item t0 item) as [t1|] eqn:Hitem; [|discriminate].
    destruct (eslint_count_file k0 item) as [k1|] eqn:Hfile; [|discriminate].
    destruct (IH _ _ _ _ Ht Hk) as [Hle Hdiff].
    unfold eslint_count_item, bind in Hitem.
    unfold eslint_count_file, bind in Hfile.
    destruct (Json.get item "messages" (JArr [])) as [messages|]; [|discriminate].
    destruct (Json.len messages) as [n|] eqn:Hlen; [|discriminate].
    destruct (Json.iter messages) as [ms|] eqn:Hiter; [|discriminate].
    inversion Hitem; subst t1.
    apply eslint_count_message_bound in Hfile.
    pose proof (json_len_iter _ _ _ Hlen Hiter) as Hn. lia.
Qed.

Lemma eslint_parse_counts (out : string) (r r' : Lint.results) (o : result unit) :
  eslint_parse jl out r = (r', o) ->
  0 <= Lint.critical_issues r <= Lint.issues r ->
  0 <= Lint.critical_issues r' <= Lint.issues r'.
Proof.
  unfold eslint_parse, St.bind, St.lift, St.modify. intros H Hr.
  destruct (if Text.is_empty out then Ret (JArr []) else jl out)
    as [data|e]; [|inversion H; subst; exact Hr].
  destruct (Json.iter data) as [items|e]; [|inversion H; subst; exact Hr].
  destruct (foldM eslint_count_item items 0) as [t|e] eqn:Ht;
    [|inversion H; subst; exact Hr].
  destruct (foldM eslint_count_file items 0) as [k|e] eqn:Hk;
    [|inversion H; subst; exact Hr].
  inversion H; subst. simpl.
  pose proof (eslint_counts_bound items 0 0 t k Ht Hk). lia.
Qed.

Lemma run_eslint_analysis_counts (ws : workspace) (p : proc) :
  0 <= Lint.critical_issues (run_eslint_analysis jl ws p)
    <= Lint.issues (run_eslint_analysis jl ws p).
Proof.
  unfold run_eslint_analysis, eslint_body.
  destruct (_ ++ _)%list as [|f fs]; [simpl; lia|].
  cbn [St.bind St.lift].
  destruct (any_exists ws _) as [[|]|e]; cbn [negb];
    [|simpl; lia|destruct e; simpl; lia].
  destruct p as [c|e]; [|destruct e; simpl; lia].
  cbn [St.bind St.lift].
  destruct (_ || _); [|simpl; lia].
  unfold St.except_json.
  destruct (eslint_parse jl (stdout c) Lint.init) as [r' o] eqn:Hparse.
  apply eslint_parse_counts in Hparse; [|simpl; lia].
  destruct o as [u|e]; [exact Hparse|].
  destruct e; simpl; exact Hparse.
Qed.

Lemma run_flake8_analysis_counts (ws : workspace) (p : proc) :
  0 <= Lint.critical_issues (run_flake8_analysis ws p)
    <= Lint.issues (run_flake8_analysis ws p).
Proof.
  unfold run_flake8_analysis, flake8_body.
  destruct (rglob ws ".py") as [|f fs]; [simpl; lia|].
  destruct p as [c|e]; [|destruct e; simpl; lia].
  cbn [St.bind St.lift].
  destruct (returncode c =? 0); [simpl; lia|].
  pose proof (flake8_fold_bounds
    (Text.split_on Text.newline (Text.strip (stderr c))) (0, 0)) as Hb.
  destruct (fold_left flake8_count_line _ (0, 0)) as [i k].
  simpl in *. lia.
Qed.

End Lint_counts.

(** X6.  In the dictionary of either lint analyzer, on every path, the
    critical issues are counted among the issues:
    0 <= critical_issues <= issues.  So the penalty of flake8 is at most
    7 per issue and the one of ESLint at most 4 per issue. *)
Theorem lint_counts_are_consistent (jl : string -> result json)
  (ws : workspace) (pf pe : proc) :
  let f := run_flake8_analysis ws pf in
  let l := run_eslint_analysis jl ws pe in
  0 <= Lint.critical_issues f <= Lint.issues f
  /\ 0 <= Lint.critical_issues l <= Lint.issues l
  /\ Lint.issues f * 2 + Lint.critical_issues f * 5 <= 7 * Lint.issues f
  /\ Lint.issues l * 1 + Lint.critical_issues l * 3 <= 4 * Lint.issues l.
Proof.
  intros f l.
  pose proof (run_flake8_analysis_counts ws pf) as Hf.
  pose proof (run_eslint_analysis_counts jl ws pe) as Hl.
  fold f in Hf. fold l in Hl. lia.
Qed.

(** ** A rule id that is not a string *)

Section Rule_id.

Variable jl : string -> result json.

Lemma foldM_other {A S : Type} (f : S -> A -> result S) (l : list A) :
  (forall s x e, f s x = Raise e -> is_other e) ->
  forall s e, foldM f l s = Raise e -> is_other e.
Proof.
  intros Hf. induction l as [|x l IH]; intros s e H; [discriminate|].
  cbn [foldM] in H. unfold bind in H at 1.
  destruct (f s x) as [s'|e'] eqn:Hstep.
  - apply (IH s'). exact H.
  - inversion H; subst. apply (Hf s x). exact Hstep.
Qed.

(** A loop raises when the body raises on one of its items, whatever
    the state it is reached in. *)
Lemma foldM_raises {A S : Type} (f : S -> A -> result S) (l : list A) (x : A) :
  In x l -> (forall s, returns (f s x) = false) ->
  forall s, returns (foldM f l s) = false.
Proof.
  intros Hin Hx. induction l as [|y l IH]; [contradiction|].
  intros s. cbn [foldM]. unfold bind at 1.
  destruct Hin as [Hy | Hin].
  - subst y. specialize (Hx s). destruct (f s x); [discriminate | reflexivity].
  - destruct (f s y); [apply IH; exact Hin | reflexivity].
Qed.

Lemma json_get_other (v : json) (k : string) (d : json) (e : exn) :
  Json.get v k d = Raise e -> is_other e.
Proof. destruct v; simpl; intros H; inversion H; exact I. Qed.

Lemma json_iter_other (v : json) (e : exn) :
  Json.iter v = Raise e -> is_other e.
Proof. destruct v; simpl; intros H; inversion H; exact I. Qed.

Lemma json_len_other (v : json) (e : exn) :
  Json.len v = Raise e -> is_other e.
Proof. destruct v; simpl; intros H; inversion H; exact I. Qed.

Lemma json_lower_other (v : json) (e : exn) :
  Json.lower v = Raise e -> is_other e.
Proof. destruct v; simpl; intros H; inversion H; exact I. Qed.

Lemma eslint_count_item_other (t : Z) (item : json) (e : exn) :
  eslint_count_item t item = Raise e -> is_other e.
Proof.
  unfold eslint_count_item, bind.
  destruct (Json.get item "messages" (JArr [])) as [m|e'] eqn:Hget.
  - destruct (Json.len m) as [n|e'] eqn:Hlen; [discriminate|].
    intros H; inversion H; subst. apply (json_len_other _ _ Hlen).
  - intros H; inversion H; subst. apply (json_get_other _ _ _ _ Hget).
Qed.

Lemma eslint_count_message_other (k : Z) (m : json) (e : exn) :
  eslint_count_message k m = Raise e -> is_other e.
Proof.
  unfold eslint_count_message, bind.
  destruct (Json.get m "ruleId" (JStr "")) as [rule|e'] eqn:Hget.
  - destruct (Json.lower rule) as [s|e'] eqn:Hlow; [discriminate|].
    intros H; inversion H; subst. apply (json_lower_other _ _ Hlow).
  - intros H; inversion H; subst. apply (json_get_other _ _ _ _ Hget).
Qed.

Lemma eslint_count_file_other (k : Z) (file_data : json) (e : exn) :
  eslint_count_file k file_data = Raise e -> is_other e.
Proof.
  unfold eslint_count_file, bind.
  destruct (Json.get file_data "messages" (JArr [])) as [m|e'] eqn:Hget.
  - destruct (Json.iter m) as [ms|e'] eqn:Hiter.
    + apply foldM_other. intros s x e0. apply eslint_count_message_other.
    + intros H; inversion H; subst. apply (json_iter_other _ _ Hiter).
  - intros H; inversion H; subst. apply (json_get_other _ _ _ _ Hget).
Qed.

Lemma eslint_count_file_raises (file : dict) (ms : list json) (m : dict)
  (rule : json) :
  dict_get "messages" file = Some (JArr ms) ->
  In (JObj m) ms ->
  dict_get "ruleId" m = Some rule ->
  is_string rule = false ->
  forall k, returns (eslint_count_file k (JObj file)) = false.
Proof.
  intros Hms Hin Hrule Hstr k.
  unfold eslint_count_file. cbn [Json.get bind]. rewrite Hms.
  cbn [Json.iter bind].
  apply (foldM_raises eslint_count_message ms (JObj m) Hin).
  intros s. unfold eslint_count_message. cbn [Json.get bind]. rewrite Hrule.
  destruct rule; try reflexivity. discriminate.
Qed.

End Rule_id.

(** X7.  A message whose [ruleId] is not a string (ESLint writes
    [null] there for a file it cannot parse) makes [run_eslint_analysis]
    drop the whole report: the call of [lower] raises, the outer handler
    sets the score to 0 and records the error, and no issue is
    counted. *)
Theorem eslint_rule_id_not_a_string (jl : string -> result json)
  (ws : workspace) (c : completed) (items : list json) (file : dict)
  (ms : list json) (m : dict) (rule : json) :
  runs_eslint ws = true ->
  (returncode c =? 0) || (returncode c =? 1) = true ->
  Text.is_empty (stdout c) = false ->
  jl (stdout c) = Ret (JArr items) ->
  In (JObj file) items ->
  dict_get "messages" file = Some (JArr ms) ->
  In (JObj m) ms ->
  dict_get "ruleId" m = Some rule ->
  is_string rule = false ->
  exists msg,
    run_eslint_analysis jl ws (Ret c)
    = Lint.set_score 0 (Lint.set_detail "error" (JStr msg) Lint.init).
Proof.
  intros Hruns Hrc Hout Hjl Hfile Hms Hm Hrule Hstr.
  unfold runs_eslint, no_js_ts_files in Hruns.
  apply andb_prop in Hruns. destruct Hruns as [Hsrc Hcfg].
  assert (Hparse : exists msg,
            eslint_parse jl (stdout c) Lint.init
            = (Lint.init, Raise (OtherError msg))).
  { unfold eslint_parse. rewrite Hout, Hjl.
    cbn [St.bind St.lift Json.iter].
    destruct (foldM eslint_count_item items 0) as [t|e] eqn:Ht.
    - pose proof (foldM_raises eslint_count_file items (JObj file) Hfile
                    (eslint_count_file_raises file ms m rule Hms Hm Hrule Hstr)
                    0) as Hraise.
      destruct (foldM eslint_count_file items 0) as [k|e] eqn:Hk;
        [discriminate|].
      apply foldM_other in Hk; [|intros s x e0; apply eslint_count_file_other].
      destruct e; try contradiction. eexists; reflexivity.
    - apply foldM_other in Ht; [|intros s x e0; apply eslint_count_item_other].
      destruct e; try contradiction. eexists; reflexivity. }
  destruct Hparse as [msg Hparse]. exists msg.
  unfold run_eslint_analysis, eslint_body.
  destruct (_ ++ _)%list; [discriminate|].
  fold eslint_config_names. cbn [St.bind St.lift]. revert Hcfg.
  destruct (any_exists ws _) as [[|]|e]; try discriminate; intros _.
  cbn [negb St.bind St.lift].
  rewrite Hrc. unfold St.except_json. rewrite Hparse. reflexivity.
Qed.

Lemma eslint_rule_id_witness :
  let report :=
    JArr [JObj [("filePath", JStr "index.js");
                ("messages",
                 JArr [JObj [("ruleId", JNull); ("fatal", JBool true);
                             ("message", JStr "Parsing error")]])]] in
  exists msg,
    run_eslint_analysis (fun _ => Ret report) js_checkout (exited 1 "[...]" "")
    = Lint.set_score 0 (Lint.set_detail "error" (JStr msg) Lint.init).
Proof.
  cbv zeta.
  eapply (eslint_rule_id_not_a_string _ js_checkout
            {| returncode := 1; stdout := "[...]"; stderr := "" |}).
  - reflexivity.
  - reflexivity.
  - reflexivity.
  - reflexivity.
  - left. reflexivity.
  - reflexivity.
  - left. reflexivity.
  - reflexivity.
  - reflexivity.
Defined.

(** ** radon on a well-formed report *)

Section Radon_report.

Variable jl : string -> result json.

Lemma gtb_int (z k : Z) : Num.gtb (Int z) (Int k) = (z >? k).
Proof.
  unfold Num.gtb, Num.ltb, Num.compare. rewrite Z.gtb_ltb. unfold Z.ltb.
  destruct (k ?= z); reflexivity.
Qed.

Lemma radon_count_function_int (t n k : Z) (d : dict) (z : Z) :
  int_complexity d = Some z ->
  radon_count_function (Int t, n, k) (JObj d)
  = Ret (Int (t + z), n + 1, if z >? 10 then k + 1 else k).
Proof.
  unfold int_complexity, radon_count_function. cbn [Json.get bind].
  destruct (dict_get "complexity" d) as [[| |[c|]| | |]|];
    intros H; inversion H; subst; cbn [Json.as_num bind Num.add];
    rewrite gtb_int; reflexivity.
Qed.

Lemma radon_count_functions_int (funcs : list dict) :
  Forall (fun d => int_complexity d <> None) funcs ->
  forall t n k,
    foldM radon_count_function (map JObj funcs) (Int t, n, k)
    = Ret (Int (t + total (complexities funcs)),
           n + Z.of_nat (List.length funcs),
           k + count_if (fun z => z >? 10) (complexities funcs)).
Proof.
  induction 1 as [|d funcs Hd _ IH]; intros t n k.
  - cbn. unfold count_if. cbn. rewrite !Z.add_0_r. reflexivity.
  - cbn [map foldM].
    destruct (int_complexity d) as [z|] eqn:Hz; [|contradiction].
    rewrite (radon_count_function_int t n k d z Hz). cbn [bind].
    rewrite IH. cbn [complexities map total fold_right List.length].
    rewrite Hz, count_if_cons.
    fold (complexities funcs). fold (total (complexities funcs)).
    rewrite Nat2Z.inj_succ.
    f_equal. f_equal; [f_equal; [f_equal; lia | lia]|].
    destruct (z >? 10); lia.
Qed.

Lemma radon_count_files_int (files : list (string * list dict)) :
  Forall (fun d => int_complexity d <> None) (report_functions files) ->
  forall t n k,
    foldM radon_count_file
      (map snd (map (fun file => (fst file, JArr (map JObj (snd file)))) files))
      (Int t, n, k)
    = Ret (Int (t + total (complexities (report_functions files))),
           n + Z.of_nat (List.length (report_functions files)),
           k + count_if (fun z => z >? 10)
                 (complexities (report_functions files))).
Proof.
  induction files as [|[name funcs] files IH]; intros Hall t n k.
  - cbn. unfold count_if. cbn. rewrite !Z.add_0_r. reflexivity.
  - unfold report_functions in Hall. cbn [flat_map snd] in Hall.
    apply Forall_app in Hall. destruct Hall as [Hfuncs Hrest].
    cbn [map snd fst foldM]. unfold radon_count_file at 1.
    cbn [Json.iter bind].
    rewrite (radon_count_functions_int funcs Hfuncs). cbn [bind].
    rewrite (IH Hrest).
    unfold report_functions. cbn [flat_map snd].
    unfold complexities, count_if, total.
    rewrite !map_app, filter_app, !length_app, Nat2Z.inj_add.
    rewrite fold_right_app.
    assert (Hsum : forall l acc, fold_right Z.add acc l
                                 = fold_right Z.add 0 l + acc).
    { induction l as [|x l IHl]; intros acc; simpl; [lia|].
      rewrite IHl. lia. }
    rewrite (Hsum _ (fold_right Z.add 0 _)).
    f_equal. f_equal; [f_equal; [f_equal; lia | lia] | lia].
Qed.

End Radon_report.

(** X8.  On a report of radon that is an object from file names to
    lists of function entries whose [complexity] is an int or missing
    (missing counts as 1): with no function entry the result is the
    initial dictionary (score 0, no error); otherwise the score is the
    band of the average complexity (the sum over all files divided by
    the number of functions), [average_complexity] is that average
    rounded to two decimals, [complex_functions] is the number of
    functions whose complexity exceeds 10, and no error is recorded. *)
Theorem radon_on_well_formed_report (jl : string -> result json)
  (ws : workspace) (c : completed) (files : list (string * list dict)) :
  no_python_files ws = false ->
  returncode c = 0 ->
  jl (stdout c) = Ret (radon_report files) ->
  Forall (fun d => int_complexity d <> None) (report_functions files) ->
  let cs := complexities (report_functions files) in
  let n := Z.of_nat (List.length cs) in
  (n = 0 -> run_radon_analysis jl ws (Ret c) = Radon.init)
  /\ (forall avg rounded,
        0 < n ->
        Num.truediv (Int (total cs)) (Int n) = Ret avg ->
        Num.round2 avg = Ret rounded ->
        run_radon_analysis jl ws (Ret c)
        = {| Radon.complexity_score := radon_band avg;
             Radon.average_complexity := rounded;
             Radon.complex_functions := count_if (fun z => z >? 10) cs;
             Radon.details := [] |}).
Proof.
  intros Hpy Hrc Hjl Hall cs n.
  assert (Hlen : n = Z.of_nat (List.length (report_functions files))).
  { unfold n, cs, complexities. rewrite length_map. reflexivity. }
  unfold run_radon_analysis, radon_body.
  unfold no_python_files in Hpy.
  destruct (rglob ws ".py"); [discriminate|].
  cbn [St.bind St.lift]. rewrite Hrc. cbn [Z.eqb].
  unfold St.except_json, radon_parse. rewrite Hjl.
  unfold radon_report. cbn [St.bind St.lift Json.values].
  rewrite (radon_count_files_int files Hall 0 0 0).
  cbn [St.bind St.lift]. rewrite !Z.add_0_l.
  fold cs. rewrite <- Hlen.
  split.
  - intros Hn. rewrite Hn. reflexivity.
  - intros avg rounded Hpos Havg Hround.
    replace (n >? 0) with true by (symmetry; apply Z.gtb_lt; exact Hpos).
    rewrite Havg. cbn [St.bind St.lift St.modify]. rewrite Hround.
    reflexivity.
Qed.

Lemma radon_on_well_formed_report_witness :
  let files := [("a.py", [[("name", JStr "f"); ("complexity", JNum (Int 12))];
                          [("name", JStr "g")]]);
                ("b.py", [[("name", JStr "h"); ("complexity", JNum (Int 2))]])] in
  run_radon_analysis (fun _ => Ret (radon_report files))
    [(["a.py"], text_file ""); (["b.py"], text_file "")] (exited 0 "{...}" "")
  = {| Radon.complexity_score := 90;
       Radon.average_complexity := Float (nearest_of_Z 5);
       Radon.complex_functions := 1;
       Radon.details := [] |}.
Proof.
  cbv zeta.
  pose proof (radon_on_well_formed_report
    (fun _ => Ret (radon_report
       [("a.py", [[("name", JStr "f"); ("complexity", JNum (Int 12))];
                   [("name", JStr "g")]]);
        ("b.py", [[("name", JStr "h"); ("complexity", JNum (Int 2))]])]))
    [(["a.py"], text_file ""); (["b.py"], text_file "")]
    {| returncode := 0; stdout := "{...}"; stderr := "" |}
    [("a.py", [[("name", JStr "f"); ("complexity", JNum (Int 12))];
                [("name", JStr "g")]]);
     ("b.py", [[("name", JStr "h"); ("complexity", JNum (Int 2))]])]
    eq_refl eq_refl eq_refl) as H.
  assert (Hall : Forall (fun d => int_complexity d <> None)
            (report_functions
               [("a.py", [[("name", JStr "f"); ("complexity", JNum (Int 12))];
                           [("name", JStr "g")]]);
                ("b.py", [[("name", JStr "h"); ("complexity", JNum (Int 2))]])]))
    by (repeat constructor; discriminate).
  destruct (H Hall) as [_ Hpos].
  apply (Hpos (Float (nearest_of_Z 5)) (Float (nearest_of_Z 5)));
    [reflexivity | reflexivity | reflexivity].
Defined.

(** ** The temporary directory and the report of a run *)

Section Run.

Lemma releases_log (q : string) (ev : event) (w : world) :
  releases q (trace (log ev w))
  = (releases q (trace w)
     + match ev with
       | Rmtree d => if String.eqb q d then 1 else 0
       | _ => 0
       end)%nat.
Proof.
  unfold log. cbn [trace]. rewrite releases_app.
  destruct ev; simpl; lia.
Qed.

(** What a run leaves of the world: nothing changed when [mkdtemp]
    failed; otherwise the directory created, and at most one call of
    [rmtree], on that directory. *)
Lemma run_analysis_outside (e : env) (self : analyzer) (st : state) :
  match mkdtemp e (local_path self) with
  | Raise _ => outside (run_analysis e self st) = outside st
  | Ret d =>
      outside (run_analysis e self st) = cloned d (outside st)
      \/ outside (run_analysis e self st)
         = log (Rmtree d) (cloned d (outside st))
      \/ outside (run_analysis e self st)
         = remove_dir d (log (Rmtree d) (cloned d (outside st)))
  end.
Proof.
  unfold run_analysis, clone_repository, clone_body.
  destruct (mkdtemp e (local_path self)) as [d|ex].
  - destruct (checked (git_clone e)) as [c|ex].
    + unfold falsy. destruct (Text.is_empty d) eqn:Hd.
      * left. unfold cleanup. rewrite Hd. reflexivity.
      * cbn [results outside].
        destruct (_calculate_aggregate_scores _);
          unfold cleanup; rewrite Hd; cbn [negb andb outside];
          (destruct (on_disk _ d); [|left; reflexivity]);
          destruct (rmtree e); [right; right | right; left
                               | right; right | right; left]; reflexivity.
    + left. destruct ex; reflexivity.
  - destruct ex; reflexivity.
Qed.

End Run.

(** X9.  The calls of a run, in order: none when [mkdtemp] fails;
    otherwise [mkdtemp] and [git clone] on the directory it returned
    and then at most one [rmtree], on that directory.  So [rmtree] is
    never called on another path. *)
Theorem rmtree_only_on_own_directory (e : env) (self : analyzer)
  (st : state) :
  let before := trace (outside st) in
  let after := trace (outside (run_analysis e self st)) in
  match mkdtemp e (local_path self) with
  | Raise _ => after = before
  | Ret d =>
      after = (before ++ [Mkdtemp d; GitClone d])%list
      \/ after = (before ++ [Mkdtemp d; GitClone d; Rmtree d])%list
  end
  /\ (forall q,
        mkdtemp e (local_path self) <> Ret q ->
        releases q after = releases q before).
Proof.
  cbv zeta. pose proof (run_analysis_outside e self st) as Hout.
  destruct (mkdtemp e (local_path self)) as [d|ex].
  - assert (Hcases :
        trace (outside (run_analysis e self st))
        = (trace (outside st) ++ [Mkdtemp d; GitClone d])%list
        \/ trace (outside (run_analysis e self st))
           = (trace (outside st) ++ [Mkdtemp d; GitClone d; Rmtree d])%list).
    { destruct Hout as [Hout | [Hout | Hout]]; rewrite Hout;
        [left | right | right]; cbn; rewrite <- ?app_assoc; reflexivity. }
    split; [exact Hcases|].
    intros q Hq.
    assert (Hneq : String.eqb q d = false).
    { apply String.eqb_neq. intros Heq. subst q. apply Hq. reflexivity. }
    destruct Hcases as [Hc | Hc]; rewrite Hc, releases_app; cbn;
      rewrite ?Hneq; lia.
  - rewrite Hout. split; [reflexivity|]. intros q _. reflexivity.
Qed.

(** X10.  After a clone that succeeded, when [rmtree] does its work:
    the directory is gone, [rmtree] was called on it exactly once, after
    [mkdtemp] and the clone, and the report has no new warning. *)
Theorem successful_run_removes_its_directory (e : env) (self : analyzer)
  (st : state) (d : string) :
  acquires e self d -> rmtree e = Ret tt ->
  let st' := run_analysis e self st in
  on_disk (outside st') d = false
  /\ trace (outside st')
     = (trace (outside st) ++ [Mkdtemp d; GitClone d; Rmtree d])%list
  /\ releases d (trace (outside st'))
     = S (releases d (trace (outside st)))
  /\ warnings (results st') = warnings (results st)
  /\ errors (results st') = errors (results st).
Proof.
  intros Hacq Hrm st'. subst st'.
  rewrite (run_analysis_acquires e self st d Hacq), Hrm.
  cbn [outside results].
  split; [apply on_disk_remove|].
  assert (Ht : trace (remove_dir d (log (Rmtree d) (cloned d (outside st))))
               = (trace (outside st) ++ [Mkdtemp d; GitClone d; Rmtree d])%list).
  { simpl. rewrite <- !app_assoc. reflexivity. }
  split; [exact Ht|]. rewrite Ht, releases_app. simpl.
  rewrite String.eqb_refl. split; [lia|]. split; reflexivity.
Qed.

Lemma successful_run_witness :
  let e := sample_env (exited 0 "" "") bare_checkout (exited 0 "" "") in
  acquires e sample_analyzer sample_dir
  /\ on_disk (outside (run_analysis e sample_analyzer fresh_state)) sample_dir
     = false
  /\ releases sample_dir
       (trace (outside (run_analysis e sample_analyzer fresh_state)))
     = 1%nat.
Proof.
  cbv zeta.
  assert (Hacq : acquires
            (sample_env (exited 0 "" "") bare_checkout (exited 0 "" ""))
            sample_analyzer sample_dir)
    by (repeat split; reflexivity).
  pose proof (successful_run_removes_its_directory _ _ fresh_state _ Hacq
                eq_refl) as H.
  cbv zeta in H. destruct H as (Hgone & _ & Hrel & _).
  split; [exact Hacq|]. split; [exact Hgone | exact Hrel].
Defined.

(** X11.  When [rmtree] fails after a successful analysis, the failure
    is one more warning and nothing else: the report keeps the six
    results and the aggregate, it gets no error, and the directory
    stays on disk. *)
Theorem failed_cleanup_is_a_warning (e : env) (self : analyzer)
  (st : state) (d : string) (ex : exn) :
  acquires e self d -> rmtree e = Raise ex ->
  let st' := run_analysis e self st in
  results st'
  = append_warning ("Failed to cleanup " ++ d ++ ": " ++ str_of_exn ex)
      (analyzed e (results st))
  /\ errors (results st') = errors (results st)
  /\ (exists agg, aggregate (results st') = Some agg)
  /\ on_disk (outside st') d = true
  /\ releases d (trace (outside st')) = S (releases d (trace (outside st))).
Proof.
  intros Hacq Hrm st'. subst st'.
  rewrite (run_analysis_acquires e self st d Hacq), Hrm.
  cbn [outside results].
  split; [reflexivity|]. split; [reflexivity|].
  split; [eexists; reflexivity|].
  split.
  - unfold cloned. rewrite !on_disk_log. apply on_disk_create.
  - unfold cloned. rewrite !releases_log. cbn [trace create_dir].
    rewrite String.eqb_refl. lia.
Qed.

Lemma failed_cleanup_witness :
  let e := {| now := 1700000000;
              urlparse := sample_urlparse;
              mkdtemp := sample_mkdtemp;
              git_clone := exited 0 "" "";
              checkout := bare_checkout;
              flake8_run := exited 0 "" "";
              radon_run := exited 0 "" "";
              eslint_run := exited 0 "" "";
              json_loads := not_json;
              rmtree := Raise (OtherError "Permission denied") |} in
  warnings (results (run_analysis e sample_analyzer fresh_state))
  = ["Failed to cleanup /tmp/octocat_Hello-Worldk3x9q2ab: Permission denied"]
  /\ on_disk (outside (run_analysis e sample_analyzer fresh_state)) sample_dir
     = true.
Proof.
  cbv zeta.
  assert (Hacq : acquires
            {| now := 1700000000;
               urlparse := sample_urlparse;
               mkdtemp := sample_mkdtemp;
               git_clone := exited 0 "" "";
               checkout := bare_checkout;
               flake8_run := exited 0 "" "";
               radon_run := exited 0 "" "";
               eslint_run := exited 0 "" "";
               json_loads := not_json;
               rmtree := Raise (OtherError "Permission denied") |}
            sample_analyzer sample_dir)
    by (repeat split; reflexivity).
  pose proof (failed_cleanup_is_a_warning _ _ fresh_state _ _ Hacq eq_refl)
    as H.
  cbv zeta in H. destruct H as (Hres & _ & _ & Hdisk & _).
  split; [rewrite Hres; reflexivity | exact Hdisk].
Defined.

(** X12.  [clone_repository] returns the directory exactly when
    [mkdtemp] and the clone both succeed, and then leaves the report as
    it was.  Otherwise it returns [None] and appends one error, whether
    [mkdtemp] or [git clone] raised: the fixed text for a timeout, the
    exception after ["Failed to clone repository: "] for a clone that
    exited with another status than 0, and after ["Unexpected error
    during clone: "] for anything else ([git] missing, say).  A failure
    of [mkdtemp] leaves the world as it was. *)
Theorem clone_repository_outcome (e : env) (self : analyzer) (st : state) :
  let st' := fst (clone_repository e self st) in
  let r := snd (clone_repository e self st) in
  (forall d, r = Some d
     <-> mkdtemp e (local_path self) = Ret d
         /\ returns (checked (git_clone e)) = true)
  /\ (forall d, r = Some d ->
        results st' = results st /\ outside st' = cloned d (outside st))
  /\ (r = None -> exists msg, results st' = append_error msg (results st))
  /\ (forall ex, mkdtemp e (local_path self) = Raise ex ->
        outside st' = outside st
        /\ results st' = append_error (clone_error_message ex) (results st))
  /\ (forall d ex, mkdtemp e (local_path self) = Ret d ->
        clone_raises e ex ->
        results st' = append_error (clone_error_message ex) (results st)
        /\ outside st' = cloned d (outside st))
  /\ (forall d m, mkdtemp e (local_path self) = Ret d ->
        clone_raises e (TimeoutExpired m) ->
        results st' = append_error "Repository cloning timed out" (results st))
  /\ (forall d m, mkdtemp e (local_path self) = Ret d ->
        clone_raises e (CalledProcessError m) ->
        results st'
        = append_error ("Failed to clone repository: " ++ m) (results st))
  /\ (forall d m, mkdtemp e (local_path self) = Ret d ->
        clone_raises e (OtherError m) ->
        results st'
        = append_error ("Unexpected error during clone: " ++ m) (results st)).
Proof.
  intros st' r. subst st' r. unfold clone_raises.
  assert (Hraised : forall d ex,
            mkdtemp e (local_path self) = Ret d ->
            checked (git_clone e) = Raise ex ->
            clone_repository e self st
            = ({| results := append_error (clone_error_message ex) (results st);
                  outside := cloned d (outside st) |}, None)).
  { intros d ex Hmk Hclone. unfold clone_repository, clone_body.
    rewrite Hmk, Hclone. destruct ex; reflexivity. }
  split; [|split; [|split; [|split; [|split; [|split; [|split]]]]]].
  - intros d. unfold clone_repository, clone_body.
    destruct (mkdtemp e (local_path self)) as [d0|ex0].
    + destruct (checked (git_clone e)) as [c|ex1]; cbn [snd returns].
      * split; [intros H; inversion H; split; reflexivity
               |intros [H _]; inversion H; reflexivity].
      * split; [destruct ex1; discriminate | intros [_ H]; discriminate].
    + split; [destruct ex0; discriminate | intros [H _]; discriminate].
  - intros d. unfold clone_repository, clone_body.
    destruct (mkdtemp e (local_path self)) as [d0|ex0].
    + destruct (checked (git_clone e)) as [c|ex1]; cbn [fst snd].
      * intros H. inversion H. split; reflexivity.
      * destruct ex1; discriminate.
    + destruct ex0; discriminate.
  - unfold clone_repository, clone_body.
    destruct (mkdtemp e (local_path self)) as [d0|ex0].
    + destruct (checked (git_clone e)) as [c|ex1]; cbn [fst snd].
      * discriminate.
      * intros _. destruct ex1; eexists; reflexivity.
    + intros _. destruct ex0; eexists; reflexivity.
  - intros ex Hmk. unfold clone_repository, clone_body. rewrite Hmk.
    destruct ex; split; reflexivity.
  - intros d ex Hmk Hclone. rewrite (Hraised d ex Hmk Hclone).
    split; reflexivity.
  - intros d m Hmk Hclone. rewrite (Hraised d _ Hmk Hclone). reflexivity.
  - intros d m Hmk Hclone. rewrite (Hraised d _ Hmk Hclone). reflexivity.
  - intros d m Hmk Hclone. rewrite (Hraised d _ Hmk Hclone). reflexivity.
Qed.

Lemma clone_repository_outcome_witness :
  let e := {| now := 1700000000;
              urlparse := sample_urlparse;
              mkdtemp := sample_mkdtemp;
              git_clone :=
                Raise (OtherError
                         "[Errno 2] No such file or directory: 'git'");
              checkout := [];
              flake8_run := exited 0 "" "";
              radon_run := exited 0 "" "";
              eslint_run := exited 0 "" "";
              json_loads := not_json;
              rmtree := Ret tt |} in
  errors (results (fst (clone_repository e sample_analyzer fresh_state)))
  = ["Unexpected error during clone: [Errno 2] No such file or directory: 'git'"].
Proof.
  cbv zeta.
  destruct (clone_repository_outcome
              {| now := 1700000000;
                 urlparse := sample_urlparse;
                 mkdtemp := sample_mkdtemp;
                 git_clone :=
                   Raise (OtherError
                            "[Errno 2] No such file or directory: 'git'");
                 checkout := [];
                 flake8_run := exited 0 "" "";
                 radon_run := exited 0 "" "";
                 eslint_run := exited 0 "" "";
                 json_loads := not_json;
                 rmtree := Ret tt |} sample_analyzer fresh_state)
    as (_ & _ & _ & _ & _ & _ & _ & Hother).
  rewrite (Hother sample_dir _ eq_refl eq_refl). reflexivity.
Defined.

(** ** What a run adds to the report *)

(** The report of a run keeps its repository and its timestamp, and its
    errors and warnings grow by [es] and [ws]. *)
Lemma run_analysis_report (e : env) (self : analyzer) (st : state) :
  let rep := results (run_analysis e self st) in
  repository rep = repository (results st)
  /\ timestamp rep = timestamp (results st)
  /\ exists es ws,
       errors rep = (errors (results st) ++ es)%list
       /\ warnings rep = (warnings (results st) ++ ws)%list
       /\ (List.length es + List.length ws <= 1)%nat.
Proof.
  intros rep. subst rep.
  destruct (mkdtemp e (local_path self)) as [d|ex0] eqn:Hmk.
  - destruct (checked (git_clone e)) as [c|ex1] eqn:Hclone.
    + destruct (Text.is_empty d) eqn:Hd.
      * unfold run_analysis, clone_repository, clone_body.
        rewrite Hmk, Hclone. unfold falsy, cleanup. rewrite Hd.
        cbn [results andb negb].
        split; [reflexivity|]. split; [reflexivity|].
        exists [], []. rewrite !app_nil_r. repeat split. simpl. lia.
      * assert (Hacq : acquires e self d).
        { split; [exact Hmk|]. split; [exact Hd|]. rewrite Hclone.
          reflexivity. }
        rewrite (run_analysis_acquires e self st d Hacq).
        destruct (rmtree e) as [u|ex]; cbn [results].
        -- split; [reflexivity|]. split; [reflexivity|].
           exists [], []. rewrite !app_nil_r.
           split; [reflexivity|]. split; [reflexivity|]. simpl. lia.
        -- split; [reflexivity|]. split; [reflexivity|].
           exists [], ["Failed to cleanup " ++ d ++ ": " ++ str_of_exn ex].
           rewrite app_nil_r.
           split; [reflexivity|]. split; [reflexivity|]. simpl. lia.
    + assert (Hfail : clone_fails e self d).
      { split; [exact Hmk|]. rewrite Hclone. reflexivity. }
      destruct (run_analysis_clone_fails e self st d Hfail)
        as ((msg & Hres) & _).
      rewrite Hres. cbn [repository timestamp errors warnings append_error].
      split; [reflexivity|]. split; [reflexivity|].
      exists [msg], []. rewrite app_nil_r.
      split; [reflexivity|]. split; [reflexivity|]. simpl. lia.
  - unfold run_analysis, clone_repository, clone_body. rewrite Hmk.
    destruct ex0; cbn [falsy cleanup results repository timestamp errors
                         warnings append_error];
      (split; [reflexivity|]; split; [reflexivity|];
       eexists [_], []; rewrite app_nil_r;
       split; [reflexivity|]; split; [reflexivity|]; simpl; lia).
Qed.

(** X13.  A run only appends to the report it was given: the
    repository and the timestamp stay, every earlier error and warning
    stays in place, and at most one message is added in all, an error
    or a warning. *)
Theorem run_analysis_only_appends (e : env) (self : analyzer) (st : state) :
  let rep := results (run_analysis e self st) in
  repository rep = repository (results st)
  /\ timestamp rep = timestamp (results st)
  /\ exists es ws,
       errors rep = (errors (results st) ++ es)%list
       /\ warnings rep = (warnings (results st) ++ ws)%list
       /\ (List.length es + List.length ws <= 1)%nat.
Proof. exact (run_analysis_report e self st). Qed.

(** ** The check of the URL *)

Lemma prefix_app (s t : string) : prefix s (s ++ t) = true.
Proof.
  induction s as [|c s IH]; simpl; [destruct t; reflexivity|].
  destruct (ascii_dec c c); [exact IH | congruence].
Qed.

Lemma contains_prefix (needle hay : string) :
  prefix needle hay = true -> Text.contains needle hay = true.
Proof.
  intros H. destruct hay; cbn [Text.contains]; rewrite H; reflexivity.
Qed.

Lemma contains_app (needle a b : string) :
  Text.contains needle (a ++ needle ++ b) = true.
Proof.
  induction a as [|c a IH].
  - cbn [append]. apply contains_prefix. apply prefix_app.
  - cbn [append Text.contains]. rewrite IH. apply orb_true_r.
Qed.

(** X14.  The check of [main] passes every URL that starts with
    [https://], whatever its host, and every text that contains
    [github.com]; the report of a URL that passes and parses names that
    URL and the time of the run; and a URL that is refused, or that
    [urlparse] rejects, ends the process before anything is created. *)
Theorem main_checks_the_url_loosely (e : env) (w : world) :
  (forall s, valid_url ("https://" ++ s) = true)
  /\ (forall a b, valid_url (a ++ "github.com" ++ b) = true)
  /\ (forall url rep,
        report (snd (main e url w)) = Some rep ->
        repository rep = url /\ timestamp rep = now e)
  /\ (forall url,
        valid_url url = false \/ returns (urlparse e url) = false ->
        main e url w = (w, {| exit_code := 1; report := None |})).
Proof.
  split.
  { intros s. unfold valid_url. rewrite (prefix_app "https://" s).
    apply orb_true_r. }
  split.
  { intros a b. unfold valid_url. rewrite contains_app. reflexivity. }
  split.
  { intros url rep. unfold main.
    destruct (valid_url url); cbn [negb]; [|discriminate].
    destruct (new_analyzer e url) as [[self a]|ex] eqn:Hnew; [|discriminate].
    cbn [snd report]. intros H. inversion H. clear H.
    destruct (run_analysis_report e self {| results := a; outside := w |})
      as (Hrepo & Htime & _).
    cbn [results] in Hrepo, Htime. rewrite Hrepo, Htime.
    unfold new_analyzer in Hnew.
    destruct (_get_repo_name_from_url e url); [|discriminate].
    inversion Hnew. split; reflexivity. }
  intros url [H | H]; unfold main.
  - rewrite H. reflexivity.
  - rewrite <- new_analyzer_returns in H.
    destruct (valid_url url); [|reflexivity]. cbn [negb].
    destruct (new_analyzer e url); [discriminate | reflexivity].
Qed.

(** ** The aggregate scores *)

(** X15.  [_calculate_aggregate_scores] reads the scores of the
    analyzers and writes the aggregate alone: every other entry of the
    report stays, running it again changes nothing, and an entry that no
    analyzer has written counts as score 0, so that a report without
    results gets the code quality score 50 and three zeros. *)
Theorem aggregate_scores_written_once (a a' : analysis_results) :
  _calculate_aggregate_scores a = Ret a' ->
  _calculate_aggregate_scores a' = Ret a'
  /\ (exists agg, a' = set_aggregate agg a)
  /\ (flake8 (code_quality a) = None -> eslint (code_quality a) = None ->
      complexity a = None -> documentation a = None ->
      security a = None -> dependencies a = None ->
      aggregate a' = Some default_aggregate).
Proof.
  unfold _calculate_aggregate_scores. intros H.
  destruct (aggregate_code_score _ _ _) as [x|ex] eqn:Hx; [|discriminate].
  cbn [bind] in H. inversion H. clear H.
  cbn [set_aggregate code_quality complexity documentation security
         dependencies].
  rewrite Hx. cbn [bind].
  split; [reflexivity|]. split; [eexists; reflexivity|].
  intros Hf He Hc Hd Hs Hp.
  rewrite Hf, He, Hc in Hx. cbn [get_score] in Hx.
  vm_compute in Hx. inversion Hx.
  rewrite Hd, Hs, Hp. reflexivity.
Qed.

Lemma aggregate_scores_written_once_witness :
  _calculate_aggregate_scores
    (set_aggregate default_aggregate (initial_results sample_url 1700000000))
  = Ret (set_aggregate default_aggregate
           (initial_results sample_url 1700000000))
  /\ aggregate (set_aggregate default_aggregate
                  (initial_results sample_url 1700000000))
     = Some default_aggregate.
Proof.
  destruct (aggregate_scores_written_once
              (initial_results sample_url 1700000000)
              (set_aggregate default_aggregate
                 (initial_results sample_url 1700000000)))
    as (Hagain & _ & Hdef).
  - vm_compute. reflexivity.
  - split; [exact Hagain|]. apply Hdef; reflexivity.
Defined.

Lemma reachable_scores_within :
  forallb (fun f =>
    forallb (fun e =>
      forallb (fun c => within_scores f e c (expected_code_score f e c))
        complexity_scores)
      eslint_scores)
    flake8_scores = true.
Proof. vm_compute. reflexivity. Qed.

(** X16.  The code quality score never leaves the scores it is made
    of: it lies between the smallest and the largest of the positive
    scores among flake8, ESLint and complexity, so it is that score when
    one tool alone scored; it is 50 when none did. *)
Theorem code_quality_score_within_scores
  (jl : string -> result json) (ws : workspace) (pf pr pe : proc) :
  let f := Lint.score (run_flake8_analysis ws pf) in
  let l := Lint.score (run_eslint_analysis jl ws pe) in
  let c := Radon.complexity_score (run_radon_analysis jl ws pr) in
  exists x,
    aggregate_code_score f l c = Ret x /\ within_scores f l c x = true.
Proof.
  intros f l c.
  pose proof (flake8_score_reachable ws pf) as Hf.
  pose proof (eslint_score_reachable jl ws pe) as Hl.
  pose proof (run_radon_analysis_score jl ws pr) as Hc.
  fold f in Hf. fold l in Hl. fold c in Hc.
  destruct (aggregate_code_score_reachable f l c Hf Hl Hc) as [Hagg _].
  exists (expected_code_score f l c). split; [exact Hagg|].
  pose proof reachable_scores_within as Hall.
  rewrite forallb_forall in Hall. specialize (Hall f Hf).
  rewrite forallb_forall in Hall. specialize (Hall l Hl).
  rewrite forallb_forall in Hall. exact (Hall c Hc).
Qed.

(** ** The name of the temporary directory *)

Section Repo_name.

Lemma strip_slashes_eq (s : string) : strip_slashes s = rstrip_slashes (lstrip_slashes s).
Proof. reflexivity. Qed.

Lemma string_app_assoc (s t u : string) :
  ((s ++ t) ++ u = s ++ t ++ u)%string.
Proof.
  induction s as [|c s IH]; [reflexivity|]. cbn [append]. rewrite IH.
  reflexivity.
Qed.

Lemma string_app_nil_r (s : string) : (s ++ "" = s)%string.
Proof.
  induction s as [|c s IH]; [reflexivity|]. cbn [append]. rewrite IH.
  reflexivity.
Qed.

Lemma contains_slash_cons (c : ascii) (s : string) :
  Text.contains "/" (String c s) = false ->
  Ascii.eqb c "/"%char = false /\ Text.contains "/" s = false.
Proof.
  cbn [Text.contains prefix]. intros H.
  apply orb_false_elim in H. destruct H as [Hp Hs].
  split; [|exact Hs].
  destruct (ascii_dec "/" c) as [Heq|Hneq].
  - destruct s; discriminate.
  - apply Ascii.eqb_neq. congruence.
Qed.

Lemma lstrip_keeps (s t : string) :
  s <> "" -> Text.contains "/" s = false -> lstrip_slashes (s ++ t) = (s ++ t)%string.
Proof.
  intros Hne Hfree. destruct s as [|c s]; [congruence|].
  apply contains_slash_cons in Hfree. destruct Hfree as [Hc _].
  apply Ascii.eqb_neq in Hc. cbn [append].
  destruct c as [[] [] [] [] [] [] [] []]; try reflexivity.
  congruence.
Qed.

Lemma rstrip_cons (c : ascii) (s : string) :
  rstrip_slashes s <> "" -> rstrip_slashes (String c s) = String c (rstrip_slashes s).
Proof.
  intros H. change (rstrip_slashes (String c s))
    with (match rstrip_slashes s with
          | EmptyString =>
              if Ascii.eqb c "/"%char then EmptyString else String c EmptyString
          | t => String c t
          end).
  destruct (rstrip_slashes s); [congruence | reflexivity].
Qed.

Lemma rstrip_segment (s : string) :
  s <> "" -> Text.contains "/" s = false ->
  rstrip_slashes s = s /\ rstrip_slashes (s ++ "/") = s.
Proof.
  induction s as [|c s IH]; [congruence|]. intros _ Hfree.
  apply contains_slash_cons in Hfree. destruct Hfree as [Hc Hs].
  destruct s as [|c' s'].
  - cbn. rewrite Hc. split; reflexivity.
  - destruct (IH ltac:(discriminate) Hs) as [IH1 IH2].
    split.
    + rewrite rstrip_cons; rewrite IH1; [reflexivity | discriminate].
    + cbn [append]. change (String c' (s' ++ "/")) with (String c' s' ++ "/").
      rewrite rstrip_cons; rewrite IH2; [reflexivity | discriminate].
Qed.

Lemma rstrip_app (t s : string) :
  s <> "" -> Text.contains "/" s = false ->
  rstrip_slashes (t ++ s) = (t ++ s)%string /\ rstrip_slashes (t ++ s ++ "/") = (t ++ s)%string.
Proof.
  intros Hne Hfree. destruct (rstrip_segment s Hne Hfree) as [H1 H2].
  induction t as [|c t [IH1 IH2]]; [split; assumption|].
  cbn [append]. split.
  - rewrite rstrip_cons; rewrite IH1; [reflexivity|].
    destruct t; [exact Hne | discriminate].
  - rewrite rstrip_cons; rewrite IH2; [reflexivity|].
    destruct t; [exact Hne | discriminate].
Qed.

Lemma split_on_segment (s : string) :
  Text.contains "/" s = false -> Text.split_on "/" s = [s].
Proof.
  induction s as [|c s IH]; [reflexivity|]. intros Hfree.
  apply contains_slash_cons in Hfree. destruct Hfree as [Hc Hs].
  cbn [Text.split_on]. rewrite Hc, (IH Hs). reflexivity.
Qed.

Lemma split_on_app (s t : string) :
  Text.contains "/" s = false ->
  Text.split_on "/" (s ++ "/" ++ t) = s :: Text.split_on "/" t.
Proof.
  induction s as [|c s IH]; [reflexivity|]. intros Hfree.
  apply contains_slash_cons in Hfree. destruct Hfree as [Hc Hs].
  cbn [append Text.split_on]. rewrite Hc.
  change (s ++ String "/" t)%string with (s ++ "/" ++ t)%string.
  rewrite (IH Hs). reflexivity.
Qed.

(** The segments of [/owner/repo], with or without a last slash. *)
Lemma path_parts_owner_repo (owner repo : string) :
  owner <> "" -> repo <> "" ->
  Text.contains "/" owner = false -> Text.contains "/" repo = false ->
  Text.split_on "/" (strip_slashes ("/" ++ owner ++ "/" ++ repo))
  = [owner; repo]
  /\ Text.split_on "/" (strip_slashes ("/" ++ owner ++ "/" ++ repo ++ "/"))
     = [owner; repo].
Proof.
  intros Ho Hr Hfo Hfr. rewrite !strip_slashes_eq.
  change (lstrip_slashes ("/" ++ owner ++ "/" ++ repo))
    with (lstrip_slashes (owner ++ "/" ++ repo)).
  change (lstrip_slashes ("/" ++ owner ++ "/" ++ repo ++ "/"))
    with (lstrip_slashes (owner ++ "/" ++ repo ++ "/")).
  rewrite !(lstrip_keeps owner _ Ho Hfo).
  destruct (rstrip_app (owner ++ "/") repo Hr Hfr) as [H1 H2].
  repeat rewrite string_app_assoc in H1.
  repeat rewrite string_app_assoc in H2.
  rewrite H1, H2.
  rewrite (split_on_app owner repo Hfo), (split_on_segment repo Hfr).
  split; reflexivity.
Qed.

(** The one segment of [/owner], with or without a last slash. *)
Lemma path_parts_owner (owner : string) :
  owner <> "" -> Text.contains "/" owner = false ->
  Text.split_on "/" (strip_slashes ("/" ++ owner)) = [owner]
  /\ Text.split_on "/" (strip_slashes ("/" ++ owner ++ "/")) = [owner].
Proof.
  intros Ho Hfo. rewrite !strip_slashes_eq.
  change (lstrip_slashes ("/" ++ owner)) with (lstrip_slashes owner).
  change (lstrip_slashes ("/" ++ owner ++ "/")) with (lstrip_slashes (owner ++ "/")).
  rewrite (lstrip_keeps owner "/" Ho Hfo).
  pose proof (lstrip_keeps owner "" Ho Hfo) as Hl.
  rewrite string_app_nil_r in Hl. rewrite Hl.
  destruct (rstrip_segment owner Ho Hfo) as [H1 H2].
  rewrite H1, H2, (split_on_segment owner Hfo). split; reflexivity.
Qed.

End Repo_name.

(** X17.  For a URL whose host contains [github.com] and whose path is
    [/owner/repo], with or without a last slash, the prefix of the
    temporary directory is [owner_repo]; a [.git] at the end of the path
    stays in the name.  A URL of another host, or with a path of one
    segment, gets [unknown_repository]. *)
Theorem repo_name_is_owner_and_repo (e : env) (url netloc path : string)
  (owner repo : string) :
  urlparse e url = Ret (netloc, path) ->
  owner <> "" -> repo <> "" ->
  Text.contains "/" owner = false -> Text.contains "/" repo = false ->
  (Text.contains "github.com" netloc = true ->
   path = "/" ++ owner ++ "/" ++ repo
   \/ path = "/" ++ owner ++ "/" ++ repo ++ "/" ->
   _get_repo_name_from_url e url = Ret (owner ++ "_" ++ repo))
  /\ (Text.contains "github.com" netloc = true ->
      path = "/" ++ owner \/ path = "/" ++ owner ++ "/" ->
      _get_repo_name_from_url e url = Ret "unknown_repository")
  /\ (Text.contains "github.com" netloc = false ->
      _get_repo_name_from_url e url = Ret "unknown_repository").
Proof.
  intros Hparse Ho Hr Hfo Hfr.
  unfold _get_repo_name_from_url. rewrite Hparse. cbn [bind].
  split; [|split].
  - intros Hhost Hpath. rewrite Hhost.
    destruct (path_parts_owner_repo owner repo Ho Hr Hfo Hfr) as [H1 H2].
    destruct Hpath as [-> | ->]; [rewrite H1 | rewrite H2]; reflexivity.
  - intros Hhost Hpath. rewrite Hhost.
    destruct (path_parts_owner owner Ho Hfo) as [H1 H2].
    destruct Hpath as [-> | ->]; [rewrite H1 | rewrite H2]; reflexivity.
  - intros Hhost. rewrite Hhost. reflexivity.
Qed.

Lemma repo_name_witness :
  let e := sample_env (exited 0 "" "") bare_checkout (exited 0 "" "") in
  _get_repo_name_from_url e sample_url = Ret "octocat_Hello-World".
Proof.
  cbv zeta.
  assert (Ho : "octocat" <> "") by discriminate.
  assert (Hr : "Hello-World" <> "") by discriminate.
  pose proof (repo_name_is_owner_and_repo
                (sample_env (exited 0 "" "") bare_checkout (exited 0 "" ""))
                sample_url "github.com" "/octocat/Hello-World"
                "octocat" "Hello-World" eq_refl Ho Hr eq_refl eq_refl)
    as (Hname & _).
  exact (Hname eq_refl (or_introl eq_refl)).
Defined.

(** ** The lines flake8 is scored on *)

Lemma flake8_count_line_effect (i k : Z) (line : string) :
  flake8_count_line (i, k) line
  = (i + (if flake8_issue_line line then 1 else 0),
     k + (if flake8_critical_line line then 1 else 0)).
Proof.
  unfold flake8_count_line, flake8_critical_line, flake8_issue_line.
  destruct (negb (Text.is_empty (Text.strip line))); cbn [andb].
  - destruct (existsb _ _); f_equal; lia.
  - f_equal; lia.
Qed.

Lemma flake8_fold_counts (lines : list string) :
  forall i k : Z,
    fold_left flake8_count_line lines (i, k)
    = (i + count_if flake8_issue_line lines,
       k + count_if flake8_critical_line lines).
Proof.
  induction lines as [|line lines IH]; intros i k.
  - unfold count_if. simpl. rewrite !Z.add_0_r. reflexivity.
  - cbn [fold_left]. rewrite flake8_count_line_effect, IH, !count_if_cons.
    f_equal; lia.
Qed.

(** X18.  For a run of flake8 that ended with another status than 0,
    the issues are the non-blank lines of its stderr and the critical
    ones those that contain [e9], [f], [e112] or [e113] in any case;
    nothing is read from stdout, where flake8 prints its findings, so a
    run with a blank stderr reports no issue and scores 80. *)
Theorem flake8_counts_lines_of_stderr (ws : workspace) (c : completed) :
  no_python_files ws = false -> returncode c <> 0 ->
  let n := count_if flake8_issue_line (flake8_lines c) in
  let k := count_if flake8_critical_line (flake8_lines c) in
  run_flake8_analysis ws (Ret c)
  = {| Lint.score := flake8_policy n k;
       Lint.issues := n;
       Lint.critical_issues := k;
       Lint.details := [] |}
  /\ (Text.strip (stderr c) = "" ->
      run_flake8_analysis ws (Ret c)
      = {| Lint.score := 80; Lint.issues := 0; Lint.critical_issues := 0;
           Lint.details := [] |}).
Proof.
  intros Hpy Hrc n k.
  assert (Hrun : run_flake8_analysis ws (Ret c)
                 = {| Lint.score := flake8_policy n k;
                      Lint.issues := n;
                      Lint.critical_issues := k;
                      Lint.details := [] |}).
  { unfold run_flake8_analysis, flake8_body.
    unfold no_python_files in Hpy.
    destruct (rglob ws ".py") as [|f fs]; [discriminate|].
    cbn [St.bind St.lift].
    apply Z.eqb_neq in Hrc. rewrite Hrc.
    fold (flake8_lines c). rewrite flake8_fold_counts.
    reflexivity. }
  split; [exact Hrun|].
  intros Hblank. rewrite Hrun. subst n k. unfold flake8_lines.
  rewrite Hblank. reflexivity.
Qed.

Lemma flake8_counts_lines_witness :
  run_flake8_analysis py_checkout
    (exited 1 "setup.py:1:1: F401 'os' imported but unused" "")
  = {| Lint.score := 80; Lint.issues := 0; Lint.critical_issues := 0;
       Lint.details := [] |}.
Proof.
  assert (Hrc : returncode
                  {| returncode := 1;
                     stdout := "setup.py:1:1: F401 'os' imported but unused";
                     stderr := "" |} <> 0) by discriminate.
  pose proof (flake8_counts_lines_of_stderr py_checkout _ eq_refl Hrc) as H.
  cbv zeta in H. destruct H as [_ H]. exact (H eq_refl).
Defined.

(** ** ESLint on a well-formed report *)

Section Eslint_report.

Lemma eslint_count_item_file (t : Z) (file : dict * list dict) :
  eslint_count_item t (eslint_file file)
  = Ret (t + Z.of_nat (List.length (snd file))).
Proof.
  unfold eslint_count_item, eslint_file. cbn [Json.get bind].
  rewrite dict_get_set. cbn [Json.len bind]. rewrite length_map.
  reflexivity.
Qed.

Lemma eslint_count_items_report (files : list (dict * list dict)) :
  forall t,
    foldM eslint_count_item (map eslint_file files) t
    = Ret (t + Z.of_nat (List.length (report_messages files))).
Proof.
  induction files as [|file files IH]; intros t.
  - cbn. rewrite Z.add_0_r. reflexivity.
  - cbn [map foldM]. rewrite eslint_count_item_file. cbn [bind].
    rewrite IH. unfold report_messages. cbn [flat_map].
    rewrite length_app, Nat2Z.inj_add. f_equal. lia.
Qed.

Lemma eslint_count_message_rule (k : Z) (m : dict) :
  rule_id m <> None ->
  eslint_count_message k (JObj m)
  = Ret (k + if eslint_critical_message m then 1 else 0).
Proof.
  unfold eslint_count_message, eslint_critical_message, rule_id.
  cbn [Json.get bind].
  destruct (dict_get "ruleId" m) as [[| | |s| |]|]; intros H;
    try congruence; cbn [Json.lower bind];
    destruct (existsb _ _); rewrite ?Z.add_0_r; reflexivity.
Qed.

Lemma eslint_count_messages_rules (ms : list dict) :
  Forall (fun m => rule_id m <> None) ms ->
  forall k,
    foldM eslint_count_message (map JObj ms) k
    = Ret (k + count_if eslint_critical_message ms).
Proof.
  induction 1 as [|m ms Hm _ IH]; intros k.
  - cbn. unfold count_if. cbn. rewrite Z.add_0_r. reflexivity.
  - cbn [map foldM]. rewrite (eslint_count_message_rule k m Hm).
    cbn [bind]. rewrite IH, count_if_cons. f_equal. lia.
Qed.

Lemma eslint_count_files_report (files : list (dict * list dict)) :
  Forall (fun m => rule_id m <> None) (report_messages files) ->
  forall k,
    foldM eslint_count_file (map eslint_file files) k
    = Ret (k + count_if eslint_critical_message (report_messages files)).
Proof.
  induction files as [|file files IH]; intros Hall k.
  - cbn. unfold count_if. cbn. rewrite Z.add_0_r. reflexivity.
  - unfold report_messages in Hall. cbn [flat_map] in Hall.
    apply Forall_app in Hall. destruct Hall as [Hms Hrest].
    cbn [map foldM]. unfold eslint_count_file at 1, eslint_file at 1.
    cbn [Json.get bind]. rewrite dict_get_set. cbn [Json.iter bind].
    rewrite (eslint_count_messages_rules (snd file) Hms). cbn [bind].
    rewrite (IH Hrest). unfold report_messages. cbn [flat_map].
    unfold count_if. rewrite filter_app, length_app, Nat2Z.inj_add.
    f_equal. lia.
Qed.

End Eslint_report.

(** X19.  On a report of ESLint that is a list of file objects whose
    messages are objects with a string, or no, [ruleId]: [issues] is the
    number of messages of all files, [critical_issues] the number of
    those whose rule name contains [no-unused-vars], [error] or
    [no-unreachable] (the severity of a message is not read), the score
    is the ESLint policy of the two counts, and no error is recorded.
    An empty stdout is read as a report without files: score 80. *)
Theorem eslint_on_well_formed_report (jl : string -> result json)
  (ws : workspace) (c : completed) (files : list (dict * list dict)) :
  runs_eslint ws = true ->
  (returncode c =? 0) || (returncode c =? 1) = true ->
  (if Text.is_empty (stdout c) then files = []
   else jl (stdout c) = Ret (eslint_report files)) ->
  Forall (fun m => rule_id m <> None) (report_messages files) ->
  let n := Z.of_nat (List.length (report_messages files)) in
  let k := count_if eslint_critical_message (report_messages files) in
  run_eslint_analysis jl ws (Ret c)
  = {| Lint.score := eslint_policy n k;
       Lint.issues := n;
       Lint.critical_issues := k;
       Lint.details := [] |}
  /\ (files = [] -> Lint.score (run_eslint_analysis jl ws (Ret c)) = 80).
Proof.
  intros Hruns Hrc Hout Hall n k.
  unfold runs_eslint, no_js_ts_files in Hruns.
  apply andb_prop in Hruns. destruct Hruns as [Hsrc Hcfg].
  assert (Hparse : eslint_parse jl (stdout c) Lint.init
                   = ({| Lint.score := eslint_policy n k;
                         Lint.issues := n;
                         Lint.critical_issues := k;
                         Lint.details := [] |}, Ret tt)).
  { unfold eslint_parse.
    assert (Hdata : (if Text.is_empty (stdout c) then Ret (JArr [])
                     else jl (stdout c)) = Ret (eslint_report files)).
    { destruct (Text.is_empty (stdout c)); [subst files; reflexivity|].
      exact Hout. }
    rewrite Hdata. unfold eslint_report.
    cbn [St.bind St.lift Json.iter].
    rewrite (eslint_count_items_report files 0),
            (eslint_count_files_report files Hall 0).
    cbn [St.bind St.lift]. rewrite !Z.add_0_l. reflexivity. }
  assert (Hrun : run_eslint_analysis jl ws (Ret c)
                 = {| Lint.score := eslint_policy n k;
                      Lint.issues := n;
                      Lint.critical_issues := k;
                      Lint.details := [] |}).
  { unfold run_eslint_analysis, eslint_body.
    destruct (_ ++ _)%list; [discriminate|].
    fold eslint_config_names. cbn [St.bind St.lift]. revert Hcfg.
    destruct (any_exists ws _) as [[|]|e]; try discriminate; intros _.
    cbn [negb St.bind St.lift].
    rewrite Hrc. unfold St.except_json. rewrite Hparse. reflexivity. }
  split; [exact Hrun|].
  intros Hnil. rewrite Hrun. subst n k. rewrite Hnil. reflexivity.
Qed.

Lemma eslint_on_well_formed_report_witness :
  let files :=
    [([("filePath", JStr "index.js")],
      [[("ruleId", JStr "no-unused-vars"); ("severity", JNum (Int 1))];
       [("ruleId", JStr "no-undef"); ("severity", JNum (Int 2))];
       [("severity", JNum (Int 2))]])] in
  run_eslint_analysis (fun _ => Ret (eslint_report files)) js_checkout
    (exited 1 "[...]" "")
  = {| Lint.score := 74; Lint.issues := 3; Lint.critical_issues := 1;
       Lint.details := [] |}.
Proof.
  cbv zeta.
  assert (Hall : Forall (fun m => rule_id m <> None)
            (report_messages
               [([("filePath", JStr "index.js")],
                 [[("ruleId", JStr "no-unused-vars");
                   ("severity", JNum (Int 1))];
                  [("ruleId", JStr "no-undef"); ("severity", JNum (Int 2))];
                  [("severity", JNum (Int 2))]])]))
    by (repeat constructor; discriminate).
  pose proof (eslint_on_well_formed_report
    (fun _ => Ret (eslint_report
       [([("filePath", JStr "index.js")],
         [[("ruleId", JStr "no-unused-vars"); ("severity", JNum (Int 1))];
          [("ruleId", JStr "no-undef"); ("severity", JNum (Int 2))];
          [("severity", JNum (Int 2))]])]))
    js_checkout
    {| returncode := 1; stdout := "[...]"; stderr := "" |}
    _ eq_refl eq_refl eq_refl Hall) as H.
  cbv zeta in H. destruct H as [H _]. exact H.
Defined.
